(** * gpslogger: GPS data and photo logger

    A shallow embedding of [gpslogger/gpslogger.py] (Python 2) and the
    properties of its unit conversions, of its fix-acquisition loop and
    of its distance-gated logging event.

    Python floats are IEEE 754 binary64 values: they are modelled by
    Rocq's primitive floats, whose operations are specified bit for bit
    by [SpecFloat].  Python integers are unbounded: they are [Z]. *)

From Stdlib Require Import ZArith QArith Qround Floats Lia Bool String Ascii List.
From Stdlib Require Import DecimalString.
Import ListNotations.

Local Open Scope Z_scope.

(** ** Exceptions and results *)

(** The exceptions the modelled code can raise.  [CollaboratorError]
    stands for whatever the temperature probe, the clock library or
    the camera raise ([IOError], [IndexError], [PiCameraError], ...). *)
Inductive exn : Type :=
| ValueError
| OverflowError
| StopIteration
| UnboundLocalError
| CollaboratorError (what : string).

Inductive result (A : Type) : Type :=
| Ok (a : A)
| Raise (e : exn).

Arguments Ok {A} a.
Arguments Raise {A} e.

Definition bind {A B : Type} (r : result A) (k : A -> result B) : result B :=
  match r with
  | Ok a => k a
  | Raise e => Raise e
  end.

Notation "x <- r ;; k" := (bind r (fun x => k))
  (at level 61, r at next level, right associativity).
Notation "' p <- r ;; k" := (bind r (fun x => let p := x in k))
  (at level 61, p pattern, r at next level, right associativity).

(** ** Python's numeric tower, as far as the program uses it *)

Module Py.

(** [int(x)] for a float [x]: truncation towards zero; [int(nan)]
    raises [ValueError], [int(inf)] raises [OverflowError]. *)
Definition SFtrunc (x : spec_float) : result Z :=
  match x with
  | S754_nan => Raise ValueError
  | S754_infinity _ => Raise OverflowError
  | S754_zero _ => Ok 0
  | S754_finite s m e =>
      let a := match e with
               | Zneg p => Zpos m / 2 ^ Zpos p
               | _ => Zpos m * 2 ^ e
               end in
      Ok (if s then - a else a)
  end.

Definition int_of_float (x : float) : result Z := SFtrunc (Prim2SF x).

(** [float(n)] for an integer [n]: the nearest binary64 value, ties
    to even; an integer beyond the largest float raises
    [OverflowError]. *)
Definition SF_of_int (n : Z) : spec_float :=
  binary_normalize prec emax n 0 false.

Definition float_of_int (n : Z) : result float :=
  match SF_of_int n with
  | S754_infinity _ => Raise OverflowError
  | sf => Ok (SF2Prim sf)
  end.

(** Mixed arithmetic converts the integer operand first. *)
Definition float_sub_int (x : float) (n : Z) : result float :=
  y <- float_of_int n ;; Ok (x - y)%float.

Definition int_mul_float (n : Z) (x : float) : result float :=
  y <- float_of_int n ;; Ok (y * x)%float.

(** Truth value of a float: everything but (plus or minus) zero. *)
Definition truthy (x : float) : bool := negb (x =? 0)%float.

(** [x > n] for a float [x] and an integer [n]: Python compares the
    two exactly, without rounding [n]. *)
Definition SF_gt_int (x : spec_float) (n : Z) : bool :=
  match x with
  | S754_nan => false
  | S754_infinity s => negb s
  | S754_zero _ => n <? 0
  | S754_finite s m e =>
      let sm := if s then Zneg m else Zpos m in
      match e with
      | Zneg p => n * 2 ^ Zpos p <? sm
      | _ => n <? sm * 2 ^ e
      end
  end.

Definition float_gt_int (x : float) (n : Z) : bool :=
  SF_gt_int (Prim2SF x) n.

(** The rational number a finite float denotes (0 for the others). *)
Definition SF2Q (x : spec_float) : Q :=
  match x with
  | S754_finite s m e =>
      let sm := if s then Zneg m else Zpos m in
      match e with
      | Zneg p => Qmake sm (2 ^ p)
      | _ => inject_Z (sm * 2 ^ e)
      end
  | _ => 0%Q
  end.

Definition float2Q (x : float) : Q := SF2Q (Prim2SF x).

(** [str(n)] for an integer. *)
Definition str_of_int (n : Z) : string :=
  NilZero.string_of_int (Z.to_int n).

End Py.

(** ** [float(s)] for a string [s]

    Python strips white space, accepts an optional sign followed by
    [inf], [infinity] or [nan] in any letter case, or by a decimal
    literal with an optional fraction and exponent, and rounds the
    decimal value to the nearest binary64 value.  Anything else raises
    [ValueError]. *)

Module PyFloatParse.

Local Open Scope nat_scope.

Definition is_space (c : ascii) : bool :=
  let n := nat_of_ascii c in (n =? 32) || ((9 <=? n) && (n <=? 13)).

Definition is_digit (c : ascii) : bool :=
  let n := nat_of_ascii c in (48 <=? n) && (n <=? 57).

Definition digit_val (c : ascii) : Z := (Z.of_nat (nat_of_ascii c) - 48)%Z.

Definition lower (c : ascii) : ascii :=
  let n := nat_of_ascii c in
  if (65 <=? n) && (n <=? 90) then ascii_of_nat (n + 32) else c.

Fixpoint drop_spaces (l : list ascii) : list ascii :=
  match l with
  | c :: r => if is_space c then drop_spaces r else l
  | [] => []
  end.

Definition strip (l : list ascii) : list ascii :=
  rev (drop_spaces (rev (drop_spaces l))).

(** Reads a run of digits: the value accumulated, how many digits
    were read, and what follows. *)
Fixpoint take_digits (l : list ascii) (acc : Z) (n : Z) : Z * Z * list ascii :=
  match l with
  | c :: r =>
      if is_digit c then take_digits r (10 * acc + digit_val c)%Z (n + 1)%Z
      else (acc, n, l)
  | [] => (acc, n, [])
  end.

Definition take_sign (l : list ascii) : bool * list ascii :=
  match l with
  | "-"%char :: r => (true, r)
  | "+"%char :: r => (false, r)
  | _ => (false, l)
  end.

(** A decimal literal: the integer [m] and the power of ten [e]
    such that the literal denotes [m * 10 ^ e]. *)
Definition parse_decimal (l : list ascii) : option (Z * Z) :=
  let '(i, ni, r1) := take_digits l 0%Z 0%Z in
  let '(m, nf, r2) :=
    match r1 with
    | "."%char :: r => take_digits r i 0%Z
    | _ => (i, 0%Z, r1)
    end in
  if (ni + nf =? 0)%Z then None
  else
    match r2 with
    | [] => Some (m, (- nf)%Z)
    | c :: r3 =>
        if Ascii.eqb (lower c) "e"%char then
          let '(neg, r4) := take_sign r3 in
          let '(x, nx, r5) := take_digits r4 0%Z 0%Z in
          match r5 with
          | [] => if (nx =? 0)%Z then None
                  else Some (m, ((if neg then - x else x) - nf)%Z)
          | _ :: _ => None
          end
        else None
    end.

(** The binary64 value nearest to [(-1)^neg * m * 10 ^ e]. *)
Definition SF_of_decimal (neg : bool) (m e : Z) : spec_float :=
  if (m =? 0)%Z then S754_zero neg
  else
    match e with
    | Zneg k =>
        let '(q, e', l) := SFdiv_core_binary prec emax m 0 (10 ^ Zpos k) 0 in
        binary_round_aux prec emax neg q e' l
    | _ =>
        binary_normalize prec emax (if neg then - (m * 10 ^ e) else m * 10 ^ e)%Z 0 false
    end.

Definition parse_float (l : list ascii) : option spec_float :=
  let '(neg, body) := take_sign (strip l) in
  let word := string_of_list_ascii (map lower body) in
  if (word =? "inf")%string || (word =? "infinity")%string
  then Some (S754_infinity neg)
  else if (word =? "nan")%string then Some S754_nan
  else
    match parse_decimal body with
    | Some (m, e) => Some (SF_of_decimal neg m e)
    | None => None
    end.

Definition float_of_string (s : string) : result float :=
  match parse_float (list_ascii_of_string s) with
  | Some sf => Ok (SF2Prim sf)
  | None => Raise ValueError
  end.

End PyFloatParse.

(** A float literal of the source text, e.g. [2.23694]. *)
Definition float_literal (s : string) : float :=
  match PyFloatParse.float_of_string s with
  | Ok x => x
  | Raise _ => nan
  end.

(** ** Effects

    What the program does to the outside world is recorded as a trace
    of events, oldest first.  A computation extends the trace and
    either returns or raises; what was done before a raise stays done. *)

Inductive event : Type :=
| Sleep (seconds : float)
| Print (items : list string)
| FileWrite (path text : string)     (* open(path,'w') ... write(text) *)
| FileAppend (path text : string)    (* open(path,'a') ... write(text) *)
| Capture (path : string) (exif_tags : list (string * string)).

Definition prog (A : Type) : Type := list event -> result A * list event.

Definition ret {A : Type} (a : A) : prog A := fun t => (Ok a, t).

Definition lift {A : Type} (r : result A) : prog A := fun t => (r, t).

Definition emit (ev : event) : prog unit := fun t => (Ok tt, t ++ [ev]).

Definition emit_all (evs : list event) : prog unit := fun t => (Ok tt, t ++ evs).

Definition bindP {A B : Type} (m : prog A) (k : A -> prog B) : prog B :=
  fun t =>
    match m t with
    | (Ok a, t') => k a t'
    | (Raise e, t') => (Raise e, t')
    end.

Notation "x <~ m ;; k" := (bindP m (fun x => k))
  (at level 61, m at next level, right associativity).
Notation "' p <~ m ;; k" := (bindP m (fun x => let p := x in k))
  (at level 61, p pattern, m at next level, right associativity).
Notation "m ;;; k" := (bindP m (fun _ => k))
  (at level 61, right associativity).

(** The text the program has put into the file [path]: a write
    replaces the content, an append extends it. *)
Fixpoint file_content_from (path : string) (t : list event) (acc : string) : string :=
  match t with
  | [] => acc
  | FileWrite p text :: t' =>
      file_content_from path t' (if String.eqb p path then text else acc)
  | FileAppend p text :: t' =>
      file_content_from path t' (if String.eqb p path then acc ++ text else acc)%string
  | _ :: t' => file_content_from path t' acc
  end.

Definition file_content (path : string) (t : list event) : string :=
  file_content_from path t EmptyString.

(** ** The program *)

Local Open Scope string_scope.

(** A value of a gpsd report attribute, as the JSON decoder hands it
    over: a number or a string. *)
Inductive pyval : Type :=
| PyFloat (x : float)
| PyInt (n : Z)
| PyStr (s : string).

(** [float(v)] *)
Definition py_float (v : pyval) : result float :=
  match v with
  | PyFloat x => Ok x
  | PyInt n => Py.float_of_int n
  | PyStr s => PyFloatParse.float_of_string s
  end.

(** A gpsd report: its class and the attributes the program reads.
    An attribute the report does not carry is [None]. *)
Record report : Type := {
  class : string;
  satellites : list Z;
  lat : option pyval;
  lon : option pyval;
  mode : option pyval;
  time : option pyval;
  speed : option pyval;
  alt : option pyval
}.

Definition getattr (a : option pyval) (default : pyval) : pyval :=
  match a with
  | Some v => v
  | None => default
  end.

(** [dec2dms]: decimal degrees to degrees, minutes, seconds; the sign
    is ignored. *)
Definition dec2dms (ddeg : float) : result (Z * Z * Z) :=
  let ddeg := abs ddeg in
  degrees <- Py.int_of_float ddeg ;;
  (* minutes = int(60 * (ddeg - degrees)) *)
  f <- Py.float_sub_int ddeg degrees ;;
  m <- Py.int_mul_float 60 f ;;
  minutes <- Py.int_of_float m ;;
  (* seconds = int(6000 * (60 * (ddeg - degrees) - minutes)) *)
  f <- Py.float_sub_int ddeg degrees ;;
  m <- Py.int_mul_float 60 f ;;
  g <- Py.float_sub_int m minutes ;;
  s <- Py.int_mul_float 6000 g ;;
  seconds <- Py.int_of_float s ;;
  Ok (degrees, minutes, seconds).

(** [is_number]: only [ValueError] is caught. *)
Definition is_number (s : pyval) : result bool :=
  match py_float s with
  | Ok x => Ok (x =? x)%float
  | Raise ValueError => Ok false
  | Raise e => Raise e
  end.

(** [strtofloat] *)
Definition strtofloat (s : pyval) : result float :=
  b <- is_number s ;;
  let s := if negb b then PyFloat 0 else s in
  py_float s.

(** [latlonfix]: latitude, longitude and fix status of a report. *)
Definition latlonfix (r : report) : result (float * float * Z) :=
  lat <- strtofloat (getattr (lat r) (PyFloat 0)) ;;
  lon <- strtofloat (getattr (lon r) (PyFloat 0)) ;;
  x <- strtofloat (getattr (mode r) (PyInt 0)) ;;
  satfix <- Py.int_of_float x ;;
  Ok (lat, lon, satfix).

(** *** The fix-acquisition loop of [logGPSdata] *)

(** The local variables of [logGPSdata] that the loop updates.
    [saveReport] is unbound until a position report is accepted. *)
Record acq : Type := {
  a_lat : float;
  a_lon : float;
  a_satfix : Z;
  a_sats : Z;
  noSats : bool;
  noCoords : bool;
  saveReport : option report
}.

Definition acq_init : acq :=
  {| a_lat := 0; a_lon := 0; a_satfix := 0; a_sats := 0;
     noSats := true; noCoords := true; saveReport := None |}.

(** One turn of the [while noSats or noCoords] loop, on the report
    that [gpsd.next()] returned. *)
Definition loop_body (r : report) (st : acq) : prog acq :=
  if String.eqb (class r) "SKY" && noSats st then
    ret {| a_lat := a_lat st; a_lon := a_lon st; a_satfix := a_satfix st;
           a_sats := Z.of_nat (length (satellites r));
           noSats := false;
           noCoords := noCoords st; saveReport := saveReport st |}
  else if String.eqb (class r) "TPV" && noCoords st then
    '(lat, lon, satfix) <~ lift (latlonfix r) ;;
    if Py.truthy lon && Py.truthy lat then
      ret {| a_lat := lat; a_lon := lon; a_satfix := satfix; a_sats := a_sats st;
             noSats := noSats st;
             noCoords := false; saveReport := Some r |}
    else
      let st' := {| a_lat := lat; a_lon := lon; a_satfix := satfix; a_sats := a_sats st;
                    noSats := noSats st;
                    noCoords := noCoords st; saveReport := saveReport st |} in
      if (satfix =? 0)%Z then emit (Sleep 0.5) ;;; ret st'
      else ret st'
  else ret st.

(** The loop, over the reports the daemon delivers, in order.  When
    the connection ends before the loop is done, [gpsd.next()] raises
    [StopIteration]. *)
Fixpoint acquire (reports : list report) (st : acq) : prog acq :=
  if noSats st || noCoords st then
    match reports with
    | [] => lift (Raise StopIteration)
    | r :: rest => st' <~ loop_body r st ;; acquire rest st'
    end
  else ret st.

(** *** The logging event *)

Definition loc : Type := float * float.

(** What one call of [logGPSdata] meets outside the program: the
    reports of the fresh gpsd connection, what [read_temp] returns (the
    Celsius and Fahrenheit readings) or raises, and whether opening the
    camera and capturing succeed.  The field [read_temp] stands for
    [temp = read_temp()] together with the subscript [temp[1]] of the
    next line: when [read_temp] returns [None], the subscript raises
    [TypeError], and the field is that raise. *)
Record cycle : Type := {
  gps_reports : list report;
  read_temp : result (float * float);
  camera_open : result unit;
  camera_capture : result unit
}.

Definition mph_per_mps : float := Eval vm_compute in float_literal "2.23694".
Definition feet_per_meter : float := Eval vm_compute in float_literal "3.28084".

Definition join_commas (fields : list string) : string := String.concat "," fields.

(** The library functions the program calls: geopy's geodesic distance
    in feet, the date and time functions ([strptime] with the zone set
    to UTC, the conversion to US/Central, [strftime]), the text form of
    a float and [round(x, 1)]. *)
Class Libraries : Type := {
  distance_feet : loc -> loc -> float;
  datetime : Type;
  strptime_utc : string -> result datetime;
  astimezone_central : datetime -> datetime;
  strftime : datetime -> string -> string;
  str_of_float : float -> string;
  round1 : float -> float
}.

Section Program.

Context {L : Libraries}.

(** [str(v)] *)
Definition py_str (v : pyval) : string :=
  match v with
  | PyFloat x => str_of_float x
  | PyInt n => Py.str_of_int n
  | PyStr s => s
  end.

(** [subdir + '-' + str(ndx) + '.jpg'] *)
Definition photo_name (subdir : string) (ndx : Z) : string :=
  subdir ++ "-" ++ Py.str_of_int ndx ++ ".jpg".

(** The text written to the CSV file for one data point:
    ['%s,%s,%s,%s,%s,%s,%s,%s,%s' % (...)]. *)
Definition csv_row (date_str time_str : string)
    (lat lon speed_mph alt_feet temp_f : float) (sats : Z) (picname : string) : string :=
  join_commas [date_str; time_str; str_of_float lat; str_of_float lon;
               str_of_float speed_mph; str_of_float alt_feet; str_of_float temp_f;
               Py.str_of_int sats; picname].

(** The [print] statements of the debug output. *)
Definition debug_prints (date_str time_str : string)
    (lat lon speed_mph alt_feet temp_f : float) (sats : Z) (picname : string) : list event :=
  [Print [date_str; "	"]; Print [time_str; "	"];
   Print [str_of_float lat; "	"]; Print [str_of_float lon; "	"];
   Print [str_of_float speed_mph; "	"]; Print [str_of_float alt_feet; "	"];
   Print [str_of_float temp_f; "	"]; Print [Py.str_of_int sats; "	"];
   Print [picname; "	"]].

(** ['%d/1,%d/1,%d/100' % dec2dms(x)] *)
Definition exif_dms (x : float) : result string :=
  '(d, m, s) <- dec2dms x ;;
  Ok (Py.str_of_int d ++ "/1," ++ Py.str_of_int m ++ "/1,"
      ++ Py.str_of_int s ++ "/100").

(** ['%d/<den>' % int(k * x)] *)
Definition exif_ratio (k : Z) (x : float) (den : string) : result string :=
  y <- Py.int_mul_float k x ;;
  n <- Py.int_of_float y ;;
  Ok (Py.str_of_int n ++ "/" ++ den).

(** The GPS Exif tags, in the order the program sets them. *)
Definition gps_exif_tags (lat lon : float) (lat_ref lon_ref : string)
    (alt_meters speed_mps : float) (sats : Z) (utc : datetime)
  : result (list (string * string)) :=
  gps_lat <- exif_dms lat ;;
  gps_lon <- exif_dms lon ;;
  gps_alt <- exif_ratio 100 alt_meters "100" ;;
  gps_speed <- exif_ratio 1000 speed_mps "1000" ;;
  Ok [("GPS.GPSLatitude", gps_lat);
      ("GPS.GPSLatitudeRef", lat_ref);
      ("GPS.GPSLongitude", gps_lon);
      ("GPS.GPSLongitudeRef", lon_ref);
      ("GPS.GPSAltitude", gps_alt);
      ("GPS.GPSAltitudeRef", "0");
      ("GPS.GPSSpeed", gps_speed);
      ("GPS.GPSSpeedRef", "M");
      ("GPS.GPSSatellites", Py.str_of_int sats);
      ("GPS.GPSTimeStamp",
       strftime utc "%H" ++ "/1," ++ strftime utc "%M" ++ "/1,"
       ++ strftime utc "%S" ++ "/1");
      ("GPS.GPSDateStamp", strftime utc "%Y:%m:%d")].

(** [logGPSdata].  Its parameter [f], a file object that the function
    never uses, is left out; [c] is what this call meets outside. *)
Definition logGPSdata (fullpath subdir csvfilename : string) (ndx : Z)
    (prev_loc : loc) (dtraveled : Z) (debug : bool) (c : cycle) : prog (loc * Z) :=
  st <~ acquire (gps_reports c) acq_init ;;
  let lat := a_lat st in
  let lon := a_lon st in
  let sats := a_sats st in
  saveReport <~ lift (match saveReport st with
                      | Some r => Ok r
                      | None => Raise UnboundLocalError
                      end) ;;
  utc <~ lift (strptime_utc (py_str (getattr (time saveReport) (PyStr "")))) ;;
  let central := astimezone_central utc in
  let date_str := strftime central "%b %d %Y" in
  let time_str := strftime central "%I:%M:%S%p %Z" in
  let lat_ref := if (lat <? 0)%float then "S" else "N" in
  let lon_ref := if (lon <? 0)%float then "W" else "E" in
  speed_mps <~ lift (strtofloat (getattr (speed saveReport) (PyStr "0.0"))) ;;
  let speed_mph := round1 (speed_mps * mph_per_mps)%float in
  alt_meters <~ lift (strtofloat (getattr (alt saveReport) (PyStr "0.0"))) ;;
  let alt_feet := round1 (alt_meters * feet_per_meter)%float in
  let cur_loc := (lat, lon) in
  temp <~ lift (read_temp c) ;;
  let temp_f := round1 (snd temp) in
  (* Only log a data point if we've traveled more than X feet *)
  ndx <~ (if Py.float_gt_int (distance_feet prev_loc cur_loc) dtraveled then
            let ndx := ndx + 1 in
            let picname := photo_name subdir ndx in
            (if debug then
               emit_all (debug_prints date_str time_str lat lon speed_mph
                           alt_feet temp_f sats picname)
             else ret tt) ;;;
            emit (FileAppend (fullpath ++ "/" ++ csvfilename)
                    (csv_row date_str time_str lat lon speed_mph alt_feet
                       temp_f sats picname)) ;;;
            (* Fire up the Pi Camera then take a picture! *)
            lift (camera_open c) ;;;
            emit (Sleep 2) ;;;
            exif_tags <~ lift (gps_exif_tags lat lon lat_ref lon_ref alt_meters
                                 speed_mps sats utc) ;;
            lift (camera_capture c) ;;;
            emit (Capture (fullpath ++ "/" ++ picname) exif_tags) ;;;
            ret ndx
          else ret ndx) ;;
  ret (cur_loc, ndx).

(** *** The worker loop of [main] *)

(** What [main] keeps between calls of [logGPSdata]. *)
Record session : Type := {
  prev_loc : loc;
  ndx : Z
}.

Definition session_init : session := {| prev_loc := (0, 0)%float; ndx := 0 |}.

Definition csv_header : string :=
  "Date,Localtime,latitude,longitude,speed,alt,temp,sats,photo
".

(** The start of [main]: the header line of the CSV file. *)
Definition main_setup (fullpath csvfilename : string) (debug : bool) : prog unit :=
  emit (FileWrite (fullpath ++ "/" ++ csvfilename) csv_header) ;;;
  if debug then
    emit (Print ["Date		Localtime	latitude	longitude	speed	alt	temp	sats	photo"])
  else ret tt.

(** The name of an exception, for the message of [main]. *)
Definition exn_name (e : exn) : string :=
  match e with
  | ValueError => "ValueError"
  | OverflowError => "OverflowError"
  | StopIteration => "StopIteration"
  | UnboundLocalError => "UnboundLocalError"
  | CollaboratorError what => what
  end.

(** One triggered turn of the worker loop: the call of [logGPSdata]
    and the assignment of its result, or, when it raises, the
    handler of [except Exception], which leaves [prev_loc] and [ndx]
    as they were and asks for another try.  (The message also lists
    the arguments of the exception, which are not modelled.) *)
Definition main_turn (fullpath subdir csvfilename : string) (dtraveled : Z)
    (debug : bool) (s : session) (c : cycle) : prog session :=
  fun t =>
    match logGPSdata fullpath subdir csvfilename (ndx s) (prev_loc s)
            dtraveled debug c t with
    | (Ok (l, n), t') => (Ok {| prev_loc := l; ndx := n |}, t')
    | (Raise e, t') =>
        (Ok s, (t' ++ [Print [("An exception of type " ++ exn_name e
                                ++ " occurred while polling the GPS.")%string];
                       Sleep 1;
                       Print ["Trying GPS again..."]])%list)
    end.

(** The turns of the worker loop, one for each time the polling
    interval has elapsed or the button was pressed; the idle ticks of
    a tenth of a second between them are left out. *)
Fixpoint main_loop (fullpath subdir csvfilename : string) (dtraveled : Z)
    (debug : bool) (cycles : list cycle) (s : session) : prog session :=
  match cycles with
  | [] => ret s
  | c :: rest =>
      s' <~ main_turn fullpath subdir csvfilename dtraveled debug s c ;;
      main_loop fullpath subdir csvfilename dtraveled debug rest s'
  end.

End Program.

(** * Stand-ins for the libraries, and sample inputs

    Simple functions in place of geopy, datetime and Python's float
    formatting, and a few gpsd reports, to run the program on. *)

Module Demo.

(** A flat-earth distance: 364000 feet to the degree. *)
Definition flat_distance_feet (a b : loc) : float :=
  ((abs (fst a - fst b) + abs (snd a - snd b)) * 364000)%float.

(** Drops the zeros a list of digits starts with. *)
Fixpoint drop_zeros (l : list ascii) : list ascii :=
  match l with
  | "0"%char :: r => drop_zeros r
  | _ => l
  end.

(** A float in decimal with up to six decimals, as [str] prints the
    short values of the samples: [40.0], [-74.0], [22.4]. *)
Definition decimal_str (x : float) : string :=
  match Py.int_of_float (abs x * 1000000 + 0.5)%float with
  | Ok n =>
      let decimals :=
        match list_ascii_of_string (Py.str_of_int (1000000 + n mod 1000000)) with
        | _ :: ds => rev (drop_zeros (rev ds))
        | [] => []
        end in
      (if (x <? 0)%float then "-" else "")
      ++ Py.str_of_int (n / 1000000) ++ "."
      ++ string_of_list_ascii (match decimals with [] => ["0"%char] | _ => decimals end)
  | Raise _ => "nan"
  end.

(** Rounding to one decimal. *)
Definition round_tenths (x : float) : float :=
  match Py.int_of_float (abs x * 10 + 0.5)%float with
  | Ok n => let y := (SF2Prim (Py.SF_of_int n) / 10)%float in
            if (x <? 0)%float then (- y)%float else y
  | Raise _ => x
  end.

(** The clock: only the time stamp of the samples, midnight UTC of
    the first day of 2020, is known. *)
Definition sample_time : string := "2020-01-01T00:00:00.000Z".

Definition sample_strftime (d : string * bool) (fmt : string) : string :=
  if snd d then
    (* US/Central *)
    if String.eqb fmt "%b %d %Y" then "Dec 31 2019"
    else if String.eqb fmt "%I:%M:%S%p %Z" then "06:00:00PM CST"
    else fmt
  else
    (* UTC *)
    if String.eqb fmt "%H" then "00"
    else if String.eqb fmt "%M" then "00"
    else if String.eqb fmt "%S" then "00"
    else if String.eqb fmt "%Y:%m:%d" then "2020:01:01"
    else fmt.

Definition libraries : Libraries := {|
  distance_feet := flat_distance_feet;
  datetime := string * bool;
  strptime_utc := fun s => if String.eqb s sample_time then Ok (s, false)
                           else Raise ValueError;
  astimezone_central := fun d => (fst d, true);
  strftime := sample_strftime;
  str_of_float := decimal_str;
  round1 := round_tenths
|}.

Definition sky (n : nat) : report :=
  {| class := "SKY"; satellites := repeat 0%Z n; lat := None; lon := None;
     mode := None; time := None; speed := None; alt := None |}.

Definition tpv (la lo : pyval) (md : Z) : report :=
  {| class := "TPV"; satellites := []; lat := Some la; lon := Some lo;
     mode := Some (PyInt md); time := Some (PyStr sample_time);
     speed := Some (PyFloat 10); alt := Some (PyFloat 100) |}.

(** What gpsd reports while the receiver has no fix: a position
    report without coordinates; its mode is 1 ([MODE_NO_FIX]), or 0
    when no mode was seen yet. *)
Definition no_fix (md : Z) : report :=
  {| class := "TPV"; satellites := []; lat := None; lon := None;
     mode := Some (PyInt md); time := None; speed := None; alt := None |}.

Definition devices : report :=
  {| class := "DEVICES"; satellites := []; lat := None; lon := None;
     mode := None; time := None; speed := None; alt := None |}.

(** Three points on a meridian, 88.9 feet apart. *)
Definition point_a : loc := (40, -74)%float.
Definition point_b : loc := (40.000244140625, -74)%float.
Definition point_c : loc := (40.00048828125, -74)%float.

(** A point 11375 feet from [point_a], and one a degree away. *)
Definition point_d : loc := (40.03125, -74)%float.
Definition point_e : loc := (41, -74)%float.

(** The loop variables after the reports of [cycle_at p]. *)
Definition fix_at (p : loc) : acq :=
  {| a_lat := fst p; a_lon := snd p; a_satfix := 3; a_sats := 7;
     noSats := false; noCoords := false;
     saveReport := Some (tpv (PyFloat (fst p)) (PyFloat (snd p)) 3) |}.

(** What a fresh connection may deliver before the loop is done. *)
Definition sample_reports : list report :=
  [devices; tpv (PyFloat 0) (PyFloat 0) 0; sky 7;
   tpv (PyStr "nan") (PyFloat 1) 1;
   tpv (PyFloat 40) (PyFloat (-74)) 3; sky 9].

(** The loop variables after [sample_reports]. *)
Definition sample_final : acq :=
  {| a_lat := 40; a_lon := -74; a_satfix := 3; a_sats := 7;
     noSats := false; noCoords := false;
     saveReport := Some (tpv (PyFloat 40) (PyFloat (-74)) 3) |}.

(** A call that finds seven satellites and a 3D fix at [p]. *)
Definition cycle_at (p : loc) : cycle :=
  {| gps_reports := [sky 7; tpv (PyFloat (fst p)) (PyFloat (snd p)) 3];
     read_temp := Ok (20, 68)%float;
     camera_open := Ok tt; camera_capture := Ok tt |}.

(** The same, with a camera that fails to capture. *)
Definition cycle_camera_fails (p : loc) : cycle :=
  {| gps_reports := [sky 7; tpv (PyFloat (fst p)) (PyFloat (snd p)) 3];
     read_temp := Ok (20, 68)%float;
     camera_open := Ok tt;
     camera_capture := Raise (CollaboratorError "PiCameraError") |}.

(** The Exif tags of the photo at [point_d]. *)
Definition tags_d : list (string * string) :=
  Eval vm_compute in
    match gps_exif_tags (L := libraries) (fst point_d) (snd point_d) "N" "W"
            100 10 7 (sample_time, false) with
    | Ok tags => tags
    | Raise _ => []
    end.

End Demo.

(** * Vocabulary of the properties *)

Local Open Scope Z_scope.

(** ** Binary64 rounding *)

(** Rounding to nearest after a shift by [n]: the quotient, or its
    successor when the remainder is at least half a unit. *)
Definition rounded (m n m1 : Z) : Prop :=
  (m1 = m / 2 ^ n \/ (m1 = m / 2 ^ n + 1 /\ 2 ^ (n - 1) <= m mod 2 ^ n))
  /\ (m mod 2 ^ n = 0 -> m1 = m / 2 ^ n).

(** The second stage of [binary_round_aux]: a mantissa that rounding
    carried to [2 ^ 53] is renormalised. *)
Definition renorm (s : bool) (m1 e1 : Z) : spec_float :=
  let '(mrs, e2) := shr_fexp prec emax m1 e1 loc_Exact in
  match shr_m mrs with
  | Z0 => S754_zero s
  | Zpos m => if e2 <=? emax - prec then S754_finite s m e2 else S754_infinity s
  | _ => S754_nan
  end.

(** A float that is [+0] or positive. *)
Definition nonneg_finite (a : spec_float) : Prop :=
  a = S754_zero false \/ exists m e, a = S754_finite false m e.

(** A float that is [+0] or positive and less than 1. *)
Definition below_one (f : spec_float) : Prop :=
  f = S754_zero false \/
  exists m e, f = S754_finite false m e /\ e < 0 /\ Zpos m < 2 ^ (- e).

Definition finite_SF (a : spec_float) : bool :=
  match a with
  | S754_zero _ | S754_finite _ _ _ => true
  | _ => false
  end.

(** ** [dec2dms] *)

(** One pass through the body of [dec2dms], with every intermediate
    value. *)
Record dms_run (x : float) (degrees minutes seconds : Z) (f m g s : float) : Prop := {
  run_degrees : Py.int_of_float (abs x) = Ok degrees;
  run_f : Py.float_sub_int (abs x) degrees = Ok f;
  run_m : Py.int_mul_float 60 f = Ok m;
  run_minutes : Py.int_of_float m = Ok minutes;
  run_g : Py.float_sub_int m minutes = Ok g;
  run_s : Py.int_mul_float 6000 g = Ok s;
  run_seconds : Py.int_of_float s = Ok seconds;
  run_f_exact : (Py.float2Q f == Py.float2Q (abs x) - inject_Z degrees)%Q;
  run_g_exact : (Py.float2Q g == Py.float2Q m - inject_Z minutes)%Q;
  run_degrees_floor : degrees = Qfloor (Py.float2Q (abs x));
  run_minutes_floor : minutes = Qfloor (Py.float2Q m);
  run_seconds_floor : seconds = Qfloor (Py.float2Q s);
  run_degrees_range : 0 <= degrees;
  run_minutes_range : 0 <= minutes < 60;
  run_seconds_range : 0 <= seconds < 6000
}.

(** The conversion in the words of the specification: the degrees
    are the integer part of the absolute value, the minutes the integer
    part of 60 times the fractional part, the seconds the integer part
    of 6000 times what the minutes leave of that product.  Integer
    parts and differences are exact; the two products are float
    products. *)
Definition DecimalToDMS_spec (x : float) (degrees minutes seconds : Z) : Prop :=
  exists fractional rest : float,
    degrees = Qfloor (Py.float2Q (abs x)) /\
    (Py.float2Q fractional == Py.float2Q (abs x) - inject_Z degrees)%Q /\
    minutes = Qfloor (Py.float2Q (60 * fractional)%float) /\
    (Py.float2Q rest == Py.float2Q (60 * fractional)%float - inject_Z minutes)%Q /\
    seconds = Qfloor (Py.float2Q (6000 * rest)%float).

(** ** The acquisition loop *)

(** What the loop variables say about the reports read so far. *)
Definition acq_inv (pool : list report) (st : acq) : Prop :=
  (noCoords st = false ->
   exists r, In r pool /\ class r = "TPV" /\ saveReport st = Some r /\
             latlonfix r = Ok (a_lat st, a_lon st, a_satfix st) /\
             Py.truthy (a_lat st) = true /\ Py.truthy (a_lon st) = true) /\
  (noSats st = false ->
   exists r, In r pool /\ class r = "SKY" /\
             a_sats st = Z.of_nat (length (satellites r))).

(** ** The logging event *)

(** The last character of a text. *)
Fixpoint last_char (s : string) : option ascii :=
  match s with
  | EmptyString => None
  | String c EmptyString => Some c
  | String _ rest => last_char rest
  end.

(** The line feed, which ends a line of a text file. *)
Definition newline : ascii := ascii_of_nat 10.

Section LoggingVocabulary.

Context {L : Libraries}.

(** The distance test of [logGPSdata], on the fix the loop acquired. *)
Definition gate (prev_loc : loc) (st : acq) (dtraveled : Z) : bool :=
  Py.float_gt_int (distance_feet prev_loc (a_lat st, a_lon st)) dtraveled.

(** The call gets as far as the distance test: the loop ends with the
    variables [st], the time stamp parses, speed and altitude convert
    and the temperature is read. *)
Record at_gate (c : cycle) (t : list event) (st : acq) (t1 : list event)
    (r : report) (utc : datetime) (speed_mps alt_meters : float)
    (temp : float * float) : Prop := {
  gate_acquired : acquire (gps_reports c) acq_init t = (Ok st, t1);
  gate_report : saveReport st = Some r;
  gate_time : strptime_utc (py_str (getattr (time r) (PyStr ""))) = Ok utc;
  gate_speed : strtofloat (getattr (speed r) (PyStr "0.0")) = Ok speed_mps;
  gate_alt : strtofloat (getattr (alt r) (PyStr "0.0")) = Ok alt_meters;
  gate_temp : read_temp c = Ok temp
}.

(** The CSV row, the debug output and the Exif tags of the data point
    numbered [n]. *)
Definition data_row (st : acq) (utc : datetime) (speed_mps alt_meters : float)
    (temp : float * float) (subdir : string) (n : Z) : string :=
  csv_row
    (strftime (astimezone_central utc) "%b %d %Y")
    (strftime (astimezone_central utc) "%I:%M:%S%p %Z")
    (a_lat st) (a_lon st)
    (round1 (speed_mps * mph_per_mps)%float)
    (round1 (alt_meters * feet_per_meter)%float)
    (round1 (snd temp)) (a_sats st) (photo_name subdir n).

Definition data_prints (debug : bool) (st : acq) (utc : datetime)
    (speed_mps alt_meters : float) (temp : float * float) (subdir : string)
    (n : Z) : list event :=
  if debug then
    debug_prints
      (strftime (astimezone_central utc) "%b %d %Y")
      (strftime (astimezone_central utc) "%I:%M:%S%p %Z")
      (a_lat st) (a_lon st)
      (round1 (speed_mps * mph_per_mps)%float)
      (round1 (alt_meters * feet_per_meter)%float)
      (round1 (snd temp)) (a_sats st) (photo_name subdir n)
  else [].

Definition data_tags (st : acq) (utc : datetime) (speed_mps alt_meters : float)
  : result (list (string * string)) :=
  gps_exif_tags (a_lat st) (a_lon st)
    (if (a_lat st <? 0)%float then "S" else "N")
    (if (a_lon st <? 0)%float then "W" else "E")
    alt_meters speed_mps (a_sats st) utc.

(** What follows the writing of the CSV row: the camera. *)
Definition take_photo (c : cycle) (path : string)
    (tags : result (list (string * string))) : prog unit :=
  lift (camera_open c) ;;;
  emit (Sleep 2) ;;;
  exif_tags <~ lift tags ;;
  lift (camera_capture c) ;;;
  emit (Capture path exif_tags).

End LoggingVocabulary.

(** * Further vocabulary *)

(** A field of a report that is missing, or that [is_number]
    refuses: text that is not a number, or NaN. *)
Definition unusable (field : option pyval) : Prop :=
  field = None \/ exists v, field = Some v /\ is_number v = Ok false.

(** The rows appended to files, and the photos captured, in a trace. *)
Fixpoint appends (t : list event) : list (string * string) :=
  match t with
  | [] => []
  | FileAppend p x :: t' => (p, x) :: appends t'
  | _ :: t' => appends t'
  end.

Fixpoint captures (t : list event) : list string :=
  match t with
  | [] => []
  | Capture p _ :: t' => p :: captures t'
  | _ :: t' => captures t'
  end.

Fixpoint writes (t : list event) : list string :=
  match t with
  | [] => []
  | FileWrite p _ :: t' => p :: writes t'
  | _ :: t' => writes t'
  end.

(** The integers [a + 1, ..., a + n]. *)
Definition next_indices (a : Z) (n : nat) : list Z :=
  map (fun i => a + 1 + Z.of_nat i) (seq 0 n).

(** A CSV row whose last field is the name of a photo. *)
Definition names_photo (row photo : string) : Prop :=
  exists fields, row = (fields ++ "," ++ photo)%string.

(** The path of the photo with index [k]. *)
Definition photo_path (fullpath subdir : string) (k : Z) : string :=
  (fullpath ++ "/" ++ photo_name subdir k)%string.

(** What a list of appended texts adds to the file at [path]. *)
Fixpoint texts_for (path : string) (rows : list (string * string)) : string :=
  match rows with
  | [] => ""
  | (p, x) :: rest =>
      ((if String.eqb p path then x else "") ++ texts_for path rest)%string
  end.




(** *** The worker loop of [main], tick by tick *)

(** What the worker loop keeps from one tick to the next: the time of
    the last call that returned, the flag that [button_pressed] sets,
    and position and index. *)
Record worker : Type := {
  start : float;
  trig_received : bool;
  sess : session
}.

(** What one tick of the inner loop meets: the clock at the test,
    whether the button was pressed since the flag was last assigned,
    and, for a tick that calls [logGPSdata], what the call meets and
    the clock when it returns. *)
Record tick : Type := {
  now : float;
  pressed : bool;
  met : cycle;
  after : float
}.

Definition tenth : float := Eval vm_compute in float_literal "0.1".

(** [button_pressed]: the callback sets the flag. *)
Definition button_pressed (w : worker) : worker :=
  {| start := start w; trig_received := true; sess := sess w |}.

(** The worker when the test of a tick is made: the callback has run
    if the button was pressed. *)
Definition at_test (w : worker) (i : tick) : worker :=
  if pressed i then button_pressed w else w.

(** [time.time() - start > polling_time or trig_received] *)
Definition due (polling_time : Z) (w : worker) (i : tick) : bool :=
  Py.float_gt_int (now i - start w)%float polling_time
  || trig_received (at_test w i).

(** What the handler of [except Exception] does before the loop is
    entered again.  (The message also lists the arguments of the
    exception, which are not modelled.) *)
Definition handler (e : exn) : list event :=
  [Print [("An exception of type " ++ exn_name e
            ++ " occurred while polling the GPS.")%string];
   Sleep 1;
   Print ["Trying GPS again..."]].

Section Worker.

Context {L : Libraries}.

(** One pass through the inner [while True] of [main].  A call that
    returns is followed by the assignments and the sleep of a tenth of
    a second; a call that raises leaves the inner loop for the handler
    of [except Exception], which sets the flag and re-enters the loop
    without that sleep. *)
Definition worker_tick (fullpath subdir csvfilename : string)
    (polling_time dtraveled : Z) (debug : bool) (w : worker) (i : tick) : prog worker :=
  fun t =>
    if due polling_time w i then
      match logGPSdata fullpath subdir csvfilename (ndx (sess w)) (prev_loc (sess w))
              dtraveled debug (met i) t with
      | (Ok (l, n), t') =>
          (Ok {| start := after i; trig_received := false;
                 sess := {| prev_loc := l; ndx := n |} |},
           (t' ++ [Sleep tenth])%list)
      | (Raise e, t') =>
          (Ok {| start := start w; trig_received := true; sess := sess w |},
           (t' ++ handler e)%list)
      end
    else (Ok (at_test w i), (t ++ [Sleep tenth])%list).

Fixpoint worker_loop (fullpath subdir csvfilename : string)
    (polling_time dtraveled : Z) (debug : bool) (ticks : list tick) (w : worker)
  : prog worker :=
  match ticks with
  | [] => ret w
  | i :: rest =>
      w' <~ worker_tick fullpath subdir csvfilename polling_time dtraveled debug w i ;;
      worker_loop fullpath subdir csvfilename polling_time dtraveled debug rest w'
  end.

(** The worker after a tick, and the calls of [logGPSdata] that a
    run of ticks makes: what the ticks that are due meet. *)
Definition worker_after (fullpath subdir csvfilename : string)
    (polling_time dtraveled : Z) (debug : bool) (w : worker) (i : tick) : worker :=
  match fst (worker_tick fullpath subdir csvfilename polling_time dtraveled debug w i [])
  with
  | Ok w' => w'
  | Raise _ => w
  end.

Fixpoint worker_calls (fullpath subdir csvfilename : string)
    (polling_time dtraveled : Z) (debug : bool) (ticks : list tick) (w : worker)
  : list cycle :=
  match ticks with
  | [] => []
  | i :: rest =>
      (if due polling_time w i then [met i] else []) ++
      worker_calls fullpath subdir csvfilename polling_time dtraveled debug rest
        (worker_after fullpath subdir csvfilename polling_time dtraveled debug w i)
  end.

End Worker.

(** The sleep of an idle tick, and a trace without them. *)
Definition idle (ev : event) : bool :=
  match ev with
  | Sleep x => (x =? tenth)%float
  | _ => false
  end.

Definition active (t : list event) : list event :=
  filter (fun ev => negb (idle ev)) t.

(** A program that only adds to the trace, the same events and the
    same result whatever was done before. *)
Definition framed {A : Type} (m : prog A) : Prop :=
  exists r added, forall t, m t = (r, (t ++ added)%list).

(** *** The temperature probe *)

Module Probe.

(** [lines[k]] beyond the end of the list raises [IndexError]. *)
Definition IndexError : exn := CollaboratorError "IndexError".

Definition item (lines : list string) (k : nat) : result string :=
  match nth_error lines k with
  | Some l => Ok l
  | None => Raise IndexError
  end.

(** [s.strip()] and [s[-3:]] *)
Definition py_strip (s : string) : string :=
  string_of_list_ascii (PyFloatParse.strip (list_ascii_of_string s)).

Definition last3 (s : string) : string :=
  String.substring (String.length s - 3) 3 s.

(** [s[k:]] *)
Definition from (k : nat) (s : string) : string :=
  String.substring k (String.length s - k) s.

Definition fifth : float := Eval vm_compute in float_literal "0.2".

(** The test of the [while] of [read_temp], negated: the first line
    ends in [YES]. *)
Definition ready (lines : list string) : result bool :=
  l0 <- item lines 0 ;;
  Ok (String.eqb (last3 (py_strip l0)) "YES").

(** What follows the loop, on the lines that passed the test.  When
    the second line holds no [t=] the function ends without a
    [return], and its value is [None]. *)
Definition temperature (lines : list string) : result (option (float * float)) :=
  l1 <- item lines 1 ;;
  match String.index 0 "t=" l1 with
  | Some equals_pos =>
      x <- PyFloatParse.float_of_string (from (equals_pos + 2) l1) ;;
      let temp_c := (x / 1000)%float in
      let temp_f := (temp_c * 9 / 5 + 32)%float in
      Ok (Some (temp_c, temp_f))
  | None => Ok None
  end.

(** The loop of [read_temp], on the reading numbered [k]; [raw j] is
    what the call numbered [j] of [read_temp_raw] returns or raises.
    [None]: the loop is still running after [fuel] sleeps. *)
Fixpoint wait (fuel : nat) (raw : nat -> result (list string)) (k : nat)
    (lines : list string) : prog (option (list string)) :=
  b <~ lift (ready lines) ;;
  if b then ret (Some lines)
  else
    match fuel with
    | O => ret None
    | S fuel' =>
        emit (Sleep fifth) ;;;
        lines' <~ lift (raw (S k)) ;;
        wait fuel' raw (S k) lines'
    end.

Definition read_temp (fuel : nat) (raw : nat -> result (list string))
  : prog (option (option (float * float))) :=
  lines <~ lift (raw O) ;;
  w <~ wait fuel raw O lines ;;
  match w with
  | Some lines => v <~ lift (temperature lines) ;; ret (Some v)
  | None => ret None
  end.



End Probe.

(** Two readings of a probe at 23.125 degrees: one that is not
    ready, and one that is; and a probe that is ready at its third
    reading. *)
Definition probe_busy : list string :=
  [("72 01 4b 46 7f ff 0e 10 57 : crc=57 NO" ++ String newline "")%string;
   ("72 01 4b 46 7f ff 0e 10 57 t=23125" ++ String newline "")%string].

Definition probe_ready : list string :=
  [("72 01 4b 46 7f ff 0e 10 57 : crc=57 YES" ++ String newline "")%string;
   ("72 01 4b 46 7f ff 0e 10 57 t=23125" ++ String newline "")%string].

Definition sample_probe (j : nat) : result (list string) :=
  if (j <? 2)%nat then Ok probe_busy else Ok probe_ready.

(** The value of a run of decimal digits read from the left, as
    [take_digits] accumulates it. *)
Fixpoint uint_value (d : Decimal.uint) (acc : Z) : Z :=
  match d with
  | Decimal.Nil => acc
  | Decimal.D0 l => uint_value l (10 * acc + 0)
  | Decimal.D1 l => uint_value l (10 * acc + 1)
  | Decimal.D2 l => uint_value l (10 * acc + 2)
  | Decimal.D3 l => uint_value l (10 * acc + 3)
  | Decimal.D4 l => uint_value l (10 * acc + 4)
  | Decimal.D5 l => uint_value l (10 * acc + 5)
  | Decimal.D6 l => uint_value l (10 * acc + 6)
  | Decimal.D7 l => uint_value l (10 * acc + 7)
  | Decimal.D8 l => uint_value l (10 * acc + 8)
  | Decimal.D9 l => uint_value l (10 * acc + 9)
  end.

Definition digit_char (c : ascii) : Prop :=
  In c ["0"; "1"; "2"; "3"; "4"; "5"; "6"; "7"; "8"; "9"]%char.

Definition uint_chars (d : Decimal.uint) : list ascii :=
  list_ascii_of_string (NilEmpty.string_of_uint d).


(** * Lemmas *)

(** ** Binary64 arithmetic, from its specification in [SpecFloat] *)

Lemma digits2_pos_size (m : positive) : digits2_pos m = Pos.size m.
Proof. induction m; simpl; congruence. Qed.

Lemma digits_log2 (m : positive) : Zpos (digits2_pos m) = Z.log2 (Zpos m) + 1.
Proof.
  rewrite digits2_pos_size. destruct m; simpl; lia.
Qed.

Lemma digits_bounds (m : positive) :
  2 ^ (Zpos (digits2_pos m) - 1) <= Zpos m < 2 ^ Zpos (digits2_pos m).
Proof.
  rewrite digits_log2.
  replace (Z.log2 (Zpos m) + 1 - 1) with (Z.log2 (Zpos m)) by lia.
  replace (Z.log2 (Zpos m) + 1) with (Z.succ (Z.log2 (Zpos m))) by lia.
  apply Z.log2_spec. lia.
Qed.

Lemma digits_unique (m : positive) (d : Z) :
  2 ^ (d - 1) <= Zpos m < 2 ^ d -> Zpos (digits2_pos m) = d.
Proof.
  intros H. rewrite digits_log2.
  assert (0 <= d - 1).
  { destruct (Z.le_gt_cases 0 (d - 1)) as [|Hn]; [assumption|].
    assert (d <= 0) by lia.
    assert (2 ^ d <= 2 ^ 0) by (apply Z.pow_le_mono_r; lia).
    simpl in *. lia. }
  rewrite (Z.log2_unique (Zpos m) (d - 1)); try lia.
  replace (Z.succ (d - 1)) with d by lia. assumption.
Qed.

Lemma digits_lt (m : positive) (d : Z) :
  0 <= d -> Zpos m < 2 ^ d -> Zpos (digits2_pos m) <= d.
Proof.
  intros Hd H. destruct (digits_bounds m) as [Hl _].
  destruct (Z.le_gt_cases (Zpos (digits2_pos m)) d) as [|Hn]; [assumption|].
  assert (2 ^ d <= 2 ^ (Zpos (digits2_pos m) - 1)) by (apply Z.pow_le_mono_r; lia).
  lia.
Qed.

Lemma digits_ge (m : positive) (d : Z) :
  2 ^ (d - 1) <= Zpos m -> d <= Zpos (digits2_pos m).
Proof.
  intros H. destruct (digits_bounds m) as [_ Hu].
  destruct (Z.le_gt_cases d (Zpos (digits2_pos m))) as [|Hn]; [assumption|].
  assert (2 ^ (Zpos (digits2_pos m)) <= 2 ^ (d - 1)) by (apply Z.pow_le_mono_r; lia).
  lia.
Qed.

(** shifting *)
Lemma iter_pos_nat {A} (f : A -> A) (p : positive) (x : A) :
  iter_pos f p x = Nat.iter (Pos.to_nat p) f x.
Proof.
  revert x. induction p; intros x; cbn [iter_pos].
  - rewrite !IHp. rewrite Pos2Nat.inj_xI.
    replace (S (2 * Pos.to_nat p))%nat with (Pos.to_nat p + (Pos.to_nat p + 1))%nat by lia.
    rewrite !Nat.iter_add. simpl. reflexivity.
  - rewrite !IHp. rewrite Pos2Nat.inj_xO.
    replace (2 * Pos.to_nat p)%nat with (Pos.to_nat p + Pos.to_nat p)%nat by lia.
    rewrite Nat.iter_add. reflexivity.
  - reflexivity.
Qed.

Lemma shr_1_spec (m : Z) (r s : bool) :
  0 <= m ->
  shr_1 (Build_shr_record m r s) = Build_shr_record (m / 2) (Z.odd m) (r || s).
Proof.
  intros Hm. destruct m as [|p|p]; try lia.
  - reflexivity.
  - destruct p; simpl shr_1; simpl Z.odd; f_equal.
    + apply (Z.div_unique_pos _ 2 (Zpos p) 1); lia.
    + apply (Z.div_unique_pos _ 2 (Zpos p) 0); lia.
Qed.

Lemma shr_nat_spec (m : Z) (n : nat) :
  0 <= m ->
  Nat.iter (S n) shr_1 (Build_shr_record m false false) =
  Build_shr_record (m / 2 ^ Z.of_nat (S n)) (Z.odd (m / 2 ^ Z.of_nat n))
    (negb (m mod 2 ^ Z.of_nat n =? 0)).
Proof.
  intros Hm. induction n.
  - change (Nat.iter 1 shr_1 ?x) with (shr_1 x). rewrite shr_1_spec by assumption.
    change (2 ^ Z.of_nat 1) with 2. change (2 ^ Z.of_nat 0) with 1.
    rewrite Z.div_1_r, Z.mod_1_r. reflexivity.
  - change (Nat.iter (S (S n)) shr_1 ?x) with (shr_1 (Nat.iter (S n) shr_1 x)).
    rewrite IHn. rewrite shr_1_spec by (apply Z.div_pos; lia).
    f_equal.
    + rewrite Z.div_div by lia.
      f_equal. rewrite (Nat2Z.inj_succ (S n)), Z.pow_succ_r by lia. lia.
    + rewrite (Nat2Z.inj_succ n), Z.pow_succ_r by lia.
      set (h := 2 ^ Z.of_nat n). assert (0 < h) by (apply Z.pow_pos_nonneg; lia).
      rewrite (Z.mul_comm 2 h), Z.rem_mul_r by lia.
      pose proof (Z.mod_pos_bound m h ltac:(lia)).
      pose proof (Z.mod_pos_bound (m / h) 2 ltac:(lia)).
      rewrite Zodd_mod.
      destruct (Z.eqb_spec ((m / h) mod 2) 1), (Z.eqb_spec (m mod h) 0),
        (Z.eqb_spec (m mod h + h * ((m / h) mod 2)) 0); simpl; try reflexivity; nia.
Qed.


Lemma shr_spec (m e n : Z) :
  0 <= m -> 0 < n ->
  shr (Build_shr_record m false false) e n =
  (Build_shr_record (m / 2 ^ n) (Z.odd (m / 2 ^ (n - 1)))
     (negb (m mod 2 ^ (n - 1) =? 0)), e + n).
Proof.
  intros Hm Hn. destruct n as [|p|p]; try lia.
  unfold shr. rewrite iter_pos_nat.
  destruct (Pos2Nat.is_succ p) as [k Hk]. rewrite Hk.
  rewrite shr_nat_spec by assumption.
  replace (Z.of_nat (S k)) with (Zpos p) by lia.
  replace (Z.of_nat k) with (Zpos p - 1) by lia.
  reflexivity.
Qed.

Lemma fexp_eq (x : Z) : fexp prec emax x = Z.max (x - 53) (-1074).
Proof. reflexivity. Qed.

Lemma round_shr (m e n : Z) :
  0 <= m -> 0 < n ->
  let r := fst (shr (Build_shr_record m false false) e n) in
  rounded m n (round_nearest_even (shr_m r) (loc_of_shr_record r)).
Proof.
  intros Hm Hn. rewrite shr_spec by assumption. cbn [fst shr_m].
  unfold rounded. set (h := 2 ^ (n - 1)).
  assert (Hh : 0 < h) by (apply Z.pow_pos_nonneg; lia).
  assert (H2 : 2 ^ n = h * 2).
  { unfold h. replace n with (Z.succ (n - 1)) at 1 by lia.
    rewrite Z.pow_succ_r by lia. lia. }
  rewrite H2.
  assert (Hrem : m mod (h * 2) = m mod h + h * ((m / h) mod 2))
    by (apply Z.rem_mul_r; lia).
  pose proof (Z.mod_pos_bound m h ltac:(lia)).
  pose proof (Z.mod_pos_bound (m / h) 2 ltac:(lia)).
  rewrite Zodd_mod.
  destruct (Z.eqb_spec ((m / h) mod 2) 1) as [Ho|Ho],
           (Z.eqb_spec (m mod h) 0) as [Hs|Hs]; cbn [negb loc_of_shr_record round_nearest_even].
  - rewrite Ho in Hrem. split; [|intros; exfalso; lia].
    destruct (Z.even (m / (h * 2))); [left; reflexivity | right; split; [reflexivity | lia]].
  - rewrite Ho in Hrem. split; [|intros; exfalso; lia]. right; split; [reflexivity | lia].
  - split; [left; reflexivity | reflexivity].
  - split; [left; reflexivity | reflexivity].
Qed.

Lemma shr_fexp_noshift (m e : Z) :
  fexp prec emax (Zdigits2 m + e) <= e ->
  shr_fexp prec emax m e loc_Exact = (Build_shr_record m false false, e).
Proof.
  intros H. unfold shr_fexp, shr_record_of_loc, shr.
  destruct (fexp prec emax (Zdigits2 m + e) - e) eqn:E; try reflexivity. lia.
Qed.

Lemma renorm_small (s : bool) (m : positive) (e : Z) :
  fexp prec emax (Zpos (digits2_pos m) + e) <= e ->
  renorm s (Zpos m) e =
  if e <=? emax - prec then S754_finite s m e else S754_infinity s.
Proof.
  intros H. unfold renorm. rewrite shr_fexp_noshift by exact H. reflexivity.
Qed.

Lemma renorm_zero (s : bool) (e : Z) : -1074 <= e -> renorm s 0 e = S754_zero s.
Proof.
  intros H. unfold renorm. rewrite shr_fexp_noshift; [reflexivity|].
  rewrite fexp_eq. simpl Zdigits2. lia.
Qed.

Lemma renorm_carry (s : bool) (e : Z) :
  -1074 <= e ->
  renorm s (2 ^ 53) e =
  if e + 1 <=? emax - prec then S754_finite s (2 ^ 52) (e + 1) else S754_infinity s.
Proof.
  intros H. unfold renorm, shr_fexp.
  change (Zdigits2 (2 ^ 53)) with 54. rewrite fexp_eq.
  replace (Z.max (54 + e - 53) (-1074) - e) with 1 by lia.
  reflexivity.
Qed.

Lemma binary_round_aux_noshift (s : bool) (m : positive) (e : Z) :
  fexp prec emax (Zpos (digits2_pos m) + e) <= e ->
  binary_round_aux prec emax s (Zpos m) e loc_Exact = renorm s (Zpos m) e.
Proof.
  intros H. unfold binary_round_aux.
  rewrite shr_fexp_noshift by exact H. reflexivity.
Qed.

Lemma binary_round_aux_shift (s : bool) (m : positive) (e : Z) :
  let n := fexp prec emax (Zpos (digits2_pos m) + e) - e in
  0 < n ->
  exists m1, rounded (Zpos m) n m1 /\
             binary_round_aux prec emax s (Zpos m) e loc_Exact = renorm s m1 (e + n).
Proof.
  intros n Hn.
  pose proof (round_shr (Zpos m) e n ltac:(lia) Hn) as R. cbv zeta in R.
  unfold binary_round_aux. unfold shr_fexp at 1.
  cbn [shr_record_of_loc Zdigits2]. fold n.
  remember (shr {| shr_m := Z.pos m; shr_r := false; shr_s := false |} e n) as x eqn:E in *.
  destruct x as [mrs e']. cbn [fst] in R.
  rewrite shr_spec in E by lia. injection E as E1 E2. subst e'.
  exists (round_nearest_even (shr_m mrs) (loc_of_shr_record mrs)).
  split; [exact R | reflexivity].
Qed.


Lemma bounded_spec (m : positive) (e : Z) :
  bounded prec emax m e = true <->
  fexp prec emax (Zpos (digits2_pos m) + e) = e /\ e <= 971.
Proof.
  unfold bounded, canonical_mantissa.
  rewrite andb_true_iff, Z.eqb_eq, Z.leb_le. reflexivity.
Qed.

Lemma bounded_digits (m : positive) (e : Z) :
  bounded prec emax m e = true ->
  Zpos (digits2_pos m) <= 53 /\ -1074 <= e <= 971 /\
  (-1074 < e -> Zpos (digits2_pos m) = 53).
Proof.
  rewrite bounded_spec, fexp_eq. lia.
Qed.

Lemma pos_iter_xO (m d : positive) :
  Zpos (Pos.iter xO m d) = Zpos m * 2 ^ Zpos d.
Proof.
  induction d using Pos.peano_ind.
  - simpl. lia.
  - rewrite Pos.iter_succ, Pos2Z.inj_xO, IHd, Pos2Z.inj_succ, Z.pow_succ_r by lia. lia.
Qed.

Lemma shl_align_spec (m : positive) (e e' : Z) :
  e' <= e ->
  exists m', shl_align m e e' = (m', e') /\ Zpos m' = Zpos m * 2 ^ (e - e').
Proof.
  intros H. unfold shl_align.
  destruct (e' - e) as [|d|d] eqn:E; try lia.
  - assert (e' = e) by lia. subst e'. exists m. rewrite Z.sub_diag. split; [reflexivity | lia].
  - exists (Pos.iter xO m d). split; [reflexivity|].
    rewrite pos_iter_xO. f_equal. f_equal. lia.
Qed.

Lemma digits_shift (m m' : positive) (j : Z) :
  0 <= j -> Zpos m' = Zpos m * 2 ^ j ->
  Zpos (digits2_pos m') = Zpos (digits2_pos m) + j.
Proof.
  intros Hj H. apply digits_unique. rewrite H.
  destruct (digits_bounds m) as [Hl Hu].
  assert (0 < Zpos (digits2_pos m)) by lia.
  replace (Zpos (digits2_pos m) + j - 1) with (Zpos (digits2_pos m) - 1 + j) by lia.
  rewrite !Z.pow_add_r by lia.
  assert (0 < 2 ^ j) by (apply Z.pow_pos_nonneg; lia). nia.
Qed.

(** A mantissa that fits is only aligned, never rounded. *)
Lemma binary_round_exact (s : bool) (m : positive) (e : Z) :
  let ez := fexp prec emax (Zpos (digits2_pos m) + e) in
  ez <= e -> ez <= 971 ->
  exists m', Zpos m' = Zpos m * 2 ^ (e - ez) /\
             bounded prec emax m' ez = true /\
             binary_round prec emax s m e = S754_finite s m' ez.
Proof.
  intros ez He Hmax. unfold binary_round. fold ez.
  destruct (shl_align_spec m e ez He) as (m' & -> & Hm').
  assert (Hd : Zpos (digits2_pos m') + ez = Zpos (digits2_pos m) + e).
  { rewrite (digits_shift m m' (e - ez)) by (lia || assumption). lia. }
  assert (Hc : fexp prec emax (Zpos (digits2_pos m') + ez) = ez)
    by (rewrite Hd; reflexivity).
  exists m'. split; [assumption|]. split.
  - apply bounded_spec. split; assumption.
  - rewrite binary_round_aux_noshift, renorm_small by lia.
    destruct (Z.leb_spec ez (emax - prec)) as [|Hn]; [reflexivity|].
    change (emax - prec) with 971 in Hn. lia.
Qed.

Lemma SF_of_int_zero : Py.SF_of_int 0 = S754_zero false.
Proof. reflexivity. Qed.

Lemma SF_of_int_small (d : positive) :
  Zpos d < 2 ^ 53 ->
  let k := Zpos (digits2_pos d) in
  exists m', Zpos m' = Zpos d * 2 ^ (53 - k) /\
             bounded prec emax m' (k - 53) = true /\
             Py.SF_of_int (Zpos d) = S754_finite false m' (k - 53).
Proof.
  intros Hd k. unfold Py.SF_of_int, binary_normalize.
  assert (Hk : 0 < k <= 53) by (split; [unfold k; lia | apply digits_lt; lia]).
  pose proof (binary_round_exact false d 0) as H. cbv zeta in H.
  rewrite fexp_eq in H. fold k in H.
  replace (Z.max (k + 0 - 53) (-1074)) with (k - 53) in H by lia.
  destruct H as (m' & Hm' & Hb & Hr); try lia.
  exists m'. replace (53 - k) with (0 - (k - 53)) by lia. auto.
Qed.

Lemma SF_of_int_big (m : positive) (e : Z) :
  bounded prec emax m e = true -> 0 <= e ->
  Py.SF_of_int (Zpos m * 2 ^ e) = S754_finite false m e.
Proof.
  intros Hb He. pose proof (bounded_digits m e Hb) as (Hd & Hr & Hn).
  apply bounded_spec in Hb. destruct Hb as [Hc _].
  assert (H53 : Zpos (digits2_pos m) = 53) by (apply Hn; lia).
  assert (Hp : 0 < 2 ^ e) by (apply Z.pow_pos_nonneg; lia).
  destruct (Zpos m * 2 ^ e) as [|d|d] eqn:Ed; try lia.
  unfold Py.SF_of_int, binary_normalize, binary_round.
  assert (Hdd : Zpos (digits2_pos d) = 53 + e).
  { rewrite (digits_shift m d e) by (lia || auto). lia. }
  rewrite Hdd, fexp_eq.
  replace (Z.max (53 + e + 0 - 53) (-1074)) with e by lia.
  destruct (Z.eq_dec e 0) as [->|Hne].
  - assert (d = m) by lia. subst d.
    cbn [shl_align Z.sub Z.opp Z.add].
    rewrite binary_round_aux_noshift, renorm_small by (rewrite fexp_eq; lia).
    reflexivity.
  - unfold shl_align. destruct (e - 0) eqn:E0; try lia.
    destruct (binary_round_aux_shift false d 0) as (m1 & Hm1 & ->).
    { rewrite Hdd, fexp_eq. lia. }
    rewrite Hdd, fexp_eq in *.
    replace (Z.max (53 + e + 0 - 53) (-1074) - 0) with e in * by lia.
    destruct Hm1 as [_ Hex].
    rewrite <- Ed, Z.mod_mul, Z.div_mul in Hex by lia.
    rewrite Hex by reflexivity.
    rewrite renorm_small by (rewrite H53, fexp_eq; lia).
    simpl Z.add.
    destruct (Z.leb_spec e (emax - prec)) as [|Hgt]; [reflexivity|].
    change (emax - prec) with 971 in Hgt. lia.
Qed.


Lemma SFtrunc_pos (m : positive) (e : Z) :
  Py.SFtrunc (S754_finite false m e) =
  Ok (if e <? 0 then Zpos m / 2 ^ (- e) else Zpos m * 2 ^ e).
Proof. destruct e; reflexivity. Qed.

Lemma SF2Q_scale (m : positive) (e K : Z) :
  0 <= K -> 0 <= K + e ->
  (Py.SF2Q (S754_finite false m e) * inject_Z (2 ^ K) == inject_Z (Zpos m * 2 ^ (K + e)))%Q.
Proof.
  intros HK HKe. unfold Py.SF2Q, Qeq, Qmult, inject_Z.
  destruct e as [|p|p]; cbn [Qnum Qden].
  - rewrite Z.add_0_r, Pos.mul_1_r. change (2 ^ 0) with 1. ring.
  - rewrite Z.pow_add_r, Pos.mul_1_r by lia. ring.
  - rewrite Pos2Z.inj_mul, Pos2Z.inj_pow.
    assert (E : 2 ^ K = 2 ^ (K + Zneg p) * 2 ^ Zpos p).
    { rewrite <- Z.pow_add_r by lia. f_equal. lia. }
    rewrite E. ring.
Qed.

Lemma SF2Q_floor (m : positive) (e : Z) (k : Z) :
  Py.SFtrunc (S754_finite false m e) = Ok k ->
  k = Qfloor (Py.SF2Q (S754_finite false m e)).
Proof.
  unfold Py.SFtrunc, Py.SF2Q. intros H. injection H as <-.
  destruct e as [|p|p]; unfold Qfloor, inject_Z.
  - rewrite Z.div_1_r. reflexivity.
  - rewrite Z.div_1_r. reflexivity.
  - rewrite Pos2Z.inj_pow. reflexivity.
Qed.

Lemma Qpow2_nonzero (K : Z) : 0 <= K -> ~ (inject_Z (2 ^ K) == 0)%Q.
Proof.
  intros HK. unfold Qeq, inject_Z. cbn [Qnum Qden].
  assert (0 < 2 ^ K) by (apply Z.pow_pos_nonneg; lia). lia.
Qed.

(** Exactness of a difference, checked after scaling by [2 ^ K]. *)
Lemma SF2Q_diff (m : positive) (e d K v : Z) (F : spec_float) :
  0 <= K -> 0 <= K + e ->
  (Py.SF2Q F * inject_Z (2 ^ K) == inject_Z v)%Q ->
  v = Zpos m * 2 ^ (K + e) - d * 2 ^ K ->
  (Py.SF2Q F == Py.SF2Q (S754_finite false m e) - inject_Z d)%Q.
Proof.
  intros HK HKe HF Hv.
  apply (Qmult_inj_r _ _ (inject_Z (2 ^ K))); [apply Qpow2_nonzero; assumption|].
  rewrite HF, Hv.
  setoid_replace ((Py.SF2Q (S754_finite false m e) - inject_Z d) * inject_Z (2 ^ K))%Q
    with (Py.SF2Q (S754_finite false m e) * inject_Z (2 ^ K) - inject_Z d * inject_Z (2 ^ K))%Q
    by ring.
  rewrite SF2Q_scale by assumption.
  rewrite <- inject_Z_mult. unfold Qminus. rewrite <- inject_Z_opp, <- inject_Z_plus.
  reflexivity.
Qed.

Lemma SF2Q_zero_scaled (s : bool) (K : Z) :
  (Py.SF2Q (S754_zero s) * inject_Z (2 ^ K) == inject_Z 0)%Q.
Proof. cbn [Py.SF2Q]. change (inject_Z 0) with 0%Q. ring. Qed.

Lemma SFsub_same_exponent (m1 m2 : positive) (e : Z) :
  SFsub prec emax (S754_finite false m1 e) (S754_finite false m2 e) =
  binary_normalize prec emax (Zpos m1 - Zpos m2) e false.
Proof.
  unfold SFsub. rewrite Z.min_id.
  unfold shl_align. rewrite Z.sub_diag. reflexivity.
Qed.

(** [x - float(int(x))] for a non-negative [x]: nothing overflows and
    the difference is below 1. *)
Lemma frac_spec (a : spec_float) :
  valid_binary a = true -> nonneg_finite a ->
  exists d, Py.SFtrunc a = Ok d /\ 0 <= d /\
            valid_binary (Py.SF_of_int d) = true /\
            finite_SF (Py.SF_of_int d) = true /\
            below_one (SFsub prec emax a (Py.SF_of_int d)) /\
            (Py.SF2Q (SFsub prec emax a (Py.SF_of_int d)) == Py.SF2Q a - inject_Z d)%Q.
Proof.
  intros Hv [->|(m & e & ->)].
  - exists 0. repeat split; try reflexivity; try lia. left. reflexivity.
  - cbn [valid_binary] in Hv.
    pose proof (bounded_digits m e Hv) as (Hd & Hr & Hn).
    rewrite SFtrunc_pos.
    destruct (Z.ltb_spec e 0) as [Hneg|Hpos].
    + (* a fraction is present *)
      set (p := 2 ^ (- e)). assert (Hp : 0 < p) by (apply Z.pow_pos_nonneg; lia).
      exists (Zpos m / p). split; [reflexivity|].
      split; [apply Z.div_pos; lia|].
      destruct (Zpos m / p) as [|d|d] eqn:Ed.
      * (* the integer part is 0 *)
        repeat split; try reflexivity.
        -- right. exists m, e.
           apply Z.div_small_iff in Ed; [|lia]. repeat split; try lia.
        -- rewrite SF_of_int_zero. cbn [SFsub]. change (inject_Z 0) with 0%Q.
           unfold Qminus. rewrite Qplus_0_r. reflexivity.
      * assert (Hlt : Zpos m < 2 ^ 53).
        { destruct (digits_bounds m) as [_ Hu].
          assert (2 ^ Zpos (digits2_pos m) <= 2 ^ 53) by (apply Z.pow_le_mono_r; lia). lia. }
        assert (Hdiv : Zpos m = p * Zpos d + Zpos m mod p)
          by (rewrite <- Ed; apply Z.div_mod; lia).
        pose proof (Z.mod_pos_bound (Zpos m) p Hp) as Hmod.
        assert (He : - e <= 52).
        { destruct (Z.le_gt_cases (-e) 52) as [|Hgt]; [assumption|].
          assert (2 ^ 53 <= p) by (apply Z.pow_le_mono_r; lia). nia. }
        assert (H53 : Zpos (digits2_pos m) = 53) by (apply Hn; lia).
        destruct (digits_bounds m) as [Hl Hu]. rewrite H53 in Hl, Hu.
        assert (Hk : Zpos (digits2_pos d) = 53 + e).
        { apply digits_unique.
          assert (E1 : 2 ^ (53 - 1) = 2 ^ (53 + e - 1) * p).
          { unfold p. rewrite <- Z.pow_add_r by lia. f_equal. lia. }
          assert (E2 : 2 ^ 53 = 2 ^ (53 + e) * p).
          { unfold p. rewrite <- Z.pow_add_r by lia. f_equal. lia. }
          assert (0 < 2 ^ (53 + e - 1)) by (apply Z.pow_pos_nonneg; lia).
          assert (0 < 2 ^ (53 + e)) by (apply Z.pow_pos_nonneg; lia).
          split; nia. }
        assert (Hd53 : Zpos d < 2 ^ 53).
        { assert (1 <= p) by lia. nia. }
        destruct (SF_of_int_small d Hd53) as (md & Hmd & Hbd & Hsd).
        rewrite Hk in Hmd, Hbd, Hsd.
        replace (53 + e - 53) with e in * by lia.
        replace (53 - (53 + e)) with (- e) in Hmd by lia. fold p in Hmd.
        rewrite Hsd. split; [assumption|]. split; [reflexivity|].
        rewrite SFsub_same_exponent.
        replace (Zpos m - Zpos md) with (Zpos m mod p) by lia.
        destruct (Zpos m mod p) as [|r|r] eqn:Er; try lia.
        { split; [left; reflexivity|].
          apply (SF2Q_diff m e (Zpos d) (- e) 0); try lia.
          - apply SF2Q_zero_scaled.
          - replace (- e + e) with 0 by lia. fold p. lia. }
        unfold binary_normalize.
        assert (Hdr : Zpos (digits2_pos r) <= - e) by (apply digits_lt; [lia | fold p; lia]).
        pose proof (binary_round_exact false r e) as H. cbv zeta in H.
        rewrite fexp_eq in H.
        set (ez := Z.max (Zpos (digits2_pos r) + e - 53) (-1074)) in *.
        destruct H as (mf & Hmf & _ & ->); try lia.
        assert (Epow : 2 ^ (- ez) = p * 2 ^ (e - ez)).
        { unfold p. rewrite <- Z.pow_add_r by lia. f_equal. lia. }
        assert (0 < 2 ^ (e - ez)) by (apply Z.pow_pos_nonneg; lia).
        split.
        -- right. exists mf, ez. split; [reflexivity|]. split; [lia|].
           rewrite Hmf, Epow. nia.
        -- apply (SF2Q_diff m e (Zpos d) (- ez) (Zpos mf)); try lia.
           ++ rewrite (SF2Q_scale mf ez (- ez)) by lia.
              replace (- ez + ez) with 0 by lia. rewrite Z.mul_1_r. reflexivity.
           ++ replace (- ez + e) with (e - ez) by lia. rewrite Hmf, Epow. nia.
      * pose proof (Z.div_pos (Zpos m) p ltac:(lia) Hp). lia.
    + (* an integer *)
      exists (Zpos m * 2 ^ e). split; [reflexivity|].
      assert (0 < 2 ^ e) by (apply Z.pow_pos_nonneg; lia).
      split; [nia|].
      rewrite SF_of_int_big by assumption.
      split; [assumption|]. split; [reflexivity|].
      rewrite SFsub_same_exponent, Z.sub_diag. split; [left; reflexivity|].
      apply (SF2Q_diff m e (Zpos m * 2 ^ e) 0 0); try lia.
      { apply SF2Q_zero_scaled. }
      rewrite Z.add_0_l. change (2 ^ 0) with 1. lia.
Qed.


(** A positive float whose value, scaled by [2 ^ K], is below
    [c * 2 ^ K] truncates to an integer below [c]. *)
Lemma trunc_below (m : positive) (e c K : Z) :
  0 <= K -> 0 <= K + e -> Zpos m * 2 ^ (K + e) < c * 2 ^ K ->
  exists k, Py.SFtrunc (S754_finite false m e) = Ok k /\ 0 <= k < c.
Proof.
  intros HK HKe H. rewrite SFtrunc_pos.
  assert (HX : 0 < 2 ^ (K + e)) by (apply Z.pow_pos_nonneg; lia).
  destruct (Z.ltb_spec e 0) as [Hneg|Hpos]; eexists; (split; [reflexivity|]).
  - assert (HY : 0 < 2 ^ (- e)) by (apply Z.pow_pos_nonneg; lia).
    assert (E : 2 ^ K = 2 ^ (K + e) * 2 ^ (- e)).
    { rewrite <- Z.pow_add_r by lia. f_equal. lia. }
    rewrite E in H. split; [apply Z.div_pos; lia|].
    apply Z.div_lt_upper_bound; [lia|]. nia.
  - assert (HY : 0 < 2 ^ e) by (apply Z.pow_pos_nonneg; lia).
    assert (HZ : 0 < 2 ^ K) by (apply Z.pow_pos_nonneg; lia).
    rewrite Z.pow_add_r in H by lia. split; nia.
Qed.

(** The product of a constant [c] (held with 53 digits as
    [mc * 2 ^ (- p)]) and a float below 1 is a float below [c],
    even after rounding. *)
Lemma mul_below (c : Z) (mc : positive) (p : Z) (f : spec_float) :
  0 <= p <= 53 -> Zpos mc = c * 2 ^ p -> 2 ^ 52 < Zpos mc < 2 ^ 53 ->
  valid_binary f = true -> below_one f ->
  let r := SFmul prec emax (S754_finite false mc (- p)) f in
  nonneg_finite r /\ exists k, Py.SFtrunc r = Ok k /\ 0 <= k < c.
Proof.
  intros Hp Hmc Hrange Hv Hf r.
  assert (H2p : 0 < 2 ^ p) by (apply Z.pow_pos_nonneg; lia).
  assert (Hc : 0 < c) by nia.
  destruct Hf as [->|(mf & ef & -> & Hef & Hlt)].
  { split; [left; reflexivity|]. exists 0. split; [reflexivity | lia]. }
  cbn [valid_binary] in Hv.
  pose proof (bounded_digits mf ef Hv) as (Hdf & Hrf & _).
  subst r. cbn [SFmul xorb].
  set (M := (mc * mf)%positive). set (E := - p + ef).
  set (K := p + - ef).
  assert (HK : 0 <= K) by (unfold K; lia).
  assert (H2n : 0 < 2 ^ (- ef)) by (apply Z.pow_pos_nonneg; lia).
  assert (HT : c * 2 ^ K = Zpos mc * 2 ^ (- ef)).
  { unfold K. rewrite Z.pow_add_r by lia. lia. }
  assert (HM : Zpos M <= c * 2 ^ K - Zpos mc).
  { rewrite HT. unfold M. rewrite Pos2Z.inj_mul. nia. }
  assert (HDl : 53 <= Zpos (digits2_pos M)).
  { apply digits_ge. unfold M. rewrite Pos2Z.inj_mul. simpl (53 - 1). nia. }
  assert (Hf53 : Zpos mf < 2 ^ 53).
  { destruct (digits_bounds mf) as [_ Hu].
    assert (2 ^ Zpos (digits2_pos mf) <= 2 ^ 53) by (apply Z.pow_le_mono_r; lia). lia. }
  assert (HDu : Zpos (digits2_pos M) <= 106).
  { apply digits_lt; [lia|]. unfold M. rewrite Pos2Z.inj_mul.
    change (2 ^ 106) with (2 ^ 53 * 2 ^ 53). nia. }
  set (n := fexp prec emax (Zpos (digits2_pos M) + E) - E).
  assert (Hn : n <= 53) by (unfold n, E; rewrite fexp_eq; lia).
  assert (HE1 : -1074 <= E + n <= 52) by (unfold n, E; rewrite fexp_eq; lia).
  destruct (Z.le_gt_cases n 0) as [Hn0|Hn0].
  - (* the product fits: no rounding *)
    rewrite binary_round_aux_noshift, renorm_small by (fold n in Hn0 |- *; unfold n in Hn0; lia).
    destruct (Z.leb_spec E (emax - prec)) as [_|Hgt];
      [|change (emax - prec) with 971 in Hgt; unfold E in Hgt; lia].
    split; [right; eauto|].
    apply (trunc_below M E c K); [assumption | unfold K, E; lia |].
    replace (K + E) with 0 by (unfold K, E; lia). lia.
  - (* the product is rounded to 53 digits *)
    destruct (binary_round_aux_shift false M E Hn0) as (m1 & [Hm1 _] & ->).
    fold n in Hm1 |- *.
    assert (H2n' : 0 < 2 ^ n) by (apply Z.pow_pos_nonneg; lia).
    assert (Hhalf : 2 ^ n = 2 * 2 ^ (n - 1)).
    { replace n with (Z.succ (n - 1)) at 1 by lia. rewrite Z.pow_succ_r by lia. lia. }
    assert (Hh52 : 2 ^ (n - 1) <= 2 ^ 52) by (apply Z.pow_le_mono_r; lia).
    pose proof (Z.div_mod (Zpos M) (2 ^ n) ltac:(lia)) as Hdm.
    pose proof (Z.mod_pos_bound (Zpos M) (2 ^ n) H2n') as Hmod.
    assert (Hq0 : 0 <= Zpos M / 2 ^ n) by (apply Z.div_pos; lia).
    assert (Hq53 : Zpos M / 2 ^ n < 2 ^ 53).
    { apply Z.div_lt_upper_bound; [lia|].
      destruct (digits_bounds M) as [_ Hu].
      assert (2 ^ Zpos (digits2_pos M) <= 2 ^ (n + 53)).
      { apply Z.pow_le_mono_r; [lia|]. unfold n. rewrite fexp_eq. lia. }
      rewrite Z.pow_add_r in * by lia. lia. }
    assert (Hm1lt : m1 * 2 ^ n < c * 2 ^ K) by (destruct Hm1 as [->|[-> Hr]]; nia).
    assert (Hm1r : 0 <= m1 <= 2 ^ 53) by (destruct Hm1 as [->|[-> Hr]]; lia).
    destruct (Z.eq_dec m1 (2 ^ 53)) as [Hcarry|Hnc].
    + subst m1. rewrite renorm_carry by lia.
      destruct (Z.leb_spec (E + n + 1) (emax - prec)) as [_|Hgt];
        [|change (emax - prec) with 971 in Hgt; lia].
      split; [right; eauto|].
      apply (trunc_below _ (E + n + 1) c K); [assumption | unfold K, E; lia |].
      replace (K + (E + n + 1)) with (Z.succ n) by (unfold K, E; lia).
      rewrite Z.pow_succ_r by lia.
      change (2 ^ 53) with (2 * 2 ^ 52) in Hm1lt. lia.
    + destruct m1 as [|p1|p1]; try lia.
      * rewrite renorm_zero by lia. split; [left; reflexivity|].
        exists 0. split; [reflexivity | lia].
      * assert (Hd1 : Zpos (digits2_pos p1) <= 53) by (apply digits_lt; lia).
        rewrite renorm_small by (rewrite fexp_eq; lia).
        destruct (Z.leb_spec (E + n) (emax - prec)) as [_|Hgt];
          [|change (emax - prec) with 971 in Hgt; lia].
        split; [right; eauto|].
        apply (trunc_below p1 (E + n) c K); [assumption | unfold K, E; lia |].
        replace (K + (E + n)) with n by (unfold K, E; lia). assumption.
Qed.


(** ** From primitive floats to their specification *)

Lemma is_finite_spec (x : float) :
  is_finite x = true -> finite_SF (Prim2SF x) = true.
Proof.
  unfold is_finite, is_nan, is_infinity. intros H.
  apply negb_true_iff, orb_false_iff in H. destruct H as [Hnan Hinf].
  rewrite FloatAxioms.eqb_spec in Hnan, Hinf. rewrite abs_spec in Hinf.
  destruct (Prim2SF x) as [s|s| |s m e]; try reflexivity.
  - exfalso. revert Hinf. clear. destruct s; vm_compute; discriminate.
  - exfalso. revert Hnan. clear. vm_compute. discriminate.
Qed.

Lemma abs_nonneg_finite (x : float) :
  finite_SF (Prim2SF x) = true -> nonneg_finite (Prim2SF (abs x)).
Proof.
  rewrite abs_spec. destruct (Prim2SF x) as [s|s| |s m e]; try discriminate; intros _.
  - left. reflexivity.
  - right. exists m, e. reflexivity.
Qed.

Lemma float_of_int_ok (n : Z) :
  valid_binary (Py.SF_of_int n) = true -> finite_SF (Py.SF_of_int n) = true ->
  exists y, Py.float_of_int n = Ok y /\ Prim2SF y = Py.SF_of_int n.
Proof.
  intros Hv Hf. unfold Py.float_of_int.
  destruct (Py.SF_of_int n) as [s|s| |s m e] eqn:E; try discriminate;
    (eexists; split; [reflexivity | apply Prim2SF_SF2Prim; assumption]).
Qed.

Lemma float_sub_int_ok (x : float) (n : Z) :
  valid_binary (Py.SF_of_int n) = true -> finite_SF (Py.SF_of_int n) = true ->
  exists f, Py.float_sub_int x n = Ok f /\
            Prim2SF f = SFsub prec emax (Prim2SF x) (Py.SF_of_int n).
Proof.
  intros Hv Hf. destruct (float_of_int_ok n Hv Hf) as (y & Hy & Ey).
  unfold Py.float_sub_int. rewrite Hy. cbn [bind].
  eexists. split; [reflexivity|]. rewrite sub_spec, Ey. reflexivity.
Qed.

Lemma int_mul_float_ok (n : Z) (x : float) :
  valid_binary (Py.SF_of_int n) = true -> finite_SF (Py.SF_of_int n) = true ->
  exists f, Py.int_mul_float n x = Ok f /\
            Prim2SF f = SFmul prec emax (Py.SF_of_int n) (Prim2SF x).
Proof.
  intros Hv Hf. destruct (float_of_int_ok n Hv Hf) as (y & Hy & Ey).
  unfold Py.int_mul_float. rewrite Hy. cbn [bind].
  eexists. split; [reflexivity|]. rewrite mul_spec, Ey. reflexivity.
Qed.

Lemma SF_of_int_60 : Py.SF_of_int 60 = S754_finite false 8444249301319680 (- 47).
Proof. vm_compute. reflexivity. Qed.

Lemma SF_of_int_6000 : Py.SF_of_int 6000 = S754_finite false 6597069766656000 (- 40).
Proof. vm_compute. reflexivity. Qed.

(** [int(y)] for a non-negative finite [y] is the floor of its value. *)
Lemma int_of_float_floor (y : spec_float) (k : Z) :
  nonneg_finite y -> Py.SFtrunc y = Ok k -> k = Qfloor (Py.SF2Q y).
Proof.
  intros [->|(m & e & ->)] H.
  - injection H as <-. reflexivity.
  - apply SF2Q_floor. assumption.
Qed.

Lemma dms_run_result x degrees minutes seconds f m g s :
  dms_run x degrees minutes seconds f m g s ->
  dec2dms x = Ok (degrees, minutes, seconds).
Proof.
  intros R. unfold dec2dms.
  rewrite (run_degrees _ _ _ _ _ _ _ _ R). cbn [bind].
  rewrite (run_f _ _ _ _ _ _ _ _ R). cbn [bind].
  rewrite (run_m _ _ _ _ _ _ _ _ R). cbn [bind].
  rewrite (run_minutes _ _ _ _ _ _ _ _ R). cbn [bind].
  rewrite (run_g _ _ _ _ _ _ _ _ R). cbn [bind].
  rewrite (run_s _ _ _ _ _ _ _ _ R). cbn [bind].
  rewrite (run_seconds _ _ _ _ _ _ _ _ R). reflexivity.
Qed.

Lemma dec2dms_runs (x : float) :
  is_finite x = true ->
  exists degrees minutes seconds f m g s,
    dms_run x degrees minutes seconds f m g s.
Proof.
  intros Hfin.
  pose proof (abs_nonneg_finite x (is_finite_spec x Hfin)) as Ha.
  destruct (frac_spec (Prim2SF (abs x)) (Prim2SF_valid _) Ha)
    as (d & Hd & Hd0 & Hvd & Hfd & Hbf & Hqf).
  destruct (float_sub_int_ok (abs x) d Hvd Hfd) as (f & Hf & Ef).
  rewrite <- Ef in Hbf, Hqf.
  (* 60 * f *)
  destruct (int_mul_float_ok 60 f) as (m & Hm & Em);
    [rewrite SF_of_int_60; reflexivity | rewrite SF_of_int_60; reflexivity |].
  rewrite SF_of_int_60 in Em.
  pose proof (mul_below 60 8444249301319680 47 (Prim2SF f)) as Hmul.
  cbv zeta in Hmul. cbn [Z.opp] in Hmul. rewrite <- Em in Hmul.
  destruct Hmul as (Hnm & mi & Hmi & Hmir);
    [lia | reflexivity | split; reflexivity | apply Prim2SF_valid | assumption |].
  (* m - minutes *)
  destruct (frac_spec (Prim2SF m) (Prim2SF_valid _) Hnm)
    as (mi' & Hmi' & _ & Hvm & Hfm & Hbg & Hqg).
  assert (mi' = mi) by congruence. subst mi'.
  destruct (float_sub_int_ok m mi Hvm Hfm) as (g & Hg & Eg).
  rewrite <- Eg in Hbg, Hqg.
  (* 6000 * g *)
  destruct (int_mul_float_ok 6000 g) as (s & Hs & Es);
    [rewrite SF_of_int_6000; reflexivity | rewrite SF_of_int_6000; reflexivity |].
  rewrite SF_of_int_6000 in Es.
  pose proof (mul_below 6000 6597069766656000 40 (Prim2SF g)) as Hmul.
  cbv zeta in Hmul. cbn [Z.opp] in Hmul. rewrite <- Es in Hmul.
  destruct Hmul as (Hns & se & Hse & Hser);
    [lia | reflexivity | split; reflexivity | apply Prim2SF_valid | assumption |].
  exists d, mi, se, f, m, g, s.
  constructor; try assumption.
  - apply int_of_float_floor; assumption.
  - apply int_of_float_floor; assumption.
  - apply int_of_float_floor; assumption.
Qed.

Lemma abs_opp (x : float) : abs (- x) = abs x.
Proof.
  apply Prim2SF_inj. rewrite !abs_spec, opp_spec.
  destruct (Prim2SF x); reflexivity.
Qed.

Lemma dec2dms_opp (x : float) : dec2dms (- x) = dec2dms x.
Proof. unfold dec2dms. rewrite abs_opp. reflexivity. Qed.

Lemma truthy_spec (x : float) :
  Py.truthy x = false <-> exists s, Prim2SF x = S754_zero s.
Proof.
  unfold Py.truthy. rewrite negb_false_iff, FloatAxioms.eqb_spec.
  change (Prim2SF 0) with (S754_zero false).
  destruct (Prim2SF x) as [s|s| |s m e]; cbn.
  - split; [eauto | reflexivity].
  - split; [destruct s; discriminate | intros [? ?]; discriminate].
  - split; [discriminate | intros [? ?]; discriminate].
  - split; [destruct s; discriminate | intros [? ?]; discriminate].
Qed.

(** Comparisons of a float with an integer, in terms of values. *)
Lemma SF_gt_int_spec (x : spec_float) (n : Z) :
  finite_SF x = true ->
  (Py.SF_gt_int x n = true <-> (inject_Z n < Py.SF2Q x)%Q).
Proof.
  destruct x as [s|s| |s m e]; try discriminate; intros _; cbn [Py.SF_gt_int Py.SF2Q].
  - rewrite Z.ltb_lt. unfold Qlt, inject_Z. cbn. lia.
  - destruct e as [|p|p]; rewrite Z.ltb_lt.
    + rewrite <- Zlt_Qlt. reflexivity.
    + rewrite <- Zlt_Qlt. reflexivity.
    + unfold Qlt, inject_Z. cbn [Qnum Qden]. rewrite Pos2Z.inj_pow. lia.
Qed.

Lemma float_gt_int_spec (x : float) (n : Z) :
  is_finite x = true ->
  (Py.float_gt_int x n = true <-> (inject_Z n < Py.float2Q x)%Q).
Proof.
  intros H. apply SF_gt_int_spec, is_finite_spec, H.
Qed.

Lemma float_gt_int_irrefl (x : float) (n : Z) :
  is_finite x = true -> (Py.float2Q x == inject_Z n)%Q -> Py.float_gt_int x n = false.
Proof.
  intros Hf He. destruct (Py.float_gt_int x n) eqn:E; [|reflexivity].
  apply float_gt_int_spec in E; [|assumption].
  rewrite He in E. exfalso. revert E. apply Qlt_irrefl.
Qed.

(** The content of a file, piece by piece. *)
Lemma file_content_from_app (path : string) (t1 t2 : list event) (acc : string) :
  file_content_from path (t1 ++ t2) acc =
  file_content_from path t2 (file_content_from path t1 acc).
Proof.
  revert acc. induction t1 as [|ev t1 IH]; intros acc; [reflexivity|].
  destruct ev; cbn [app file_content_from]; apply IH.
Qed.

Lemma file_content_app (path : string) (t1 t2 : list event) :
  file_content path (t1 ++ t2) = file_content_from path t2 (file_content path t1).
Proof. apply file_content_from_app. Qed.

(** ** The acquisition loop *)

Lemma loop_body_sky (r : report) (st : acq) (t : list event) :
  class r = "SKY" -> noSats st = true ->
  loop_body r st t =
  (Ok {| a_lat := a_lat st; a_lon := a_lon st; a_satfix := a_satfix st;
         a_sats := Z.of_nat (length (satellites r)); noSats := false;
         noCoords := noCoords st; saveReport := saveReport st |}, t).
Proof.
  intros Hc Hn. unfold loop_body. rewrite Hc, Hn. reflexivity.
Qed.

Lemma loop_body_tpv (r : report) (st : acq) (t : list event) lat lon satfix :
  class r = "TPV" -> noCoords st = true ->
  latlonfix r = Ok (lat, lon, satfix) ->
  loop_body r st t =
  if Py.truthy lon && Py.truthy lat then
    (Ok {| a_lat := lat; a_lon := lon; a_satfix := satfix; a_sats := a_sats st;
           noSats := noSats st; noCoords := false; saveReport := Some r |}, t)
  else
    (Ok {| a_lat := lat; a_lon := lon; a_satfix := satfix; a_sats := a_sats st;
           noSats := noSats st; noCoords := true; saveReport := saveReport st |},
     if satfix =? 0 then t ++ [Sleep 0.5] else t)%list.
Proof.
  intros Hc Hn Hl. unfold loop_body. rewrite Hc, Hn. cbn [String.eqb Ascii.eqb Bool.eqb andb].
  unfold bindP, lift. rewrite Hl.
  destruct (Py.truthy lon && Py.truthy lat); [reflexivity|].
  destruct (satfix =? 0); reflexivity.
Qed.

Lemma loop_body_ignored (r : report) (st : acq) (t : list event) :
  (class r <> "SKY" \/ noSats st = false) ->
  (class r <> "TPV" \/ noCoords st = false) ->
  loop_body r st t = (Ok st, t).
Proof.
  intros Hs Ht. unfold loop_body.
  assert (E1 : String.eqb (class r) "SKY" && noSats st = false).
  { destruct Hs as [Hs|Hs]; [apply String.eqb_neq in Hs; rewrite Hs; reflexivity|].
    rewrite Hs. apply andb_false_r. }
  assert (E2 : String.eqb (class r) "TPV" && noCoords st = false).
  { destruct Ht as [Ht|Ht]; [apply String.eqb_neq in Ht; rewrite Ht; reflexivity|].
    rewrite Ht. apply andb_false_r. }
  rewrite E1, E2. reflexivity.
Qed.

Ltac keep_witness H :=
  let x := fresh "x" in
  destruct (H ltac:(first [assumption | reflexivity])) as (x & ? & ?);
  exists x; auto.

Lemma loop_body_inv (pool : list report) (r : report) (st st' : acq) (t t' : list event) :
  acq_inv pool st -> loop_body r st t = (Ok st', t') ->
  acq_inv (pool ++ [r]) st'.
Proof.
  intros [Ic Is] H.
  assert (Hin : forall x, In x pool -> In x (pool ++ [r])) by (intros; apply in_or_app; auto).
  assert (Hr : In r (pool ++ [r])) by (apply in_or_app; right; left; reflexivity).
  unfold loop_body in H.
  destruct (String.eqb_spec (class r) "SKY") as [Hsky|Hsky];
    [destruct (noSats st) eqn:Hns|]; cbn [andb] in H.
  - injection H as <- <-. split; cbn [noCoords noSats saveReport a_lat a_lon a_satfix a_sats].
    + intros Hc. keep_witness Ic.
    + intros _. exists r. auto.
  - assert (Htpv : String.eqb (class r) "TPV" = false) by (rewrite Hsky; reflexivity).
    rewrite Htpv in H. cbn [andb] in H. injection H as <- <-. split.
    + intros Hc. keep_witness Ic.
    + intros Hs. keep_witness Is.
  - destruct (String.eqb_spec (class r) "TPV") as [Htpv|Htpv];
      [destruct (noCoords st) eqn:Hnc|]; cbn [andb] in H.
    + unfold bindP, lift in H.
      destruct (latlonfix r) as [[[lat lon] satfix]|e] eqn:Hl; [|discriminate].
      destruct (Py.truthy lon && Py.truthy lat) eqn:Htr.
      * injection H as <- <-. apply andb_true_iff in Htr. destruct Htr.
        split; cbn [noCoords noSats saveReport a_lat a_lon a_satfix a_sats].
        -- intros _. exists r. auto 10.
        -- intros Hs. keep_witness Is.
      * assert (Hst' : noCoords st' = true /\ noSats st' = noSats st /\ a_sats st' = a_sats st).
        { destruct (satfix =? 0)%Z; unfold bindP, emit, ret in H; injection H as <- <-; auto. }
        destruct Hst' as (Hc' & Hs' & Ha'). split.
        -- rewrite Hc'. discriminate.
        -- rewrite Hs', Ha'. intros Hs. keep_witness Is.
    + injection H as <- <-. split.
      * intros Hc. keep_witness Ic.
      * intros Hs. keep_witness Is.
    + injection H as <- <-. split.
      * intros Hc. keep_witness Ic.
      * intros Hs. keep_witness Is.
Qed.

Lemma acquire_inv (reports : list report) :
  forall pool st t st' t',
    acq_inv pool st -> acquire reports st t = (Ok st', t') ->
    acq_inv (pool ++ reports) st' /\ noSats st' = false /\ noCoords st' = false.
Proof.
  induction reports as [|r rest IH]; intros pool st t st' t' Hinv H; cbn [acquire] in H.
  - destruct (noSats st || noCoords st) eqn:E; [discriminate|].
    injection H as <- <-. apply orb_false_iff in E. rewrite app_nil_r. tauto.
  - destruct (noSats st || noCoords st) eqn:E.
    + unfold bindP in H. destruct (loop_body r st t) as [[st1|e] t1] eqn:Hb; [|discriminate].
      pose proof (loop_body_inv pool r st st1 t t1 Hinv Hb) as Hinv1.
      destruct (IH _ _ _ _ _ Hinv1 H) as (Hi & Hs & Hc).
      rewrite <- app_assoc in Hi. auto.
    + injection H as <- <-. apply orb_false_iff in E. destruct E as [Es Ec].
      destruct Hinv as [Ic Is]. repeat split; try assumption.
      * intros Hc. destruct (Ic Hc) as (x & ? & ?). exists x.
        split; [apply in_or_app; auto | assumption].
      * intros Hs. destruct (Is Hs) as (x & ? & ?). exists x.
        split; [apply in_or_app; auto | assumption].
Qed.

Lemma acq_inv_init : acq_inv [] acq_init.
Proof. split; discriminate. Qed.

(** ** Texts *)

Lemma string_app_assoc (a b c : string) : ((a ++ b) ++ c = a ++ (b ++ c))%string.
Proof. induction a as [|x a IH]; cbn; [reflexivity | rewrite IH; reflexivity]. Qed.

Lemma last_char_app (a b : string) :
  b <> EmptyString -> last_char (a ++ b) = last_char b.
Proof.
  intros Hb. induction a as [|x a IH]; [reflexivity|].
  cbn [append last_char]. rewrite IH.
  destruct (a ++ b)%string eqn:E; [|reflexivity].
  destruct a; cbn in E; [contradiction | discriminate].
Qed.

Lemma join_commas_snoc (l : list string) (x : string) :
  l <> [] -> join_commas (l ++ [x]) = (join_commas l ++ "," ++ x)%string.
Proof.
  unfold join_commas. induction l as [|a l IH]; intros Hl; [contradiction|].
  destruct l as [|b l]; [reflexivity|].
  change (String.concat "," ((a :: b :: l) ++ [x]))
    with (a ++ "," ++ String.concat "," ((b :: l) ++ [x]))%string.
  rewrite IH by discriminate.
  change (String.concat "," (a :: b :: l))
    with (a ++ "," ++ String.concat "," (b :: l))%string.
  rewrite !string_app_assoc. reflexivity.
Qed.

(** ** The logging event *)

Section LoggingLemmas.

Context {L : Libraries}.

Lemma logGPSdata_at_gate fullpath subdir csvfilename ndx prev_loc dtraveled debug
    c t st t1 r utc speed_mps alt_meters temp :
  at_gate c t st t1 r utc speed_mps alt_meters temp ->
  logGPSdata fullpath subdir csvfilename ndx prev_loc dtraveled debug c t =
  if gate prev_loc st dtraveled then
    match take_photo c (fullpath ++ "/" ++ photo_name subdir (ndx + 1))
            (data_tags st utc speed_mps alt_meters)
            (t1 ++ data_prints debug st utc speed_mps alt_meters temp subdir (ndx + 1)
                ++ [FileAppend (fullpath ++ "/" ++ csvfilename)
                      (data_row st utc speed_mps alt_meters temp subdir (ndx + 1))])%list
    with
    | (Ok _, t2) => (Ok ((a_lat st, a_lon st), ndx + 1), t2)
    | (Raise e, t2) => (Raise e, t2)
    end
  else (Ok ((a_lat st, a_lon st), ndx), t1).
Proof.
  intros [Ha Hr Ht Hs Hal Htemp].
  unfold logGPSdata, gate. unfold bindP at 1. rewrite Ha.
  unfold bindP at 1. unfold lift at 1. rewrite Hr.
  unfold bindP at 1. unfold lift at 1. rewrite Ht.
  unfold bindP at 1. unfold lift at 1. rewrite Hs.
  unfold bindP at 1. unfold lift at 1. rewrite Hal.
  unfold bindP at 1. unfold lift at 1. rewrite Htemp.
  unfold bindP at 1.
  destruct (Py.float_gt_int _ dtraveled); [|reflexivity].
  unfold take_photo, data_prints, data_row, data_tags.
  unfold bindP, emit, emit_all, lift, ret.
  destruct debug; rewrite <- ?app_assoc, ?app_nil_r; cbn [app];
  destruct (camera_open c); try reflexivity;
  destruct (gps_exif_tags _ _ _ _ _ _ _ _); try reflexivity;
  destruct (camera_capture c); reflexivity.
Qed.


(** A call that returns has passed every step before the distance
    test. *)
Lemma logGPSdata_ok_inv fullpath subdir csvfilename n0 prev dtraveled debug c t l n t' :
  logGPSdata fullpath subdir csvfilename n0 prev dtraveled debug c t = (Ok (l, n), t') ->
  exists st t1 r utc speed_mps alt_meters temp,
    at_gate c t st t1 r utc speed_mps alt_meters temp.
Proof.
  unfold logGPSdata. intros H.
  unfold bindP at 1 in H.
  destruct (acquire (gps_reports c) acq_init t) as [[st|e] t1] eqn:Ha; [|discriminate].
  unfold bindP at 1 in H. unfold lift at 1 in H.
  destruct (saveReport st) as [r|] eqn:Hr; [|discriminate].
  unfold bindP at 1 in H. unfold lift at 1 in H.
  destruct (strptime_utc _) as [utc|e] eqn:Ht; [|discriminate].
  unfold bindP at 1 in H. unfold lift at 1 in H.
  destruct (strtofloat (getattr (speed r) _)) as [v|e] eqn:Hs; [|discriminate].
  unfold bindP at 1 in H. unfold lift at 1 in H.
  destruct (strtofloat (getattr (alt r) _)) as [h|e] eqn:Hal; [|discriminate].
  unfold bindP at 1 in H. unfold lift at 1 in H.
  destruct (read_temp c) as [temp|e] eqn:Htemp; [|discriminate].
  exists st, t1, r, utc, v, h, temp. constructor; assumption.
Qed.

(** What [take_photo] adds to the trace: no file is touched, and a
    photo is there exactly when every step succeeded. *)
Lemma take_photo_cases (c : cycle) (path : string)
    (tags : result (list (string * string))) (t : list event) :
  exists out t2,
    take_photo c path tags t = (out, t ++ t2)%list /\
    (forall p acc, file_content_from p t2 acc = acc) /\
    ((exists e, out = Raise e /\ forall p x, ~ In (Capture p x) t2) \/
     (exists x, out = Ok tt /\ camera_open c = Ok tt /\ tags = Ok x /\
                camera_capture c = Ok tt /\ t2 = [Sleep 2; Capture path x])).
Proof.
  unfold take_photo, bindP, lift, emit.
  destruct (camera_open c) as [[]|e].
  - destruct tags as [x|e].
    + destruct (camera_capture c) as [[]|e].
      * exists (Ok tt), [Sleep 2; Capture path x]. rewrite <- app_assoc.
        split; [reflexivity|]. split; [reflexivity|]. right. exists x. auto.
      * exists (Raise e), [Sleep 2]. split; [reflexivity|]. split; [reflexivity|].
        left. exists e. split; [reflexivity|]. intros p y [H|[]]. discriminate.
    + exists (Raise e), [Sleep 2]. split; [reflexivity|]. split; [reflexivity|].
      left. exists e. split; [reflexivity|]. intros p y [H|[]]. discriminate.
  - exists (Raise e), []. rewrite app_nil_r. split; [reflexivity|]. split; [reflexivity|].
    left. exists e. split; [reflexivity|]. intros p y [].
Qed.

Lemma file_content_data_point (path : string) debug st utc v h temp subdir n
    (row : string) (rest : list event) (acc : string) :
  file_content_from path
    (data_prints debug st utc v h temp subdir n ++ FileAppend path row :: rest) acc =
  file_content_from path rest (acc ++ row).
Proof.
  unfold data_prints, debug_prints.
  destruct debug; cbn [app file_content_from]; rewrite String.eqb_refl; reflexivity.
Qed.

End LoggingLemmas.

(** * The properties *)

(** ** Unit conversions *)

Lemma float_of_string_error (s : string) (e : exn) :
  PyFloatParse.float_of_string s = Raise e -> e = ValueError.
Proof.
  unfold PyFloatParse.float_of_string.
  destruct (PyFloatParse.parse_float _); [discriminate | congruence].
Qed.

Lemma strtofloat_string (s : string) :
  strtofloat (PyStr s) =
  Ok (match PyFloatParse.float_of_string s with
      | Ok x => if (x =? x)%float then x else 0%float
      | Raise _ => 0%float
      end).
Proof.
  unfold strtofloat, is_number. cbn [py_float].
  destruct (PyFloatParse.float_of_string s) as [x|e] eqn:E.
  - cbn [bind]. destruct (x =? x)%float; cbn [negb py_float]; [assumption | reflexivity].
  - rewrite (float_of_string_error s e E). reflexivity.
Qed.

(** C6.  [strtofloat] never raises on a string: what does not parse,
    and what parses as NaN, gives 0.0, and a finite value is returned
    as parsed.  But an infinity passes the test [x == x] of
    [is_number], against the comment on that line, and is returned as
    it is. *)
Theorem strtofloat_on_strings :
  (forall s, exists x, strtofloat (PyStr s) = Ok x) /\
  (forall s, PyFloatParse.float_of_string s = Raise ValueError ->
             strtofloat (PyStr s) = Ok 0%float) /\
  (forall s x, PyFloatParse.float_of_string s = Ok x -> is_finite x = true ->
               strtofloat (PyStr s) = Ok x) /\
  strtofloat (PyStr "NaN") = Ok 0%float /\
  strtofloat (PyStr "abc") = Ok 0%float /\
  strtofloat (PyStr "12.5") = Ok 12.5%float /\
  is_number (PyStr "+Infinity") = Ok true /\
  strtofloat (PyStr "+Infinity") = Ok infinity /\
  strtofloat (PyStr "-Infinity") = Ok neg_infinity.
Proof.
  split; [intros s; rewrite strtofloat_string; eauto|].
  split; [intros s H; rewrite strtofloat_string, H; reflexivity|].
  split.
  - intros s x H Hfin. rewrite strtofloat_string, H.
    unfold is_finite, is_nan in Hfin.
    destruct (x =? x)%float; [reflexivity | discriminate].
  - repeat split; vm_compute; reflexivity.
Qed.

Lemma int_mul_float_60 (f : float) : Py.int_mul_float 60 f = Ok (60 * f)%float.
Proof. reflexivity. Qed.

Lemma int_mul_float_6000 (f : float) : Py.int_mul_float 6000 f = Ok (6000 * f)%float.
Proof. reflexivity. Qed.

(** C7.  [dec2dms] ignores the sign of its argument, and on a finite
    argument it returns the triple of the specification: integer parts
    by truncation, of the absolute value, of 60 times its fractional
    part and of 6000 times the fraction of a minute that is left. *)
Theorem dec2dms_formula (x : float) :
  dec2dms (- x) = dec2dms x /\
  (is_finite x = true ->
   exists degrees minutes seconds,
     dec2dms x = Ok (degrees, minutes, seconds) /\
     DecimalToDMS_spec x degrees minutes seconds).
Proof.
  split; [apply dec2dms_opp|]. intros Hfin.
  destruct (dec2dms_runs x Hfin) as (d & mi & se & f & m & g & s & R).
  exists d, mi, se. split; [exact (dms_run_result _ _ _ _ _ _ _ _ R)|].
  pose proof (run_m _ _ _ _ _ _ _ _ R) as Hm. rewrite int_mul_float_60 in Hm.
  injection Hm as Hm.
  pose proof (run_s _ _ _ _ _ _ _ _ R) as Hs. rewrite int_mul_float_6000 in Hs.
  injection Hs as Hs.
  exists f, g. rewrite Hm, Hs.
  repeat split; apply R.
Qed.

(** The products are float products, as in the program: at
    0.5333333333333333 the product [60 * f] rounds up to 32, where the
    real product is just below it and real arithmetic would give
    [(0, 31, 5999)]. *)
Example dec2dms_rounded_product :
  dec2dms (0x1.1111111111111p-1)%float = Ok (0, 32, 0).
Proof. vm_compute. reflexivity. Qed.

Lemma dec2dms_formula_witness :
  exists degrees minutes seconds,
    dec2dms (float_literal "40.7128") = Ok (degrees, minutes, seconds) /\
    DecimalToDMS_spec (float_literal "40.7128") degrees minutes seconds.
Proof.
  apply (proj2 (dec2dms_formula (float_literal "40.7128"))). reflexivity.
Defined.

(** C8, as the specification has it: [dec2dms(40.7128)] is not
    [(40, 42, 76)]. *)
Lemma dec2dms_40_7128_is_not_76 :
  dec2dms (float_literal "40.7128") <> Ok (40, 42, 76).
Proof. vm_compute. discriminate. Qed.

(** C8, amended: [dec2dms(40.7128)] is [(40, 42, 4608)], the seconds
    46.08 in hundredths. *)
Theorem dec2dms_40_7128 :
  dec2dms (float_literal "40.7128") = Ok (40, 42, 4608).
Proof. vm_compute. reflexivity. Qed.

(** C10.  On a finite argument the components of [dec2dms] are in
    range: degrees at least 0, minutes from 0 to 59, hundredths of
    seconds from 0 to 5999; the Exif text is built from them. *)
Theorem dec2dms_ranges (x : float) :
  is_finite x = true ->
  exists degrees minutes seconds,
    dec2dms x = Ok (degrees, minutes, seconds) /\
    0 <= degrees /\ 0 <= minutes <= 59 /\ 0 <= seconds <= 5999 /\
    exif_dms x = Ok (Py.str_of_int degrees ++ "/1," ++ Py.str_of_int minutes
                     ++ "/1," ++ Py.str_of_int seconds ++ "/100")%string.
Proof.
  intros Hfin.
  destruct (dec2dms_runs x Hfin) as (d & mi & se & f & m & g & s & R).
  pose proof (dms_run_result _ _ _ _ _ _ _ _ R) as Hr.
  pose proof (run_degrees_range _ _ _ _ _ _ _ _ R).
  pose proof (run_minutes_range _ _ _ _ _ _ _ _ R).
  pose proof (run_seconds_range _ _ _ _ _ _ _ _ R).
  exists d, mi, se. repeat split; try lia; try assumption.
  unfold exif_dms. rewrite Hr. reflexivity.
Qed.

Lemma dec2dms_ranges_witness :
  exists degrees minutes seconds,
    dec2dms (0x1.fffffffffffffp-1)%float = Ok (degrees, minutes, seconds) /\
    0 <= degrees /\ 0 <= minutes <= 59 /\ 0 <= seconds <= 5999 /\
    exif_dms (0x1.fffffffffffffp-1)%float =
    Ok (Py.str_of_int degrees ++ "/1," ++ Py.str_of_int minutes
        ++ "/1," ++ Py.str_of_int seconds ++ "/100")%string.
Proof.
  apply (dec2dms_ranges (0x1.fffffffffffffp-1)%float). reflexivity.
Defined.

(** ** The fix-acquisition loop *)

(** The loop of [logGPSdata], report by report.  A position report
    read while no fix is held is accepted, and kept as [saveReport],
    exactly when its latitude and its longitude are both nonzero; when
    it is not accepted the program sleeps half a second before the
    next report exactly when its fix status is 0.  The first sky
    report sets the satellite count, once.  Every other report changes
    nothing.  The loop returns only with a satellite count and an
    accepted fix, both taken from the reports it read. *)
Lemma fix_acquisition_loop :
  (forall x, Py.truthy x = false <-> exists s, Prim2SF x = S754_zero s) /\
  (forall r st t lat lon satfix,
     class r = "TPV" -> noCoords st = true ->
     latlonfix r = Ok (lat, lon, satfix) ->
     exists st' t',
       loop_body r st t = (Ok st', t') /\
       (noCoords st' = false <-> Py.truthy lat = true /\ Py.truthy lon = true) /\
       (noCoords st' = false ->
        saveReport st' = Some r /\ a_lat st' = lat /\ a_lon st' = lon /\ t' = t) /\
       (noCoords st' = true ->
        saveReport st' = saveReport st /\
        t' = if satfix =? 0 then (t ++ [Sleep 0.5])%list else t) /\
       noSats st' = noSats st /\ a_sats st' = a_sats st) /\
  (forall r st t,
     class r = "SKY" -> noSats st = true ->
     exists st',
       loop_body r st t = (Ok st', t) /\
       noSats st' = false /\ a_sats st' = Z.of_nat (length (satellites r)) /\
       noCoords st' = noCoords st /\ saveReport st' = saveReport st /\
       a_lat st' = a_lat st /\ a_lon st' = a_lon st) /\
  (forall r st t,
     (class r <> "SKY" \/ noSats st = false) ->
     (class r <> "TPV" \/ noCoords st = false) ->
     loop_body r st t = (Ok st, t)) /\
  (forall reports t st' t',
     acquire reports acq_init t = (Ok st', t') ->
     noSats st' = false /\ noCoords st' = false /\ acq_inv reports st').
Proof.
  split; [exact truthy_spec|]. split; [|split; [|split]].
  - intros r st t lat lon satfix Hc Hn Hl.
    rewrite (loop_body_tpv r st t lat lon satfix Hc Hn Hl).
    destruct (Py.truthy lon) eqn:Elon, (Py.truthy lat) eqn:Elat; cbn [andb];
      eexists; eexists; (split; [reflexivity|]);
      cbn [noCoords noSats saveReport a_lat a_lon a_sats];
      repeat split; try tauto; try discriminate; intros []; discriminate.
  - intros r st t Hc Hn. rewrite (loop_body_sky r st t Hc Hn).
    eexists. split; [reflexivity|]. cbn. tauto.
  - exact loop_body_ignored.
  - intros reports t st' t' H.
    destruct (acquire_inv reports [] acq_init t st' t' acq_inv_init H) as (Hi & Hs & Hc).
    auto.
Qed.


Lemma sample_run :
  acquire Demo.sample_reports acq_init [] = (Ok Demo.sample_final, [Sleep 0.5]).
Proof. vm_compute. reflexivity. Qed.

Lemma fix_acquisition_loop_witness :
  acquire Demo.sample_reports acq_init [] = (Ok Demo.sample_final, [Sleep 0.5]) /\
  noSats Demo.sample_final = false /\ noCoords Demo.sample_final = false /\
  acq_inv Demo.sample_reports Demo.sample_final.
Proof.
  split; [exact sample_run|].
  destruct fix_acquisition_loop as (_ & _ & _ & _ & H).
  exact (H Demo.sample_reports [] Demo.sample_final [Sleep 0.5] sample_run).
Defined.

(** While the receiver has no fix, the loop reads on without a
    sleep. *)
Lemma no_fix_spins (k : nat) :
  forall st t,
    noCoords st = true ->
    acquire (repeat (Demo.no_fix 1) k) st t = (Raise StopIteration, t).
Proof.
  induction k as [|k IH]; intros st t Hn; cbn [repeat acquire];
    rewrite Hn, orb_true_r.
  - reflexivity.
  - unfold bindP.
    rewrite (loop_body_tpv (Demo.no_fix 1) st t 0%float 0%float 1
               eq_refl Hn eq_refl).
    cbn [Py.truthy andb Z.eqb]. change (Py.truthy 0 && Py.truthy 0) with false.
    cbv iota. apply IH. reflexivity.
Qed.

(** C2, on the code: the sleep is tied to a fix status of 0, not to
    the lack of a fix.  A position report without coordinates and
    with mode 1, gpsd's "no fix", is not accepted and is followed by
    no sleep, where the same report with mode 0 is followed by one;
    however many such reports come, the loop reads them all without a
    single sleep. *)
Theorem no_fix_report_does_not_sleep :
  latlonfix (Demo.no_fix 1) = Ok (0%float, 0%float, 1) /\
  loop_body (Demo.no_fix 1) acq_init [] =
  (Ok {| a_lat := 0; a_lon := 0; a_satfix := 1; a_sats := 0;
         noSats := true; noCoords := true; saveReport := None |}, []) /\
  loop_body (Demo.no_fix 0) acq_init [] =
  (Ok {| a_lat := 0; a_lon := 0; a_satfix := 0; a_sats := 0;
         noSats := true; noCoords := true; saveReport := None |}, [Sleep 0.5]) /\
  (forall k t, acquire (repeat (Demo.no_fix 1) k) acq_init t = (Raise StopIteration, t)).
Proof.
  split; [reflexivity|]. split; [reflexivity|]. split; [reflexivity|].
  intros k t. apply no_fix_spins. reflexivity.
Qed.

(** ** The logging event *)

Section LoggingProperties.

Context {L : Libraries}.

(** C3.  The distance test is strict.  When the call gets as far as
    the test and the distance is exactly the threshold, nothing is
    written and no photo is taken; when it is greater, the CSV row is
    appended, and the photo follows if the camera works and the Exif
    tags can be built. *)
Theorem gate_is_strict fullpath subdir csvfilename n0 prev dtraveled debug
    c t st t1 r utc speed_mps alt_meters temp :
  at_gate c t st t1 r utc speed_mps alt_meters temp ->
  is_finite (distance_feet prev (a_lat st, a_lon st)) = true ->
  let d := Py.float2Q (distance_feet prev (a_lat st, a_lon st)) in
  let logged :=
    (t1 ++ data_prints debug st utc speed_mps alt_meters temp subdir (n0 + 1)
        ++ [FileAppend (fullpath ++ "/" ++ csvfilename)
              (data_row st utc speed_mps alt_meters temp subdir (n0 + 1))])%list in
  ((d == inject_Z dtraveled)%Q ->
   logGPSdata fullpath subdir csvfilename n0 prev dtraveled debug c t =
   (Ok ((a_lat st, a_lon st), n0), t1)) /\
  ((inject_Z dtraveled < d)%Q ->
   exists out t2,
     logGPSdata fullpath subdir csvfilename n0 prev dtraveled debug c t =
     (out, logged ++ t2)%list /\
     (forall tags,
        camera_open c = Ok tt ->
        data_tags st utc speed_mps alt_meters = Ok tags ->
        camera_capture c = Ok tt ->
        out = Ok ((a_lat st, a_lon st), n0 + 1) /\
        t2 = [Sleep 2; Capture (fullpath ++ "/" ++ photo_name subdir (n0 + 1)) tags])).
Proof.
  intros Hg Hfin d logged.
  pose proof (logGPSdata_at_gate fullpath subdir csvfilename n0 prev dtraveled debug
                c t st t1 r utc speed_mps alt_meters temp Hg) as E.
  split.
  - intros Heq. rewrite E. unfold gate.
    rewrite (float_gt_int_irrefl _ _ Hfin Heq). reflexivity.
  - intros Hlt. rewrite E. unfold gate.
    rewrite (proj2 (float_gt_int_spec _ _ Hfin) Hlt). fold logged.
    destruct (take_photo_cases c (fullpath ++ "/" ++ photo_name subdir (n0 + 1))
                (data_tags st utc speed_mps alt_meters) logged)
      as (out & t2 & Ht & _ & [(e & -> & _)|(x & -> & Ho & Hx & Hc & ->)]); rewrite Ht.
    + exists (Raise e), t2. split; [reflexivity|].
      intros tags Ho Hx Hc. exfalso.
      unfold take_photo, bindP, lift, emit in Ht. rewrite Ho, Hx, Hc in Ht. discriminate.
    + eexists. eexists. split; [reflexivity|].
      intros tags _ Hx' _. rewrite Hx in Hx'. injection Hx' as <-. auto.
Qed.

(** C4.  The CSV row is appended before the camera is used: whatever
    the camera does, a call that passes the distance test leaves the
    row in the file, its last field the name of the photo.  When the
    capture raises, the call raises, no photo exists, and [main] keeps
    the old position and index. *)
Theorem csv_row_before_capture fullpath subdir csvfilename n0 prev dtraveled debug
    c t st t1 r utc speed_mps alt_meters temp :
  at_gate c t st t1 r utc speed_mps alt_meters temp ->
  gate prev st dtraveled = true ->
  let path := fullpath ++ "/" ++ csvfilename in
  let row := data_row st utc speed_mps alt_meters temp subdir (n0 + 1) in
  let written :=
    (t1 ++ data_prints debug st utc speed_mps alt_meters temp subdir (n0 + 1)
        ++ [FileAppend path row])%list in
  exists out camera,
    logGPSdata fullpath subdir csvfilename n0 prev dtraveled debug c t =
    (out, written ++ camera)%list /\
    file_content path (written ++ camera) = file_content path t1 ++ row /\
    (exists fields, row = fields ++ "," ++ photo_name subdir (n0 + 1)) /\
    (forall tags e,
       camera_open c = Ok tt ->
       data_tags st utc speed_mps alt_meters = Ok tags ->
       camera_capture c = Raise e ->
       out = Raise e /\ camera = [Sleep 2] /\
       fst (main_turn fullpath subdir csvfilename dtraveled debug
              {| prev_loc := prev; ndx := n0 |} c t) =
       Ok {| prev_loc := prev; ndx := n0 |}).
Proof.
  intros Hg Hgate path row written.
  pose proof (logGPSdata_at_gate fullpath subdir csvfilename n0 prev dtraveled debug
                c t st t1 r utc speed_mps alt_meters temp Hg) as E.
  rewrite Hgate in E. fold path row written in E.
  destruct (take_photo_cases c (fullpath ++ "/" ++ photo_name subdir (n0 + 1))
              (data_tags st utc speed_mps alt_meters) written)
    as (out & camera & Ht & Hfile & Hout).
  rewrite Ht in E.
  exists (match out with Ok _ => Ok ((a_lat st, a_lon st), n0 + 1) | Raise e => Raise e end),
         camera.
  split; [rewrite E; destruct out; reflexivity|]. split; [|split].
  - rewrite file_content_app, Hfile. unfold written.
    rewrite file_content_app, file_content_data_point. reflexivity.
  - unfold row, data_row, csv_row.
    match goal with
    | |- exists _, join_commas [?a; ?b; ?c0; ?d; ?e0; ?f; ?g; ?h; ?p] = _ =>
        exists (join_commas [a; b; c0; d; e0; f; g; h]);
        exact (join_commas_snoc [a; b; c0; d; e0; f; g; h] p ltac:(discriminate))
    end.
  - intros tags e Ho Hx Hc.
    unfold take_photo, bindP, lift, emit in Ht. rewrite Ho, Hx, Hc in Ht.
    injection Ht as <- Hcam.
    assert (camera = [Sleep 2]) as ->.
    { apply (app_inv_head written). rewrite <- Hcam. reflexivity. }
    split; [reflexivity|]. split; [reflexivity|].
    unfold main_turn. cbn [prev_loc ndx]. rewrite E. reflexivity.
Qed.

(** A call that returns gives back the index it was given, plus one
    exactly when the distance test passed; [main] starts at 0 and the
    index never decreases from one turn of its loop to the next,
    whether the call returned or raised. *)
Lemma photo_index_bounds :
  (forall fullpath subdir csvfilename n0 prev dtraveled debug c t l n t',
     logGPSdata fullpath subdir csvfilename n0 prev dtraveled debug c t = (Ok (l, n), t') ->
     exists st t1,
       acquire (gps_reports c) acq_init t = (Ok st, t1) /\
       n = (if gate prev st dtraveled then n0 + 1 else n0) /\
       (gate prev st dtraveled = false -> t' = t1)) /\
  (forall fullpath subdir csvfilename dtraveled debug s c t,
     exists s' t',
       main_turn fullpath subdir csvfilename dtraveled debug s c t = (Ok s', t') /\
       (ndx s' = ndx s \/ ndx s' = ndx s + 1)) /\
  (forall fullpath subdir csvfilename dtraveled debug cycles s t,
     exists s' t',
       main_loop fullpath subdir csvfilename dtraveled debug cycles s t = (Ok s', t') /\
       ndx s <= ndx s' <= ndx s + Z.of_nat (length cycles)) /\
  ndx session_init = 0.
Proof.
  assert (Hcall : forall fullpath subdir csvfilename n0 prev dtraveled debug c t l n t',
     logGPSdata fullpath subdir csvfilename n0 prev dtraveled debug c t = (Ok (l, n), t') ->
     exists st t1,
       acquire (gps_reports c) acq_init t = (Ok st, t1) /\
       n = (if gate prev st dtraveled then n0 + 1 else n0) /\
       (gate prev st dtraveled = false -> t' = t1)).
  { intros fullpath subdir csvfilename n0 prev dtraveled debug c t l n t' H.
    destruct (logGPSdata_ok_inv _ _ _ _ _ _ _ _ _ _ _ _ H)
      as (st & t1 & r & utc & v & h & temp & Hg).
    exists st, t1. split; [apply Hg|].
    rewrite (logGPSdata_at_gate _ _ _ _ _ _ _ _ _ _ _ _ _ _ _ _ Hg) in H.
    destruct (gate prev st dtraveled).
    - destruct (take_photo _ _ _ _) as [[u|e] t2]; [|discriminate].
      injection H as _ <- _. split; [reflexivity | discriminate].
    - injection H as _ <- <-. auto. }
  assert (Hturn : forall fullpath subdir csvfilename dtraveled debug s c t,
     exists s' t',
       main_turn fullpath subdir csvfilename dtraveled debug s c t = (Ok s', t') /\
       (ndx s' = ndx s \/ ndx s' = ndx s + 1)).
  { intros fullpath subdir csvfilename dtraveled debug s c t. unfold main_turn.
    destruct (logGPSdata fullpath subdir csvfilename (ndx s) (prev_loc s) dtraveled debug c t)
      as [[[l n]|e] t'] eqn:E.
    - eexists. eexists. split; [reflexivity|]. cbn [ndx].
      destruct (Hcall _ _ _ _ _ _ _ _ _ _ _ _ E) as (st & t1 & _ & -> & _).
      destruct (gate _ st dtraveled); auto.
    - eexists. eexists. split; [reflexivity|]. auto. }
  split; [exact Hcall|]. split; [exact Hturn|]. split; [|reflexivity].
  intros fullpath subdir csvfilename dtraveled debug cycles.
  induction cycles as [|c rest IH]; intros s t.
  - exists s, t. split; [reflexivity|]. cbn [length]. lia.
  - cbn [main_loop]. unfold bindP.
    destruct (Hturn fullpath subdir csvfilename dtraveled debug s c t)
      as (s1 & t1 & -> & Hs1).
    destruct (IH s1 t1) as (s' & t' & -> & Hs').
    exists s', t'. split; [reflexivity|].
    cbn [length]. rewrite Nat2Z.inj_succ. lia.
Qed.

(** The position returned is the fix just acquired, whether or not
    the distance test passed. *)
Lemma gated_call_returns_the_new_fix fullpath subdir csvfilename n0 prev dtraveled debug
    c t st t1 r utc speed_mps alt_meters temp :
  at_gate c t st t1 r utc speed_mps alt_meters temp ->
  gate prev st dtraveled = false ->
  logGPSdata fullpath subdir csvfilename n0 prev dtraveled debug c t =
  (Ok ((a_lat st, a_lon st), n0), t1).
Proof.
  intros Hg Hgate.
  rewrite (logGPSdata_at_gate _ _ _ _ _ _ _ _ _ _ _ _ _ _ _ _ Hg), Hgate. reflexivity.
Qed.

(** The text of a data row ends with the [g] of [.jpg]. *)
Lemma csv_row_last_char date_str time_str lat lon speed_mph alt_feet temp_f sats subdir n :
  last_char (csv_row date_str time_str lat lon speed_mph alt_feet temp_f sats
               (photo_name subdir n)) = Some "g"%char.
Proof.
  unfold csv_row.
  pose proof (join_commas_snoc [date_str; time_str; str_of_float lat; str_of_float lon;
                                str_of_float speed_mph; str_of_float alt_feet;
                                str_of_float temp_f; Py.str_of_int sats]
                (photo_name subdir n) ltac:(discriminate)) as E.
  cbn [app] in E. rewrite E.
  unfold photo_name. rewrite <- !string_app_assoc.
  rewrite last_char_app by discriminate. reflexivity.
Qed.

End LoggingProperties.

(** *** The samples *)

Lemma sample_at_gate_d :
  at_gate (L := Demo.libraries) (Demo.cycle_at Demo.point_d) [] (Demo.fix_at Demo.point_d) []
    (Demo.tpv (PyFloat (fst Demo.point_d)) (PyFloat (snd Demo.point_d)) 3)
    (Demo.sample_time, false) 10 100 (20, 68)%float.
Proof. constructor; vm_compute; reflexivity. Qed.

Lemma sample_at_gate_camera_fails :
  at_gate (L := Demo.libraries) (Demo.cycle_camera_fails Demo.point_d) []
    (Demo.fix_at Demo.point_d) []
    (Demo.tpv (PyFloat (fst Demo.point_d)) (PyFloat (snd Demo.point_d)) 3)
    (Demo.sample_time, false) 10 100 (20, 68)%float.
Proof. constructor; vm_compute; reflexivity. Qed.

Lemma gate_is_strict_witness :
  logGPSdata (L := Demo.libraries) "/data/run" "run" "gpsdata.run.csv" 0
    Demo.point_a 11375 true (Demo.cycle_at Demo.point_d) [] =
  (Ok (Demo.point_d, 0), []).
Proof.
  refine (proj1 (gate_is_strict (L := Demo.libraries) "/data/run" "run" "gpsdata.run.csv"
                   0 Demo.point_a 11375 true
                   (Demo.cycle_at Demo.point_d) [] (Demo.fix_at Demo.point_d) []
                   (Demo.tpv (PyFloat (fst Demo.point_d)) (PyFloat (snd Demo.point_d)) 3)
                   (Demo.sample_time, false) 10 100 (20, 68)%float
                   sample_at_gate_d _) _).
  - vm_compute. reflexivity.
  - vm_compute. reflexivity.
Defined.

Lemma csv_row_before_capture_witness :
  exists out camera,
    logGPSdata (L := Demo.libraries) "/data/run" "run" "gpsdata.run.csv" 0
      Demo.point_a 100 false (Demo.cycle_camera_fails Demo.point_d) [] =
    (out,
     [FileAppend "/data/run/gpsdata.run.csv"
        "Dec 31 2019,06:00:00PM CST,40.03125,-74.0,22.4,328.1,68.0,7,run-1.jpg"]
     ++ camera)%list /\
    (out = Raise (CollaboratorError "PiCameraError") /\ camera = [Sleep 2]).
Proof.
  destruct (csv_row_before_capture (L := Demo.libraries) "/data/run" "run"
              "gpsdata.run.csv" 0 Demo.point_a 100 false
              (Demo.cycle_camera_fails Demo.point_d) [] (Demo.fix_at Demo.point_d) []
              (Demo.tpv (PyFloat (fst Demo.point_d)) (PyFloat (snd Demo.point_d)) 3)
              (Demo.sample_time, false) 10 100 (20, 68)%float
              sample_at_gate_camera_fails eq_refl)
    as (out & camera & Hrun & _ & _ & Hfail).
  exists out, camera. split; [exact Hrun|].
  destruct (Hfail Demo.tags_d (CollaboratorError "PiCameraError") eq_refl eq_refl eq_refl)
    as (Ho & Hc & _).
  split; assumption.
Defined.

(** C1, on the code: a call that logs nothing still returns the fix it
    acquired as the position, so the next distance is measured from
    the last fix seen.  From [point_a], where a row was logged, the
    fixes [point_b] and [point_c] are each 88.9 feet from the one
    before and log nothing, although [point_c] is 177.7 feet from
    [point_a]. *)
Theorem baseline_is_last_seen_fix :
  let call := logGPSdata (L := Demo.libraries) "/data/run" "run" "gpsdata.run.csv" in
  let loop := main_loop (L := Demo.libraries) "/data/run" "run" "gpsdata.run.csv" 100 false in
  gate (L := Demo.libraries) Demo.point_a (Demo.fix_at Demo.point_b) 100 = false /\
  call 1 Demo.point_a 100 false (Demo.cycle_at Demo.point_b) [] = (Ok (Demo.point_b, 1), []) /\
  gate (L := Demo.libraries) Demo.point_b (Demo.fix_at Demo.point_c) 100 = false /\
  gate (L := Demo.libraries) Demo.point_a (Demo.fix_at Demo.point_c) 100 = true /\
  fst (loop [Demo.cycle_at Demo.point_a; Demo.cycle_at Demo.point_b;
             Demo.cycle_at Demo.point_c] session_init []) =
  Ok {| prev_loc := Demo.point_c; ndx := 1 |} /\
  snd (loop [Demo.cycle_at Demo.point_a; Demo.cycle_at Demo.point_b;
             Demo.cycle_at Demo.point_c] session_init []) =
  snd (loop [Demo.cycle_at Demo.point_a] session_init []).
Proof. vm_compute. repeat split; reflexivity. Qed.

(** C5, on the code: the header line ends with a line feed, a data
    row ends with the [g] of [.jpg], and two data points leave their
    rows on one line of the file. *)
Theorem csv_rows_run_together :
  last_char csv_header = Some newline /\
  (forall (L : Libraries) date_str time_str lat lon speed_mph alt_feet temp_f sats subdir n,
     last_char (csv_row date_str time_str lat lon speed_mph alt_feet temp_f sats
                  (photo_name subdir n)) = Some "g"%char) /\
  file_content "/data/run/gpsdata.run.csv"
    (snd ((main_setup "/data/run" "gpsdata.run.csv" false ;;;
           main_loop (L := Demo.libraries) "/data/run" "run" "gpsdata.run.csv" 100 false
             [Demo.cycle_at Demo.point_a; Demo.cycle_at Demo.point_e] session_init) [])) =
  "Date,Localtime,latitude,longitude,speed,alt,temp,sats,photo
Dec 31 2019,06:00:00PM CST,40.0,-74.0,22.4,328.1,68.0,7,run-1.jpgDec 31 2019,06:00:00PM CST,41.0,-74.0,22.4,328.1,68.0,7,run-2.jpg".
Proof.
  split; [reflexivity|]. split; [intros; apply csv_row_last_char|].
  vm_compute. reflexivity.
Qed.

(** * Further properties *)

From Stdlib Require DecimalZ.

(** ** More on the conversions *)

Lemma zero_is_not_nan : (0 =? 0)%float = true.
Proof. reflexivity. Qed.

Lemma strtofloat_cases (v : pyval) :
  (exists e, e <> ValueError /\ py_float v = Raise e /\ strtofloat v = Raise e) \/
  (exists x, py_float v = Ok x /\ (x =? x)%float = true /\ strtofloat v = Ok x) \/
  ((py_float v = Raise ValueError \/ exists x, py_float v = Ok x /\ (x =? x)%float = false)
   /\ strtofloat v = Ok 0%float).
Proof.
  unfold strtofloat, is_number.
  destruct (py_float v) as [x|e] eqn:E.
  - cbn [bind]. destruct (x =? x)%float eqn:Ex; cbn [negb].
    + right. left. exists x. auto.
    + right. right. split; [right; exists x; auto | reflexivity].
  - destruct e; cbn [bind negb];
      try (left; eexists; split; [|split; reflexivity]; discriminate).
    right. right. split; [left; reflexivity | reflexivity].
Qed.

Lemma strtofloat_not_nan (v : pyval) (x : float) :
  strtofloat v = Ok x -> is_nan x = false.
Proof.
  unfold is_nan. intros H.
  destruct (strtofloat_cases v) as [(e & _ & _ & E)|[(y & _ & Hy & E)|(_ & E)]];
    rewrite E in H; try discriminate; injection H as <-.
  - rewrite Hy. reflexivity.
  - reflexivity.
Qed.

Lemma latlonfix_not_nan (r : report) (la lo : float) (satfix : Z) :
  latlonfix r = Ok (la, lo, satfix) -> is_nan la = false /\ is_nan lo = false.
Proof.
  unfold latlonfix. intros H.
  destruct (strtofloat (getattr (lat r) (PyFloat 0))) as [a|e] eqn:Ea; [|discriminate].
  destruct (strtofloat (getattr (lon r) (PyFloat 0))) as [b|e] eqn:Eb; [|discriminate].
  cbn [bind] in H.
  destruct (strtofloat (getattr (mode r) (PyInt 0))) as [c|e]; [|discriminate].
  cbn [bind] in H. destruct (Py.int_of_float c); [|discriminate].
  cbn [bind] in H. injection H as <- <- _.
  split; eapply strtofloat_not_nan; eassumption.
Qed.

(** What the conversions can raise. *)
Lemma py_float_raises (v : pyval) (e : exn) :
  py_float v = Raise e -> e = ValueError \/ e = OverflowError.
Proof.
  destruct v as [x|n|s]; cbn [py_float].
  - discriminate.
  - unfold Py.float_of_int. destruct (Py.SF_of_int n); try discriminate.
    intros H. injection H as <-. auto.
  - unfold PyFloatParse.float_of_string.
    destruct (PyFloatParse.parse_float _); [discriminate|].
    intros H. injection H as <-. auto.
Qed.

Lemma strtofloat_raises (v : pyval) (e : exn) :
  strtofloat v = Raise e -> e = OverflowError.
Proof.
  intros H.
  destruct (strtofloat_cases v) as [(e' & Hne & Hp & E)|[(y & _ & _ & E)|(_ & E)]];
    rewrite E in H; try discriminate.
  injection H as <-. destruct (py_float_raises v e' Hp); congruence.
Qed.

Lemma is_nan_spec (x : float) :
  is_nan x = match Prim2SF x with S754_nan => true | _ => false end.
Proof.
  unfold is_nan. rewrite FloatAxioms.eqb_spec.
  destruct (Prim2SF x) as [s|s| |s m e]; unfold SFeqb; cbn [SFcompare].
  - reflexivity.
  - destruct s; reflexivity.
  - reflexivity.
  - rewrite Z.compare_refl, Pos.compare_cont_refl. destruct s; reflexivity.
Qed.

Lemma int_of_float_raises (x : float) (e : exn) :
  Py.int_of_float x = Raise e ->
  e = (if is_nan x then ValueError else OverflowError).
Proof.
  rewrite is_nan_spec. unfold Py.int_of_float.
  destruct (Prim2SF x); cbn [Py.SFtrunc]; intros H; try discriminate;
    injection H as <-; reflexivity.
Qed.

Lemma latlonfix_raises (r : report) (e : exn) :
  latlonfix r = Raise e -> e = OverflowError.
Proof.
  unfold latlonfix. intros H.
  destruct (strtofloat (getattr (lat r) (PyFloat 0))) as [a|e1] eqn:Ea;
    [|injection H as <-; eapply strtofloat_raises; eassumption].
  destruct (strtofloat (getattr (lon r) (PyFloat 0))) as [b|e1] eqn:Eb;
    [|injection H as <-; eapply strtofloat_raises; eassumption].
  cbn [bind] in H.
  destruct (strtofloat (getattr (mode r) (PyInt 0))) as [c|e1] eqn:Ec;
    [|injection H as <-; eapply strtofloat_raises; eassumption].
  cbn [bind] in H.
  destruct (Py.int_of_float c) eqn:Ei; [discriminate|].
  cbn [bind] in H. injection H as <-.
  apply int_of_float_raises in Ei.
  rewrite (strtofloat_not_nan _ _ Ec) in Ei. exact Ei.
Qed.

(** X1.  Whatever a report carries, [latlonfix] either returns, and
    then neither the latitude nor the longitude is NaN, or raises
    [OverflowError]; it never raises [ValueError]. *)
Theorem latlonfix_outcomes (r : report) :
  match latlonfix r with
  | Ok (la, lo, _) => is_nan la = false /\ is_nan lo = false
  | Raise e => e = OverflowError
  end.
Proof.
  destruct (latlonfix r) as [[[la lo] sf]|e] eqn:E.
  - eapply latlonfix_not_nan. exact E.
  - eapply latlonfix_raises. exact E.
Qed.

(** Finiteness, seen from the specification. *)
Lemma SFcompare_refl_finite (s : bool) (m : positive) (e : Z) :
  SFcompare (S754_finite s m e) (S754_finite s m e) = Some Eq.
Proof.
  cbn [SFcompare]. rewrite Z.compare_refl.
  rewrite Pos.compare_cont_refl. destruct s; reflexivity.
Qed.

Lemma is_finite_iff (x : float) :
  is_finite x = finite_SF (Prim2SF x).
Proof.
  unfold is_finite, is_nan, is_infinity.
  rewrite !FloatAxioms.eqb_spec, abs_spec.
  change (Prim2SF infinity) with (S754_infinity false).
  destruct (Prim2SF x) as [s|s| |s m e]; cbn [SFabs finite_SF]; unfold SFeqb.
  - reflexivity.
  - destruct s; reflexivity.
  - reflexivity.
  - rewrite !SFcompare_refl_finite. reflexivity.
Qed.

Lemma int_of_float_defined (x : float) :
  match Py.int_of_float x with
  | Ok _ => is_finite x = true
  | Raise e => is_finite x = false /\
               e = (if is_nan x then ValueError else OverflowError)
  end.
Proof.
  rewrite is_finite_iff. unfold Py.int_of_float, is_nan.
  rewrite FloatAxioms.eqb_spec.
  destruct (Prim2SF x) as [s|s| |s m e]; cbn [Py.SFtrunc finite_SF]; unfold SFeqb.
  - reflexivity.
  - split; [reflexivity|]. destruct s; reflexivity.
  - split; reflexivity.
  - reflexivity.
Qed.

Lemma is_finite_abs (x : float) : is_finite (abs x) = is_finite x.
Proof.
  rewrite !is_finite_iff, abs_spec. destruct (Prim2SF x); reflexivity.
Qed.

Lemma is_nan_abs (x : float) : is_nan (abs x) = is_nan x.
Proof.
  unfold is_nan. rewrite !FloatAxioms.eqb_spec, abs_spec.
  destruct (Prim2SF x) as [s|s| |s m e]; cbn [SFabs]; unfold SFeqb;
    rewrite ?SFcompare_refl_finite; try reflexivity.
  destruct s; reflexivity.
Qed.

Lemma dec2dms_raise (x : float) :
  is_finite x = false ->
  dec2dms x = Raise (if is_nan x then ValueError else OverflowError).
Proof.
  intros Hfin. unfold dec2dms.
  pose proof (int_of_float_defined (abs x)) as H.
  rewrite is_finite_abs, is_nan_abs, Hfin in H.
  destruct (Py.int_of_float (abs x)); [discriminate|].
  cbn [bind]. destruct H as [_ ->]. reflexivity.
Qed.

(** X2.  [dec2dms] returns a triple exactly on the finite floats; it
    raises [ValueError] on NaN and [OverflowError] on an infinity. *)
Theorem dec2dms_defined_iff_finite (x : float) :
  match dec2dms x with
  | Ok _ => is_finite x = true
  | Raise e => is_finite x = false /\
               e = (if is_nan x then ValueError else OverflowError)
  end.
Proof.
  destruct (is_finite x) eqn:Hfin.
  - destruct (dec2dms_runs x Hfin) as (d & mi & se & f & m & g & s & R).
    rewrite (dms_run_result _ _ _ _ _ _ _ _ R). reflexivity.
  - rewrite (dec2dms_raise x Hfin). split; reflexivity.
Qed.

Lemma int_mul_float_100 (x : float) : Py.int_mul_float 100 x = Ok (100 * x)%float.
Proof. reflexivity. Qed.

Lemma int_mul_float_1000 (x : float) : Py.int_mul_float 1000 x = Ok (1000 * x)%float.
Proof. reflexivity. Qed.

Lemma exif_dms_defined (x : float) :
  match exif_dms x with
  | Ok _ => is_finite x = true
  | Raise e => is_finite x = false /\
               e = (if is_nan x then ValueError else OverflowError)
  end.
Proof.
  unfold exif_dms. destruct (is_finite x) eqn:Hfin.
  - destruct (dec2dms_runs x Hfin) as (d & mi & se & f & m & g & s & R).
    rewrite (dms_run_result _ _ _ _ _ _ _ _ R). reflexivity.
  - rewrite (dec2dms_raise x Hfin). split; reflexivity.
Qed.

Section ExifProperties.

Context {L : Libraries}.

(** X3.  The Exif tags can be built exactly when latitude and
    longitude are finite and the altitude in centimetres and the speed
    in millimetres per second are finite products. *)
Theorem exif_tags_defined (lat lon : float) (lat_ref lon_ref : string)
    (alt_meters speed_mps : float) (sats : Z) (utc : datetime) :
  match gps_exif_tags lat lon lat_ref lon_ref alt_meters speed_mps sats utc with
  | Ok tags =>
      is_finite lat = true /\ is_finite lon = true /\
      is_finite (100 * alt_meters) = true /\ is_finite (1000 * speed_mps) = true /\
      map fst tags =
      ["GPS.GPSLatitude"; "GPS.GPSLatitudeRef"; "GPS.GPSLongitude";
       "GPS.GPSLongitudeRef"; "GPS.GPSAltitude"; "GPS.GPSAltitudeRef";
       "GPS.GPSSpeed"; "GPS.GPSSpeedRef"; "GPS.GPSSatellites";
       "GPS.GPSTimeStamp"; "GPS.GPSDateStamp"]%string
  | Raise _ =>
      is_finite lat = false \/ is_finite lon = false \/
      is_finite (100 * alt_meters) = false \/ is_finite (1000 * speed_mps) = false
  end.
Proof.
  unfold gps_exif_tags, exif_ratio.
  rewrite int_mul_float_100, int_mul_float_1000.
  pose proof (exif_dms_defined lat) as Hlat.
  pose proof (exif_dms_defined lon) as Hlon.
  pose proof (int_of_float_defined (100 * alt_meters)) as Halt.
  pose proof (int_of_float_defined (1000 * speed_mps)) as Hspeed.
  destruct (exif_dms lat); cbn [bind]; [|tauto].
  destruct (exif_dms lon); cbn [bind]; [|tauto].
  destruct (Py.int_of_float (100 * alt_meters)); cbn [bind]; [|tauto].
  destruct (Py.int_of_float (1000 * speed_mps)); cbn [bind]; [|tauto].
  repeat split; assumption.
Qed.

End ExifProperties.

(** The name of a photo tells its index. *)
Lemma to_int_not_nil (n : Z) :
  Z.to_int n <> Decimal.Pos Decimal.Nil /\ Z.to_int n <> Decimal.Neg Decimal.Nil.
Proof.
  split; intros H; pose proof (DecimalZ.of_to n) as E; rewrite H in E;
    cbn in E; subst n; discriminate.
Qed.

Lemma str_of_int_inj (n m : Z) : Py.str_of_int n = Py.str_of_int m -> n = m.
Proof.
  unfold Py.str_of_int. intros H.
  destruct (to_int_not_nil n) as [Hn1 Hn2], (to_int_not_nil m) as [Hm1 Hm2].
  pose proof (NilZero.isi (Z.to_int n) Hn1 Hn2) as En.
  pose proof (NilZero.isi (Z.to_int m) Hm1 Hm2) as Em.
  rewrite H in En. rewrite En in Em. injection Em as Em.
  rewrite <- (DecimalZ.of_to n), <- (DecimalZ.of_to m), Em. reflexivity.
Qed.

Lemma string_app_inv_head (a b c : string) : (a ++ b = a ++ c)%string -> b = c.
Proof.
  induction a as [|x a IH]; cbn; [auto|]. intros H. injection H as H. auto.
Qed.

Lemma string_length_app (a b : string) :
  String.length (a ++ b) = (String.length a + String.length b)%nat.
Proof. induction a as [|x a IH]; cbn; [reflexivity | rewrite IH; reflexivity]. Qed.

Lemma string_app_inv_tail (a b c : string) : (a ++ c = b ++ c)%string -> a = b.
Proof.
  revert b. induction a as [|x a IH]; intros [|y b] H; cbn in H.
  - reflexivity.
  - exfalso. apply (f_equal String.length) in H. cbn in H.
    rewrite string_length_app in H. lia.
  - exfalso. apply (f_equal String.length) in H. cbn in H.
    rewrite string_length_app in H. lia.
  - injection H as -> H. f_equal. apply IH. assumption.
Qed.

(** Two photo names of one run are equal only for equal indices. *)
Lemma photo_name_injective (subdir : string) (n m : Z) :
  photo_name subdir n = photo_name subdir m -> n = m.
Proof.
  unfold photo_name. intros H.
  apply string_app_inv_head in H. apply string_app_inv_head in H.
  apply string_app_inv_tail in H. apply str_of_int_inj. assumption.
Qed.


Lemma unusable_is_zero (field : option pyval) :
  unusable field ->
  exists z, strtofloat (getattr field (PyFloat 0)) = Ok z /\ Py.truthy z = false.
Proof.
  intros [->|(v & -> & Hv)]; exists 0%float; cbn [getattr].
  - split; reflexivity.
  - unfold strtofloat. rewrite Hv. split; reflexivity.
Qed.

(** X4.  A position report whose latitude or longitude is missing, is
    text that is not a number, or is NaN, is not accepted: the
    coordinate is taken as 0.0, and the loop goes on waiting for a
    fix. *)
Theorem unusable_coordinate_is_rejected (r : report) (st st' : acq) (t t' : list event) :
  loop_body r st t = (Ok st', t') ->
  noCoords st = true ->
  unusable (lat r) \/ unusable (lon r) ->
  noCoords st' = true /\ saveReport st' = saveReport st.
Proof.
  intros H Hn Hz. unfold loop_body in H.
  destruct (String.eqb (class r) "SKY" && noSats st).
  { injection H as <- _. auto. }
  destruct (String.eqb (class r) "TPV" && noCoords st); [|injection H as <- _; auto].
  unfold bindP, lift in H.
  destruct (latlonfix r) as [[[la lo] sf]|e] eqn:El; [|discriminate].
  assert (Hrej : Py.truthy lo && Py.truthy la = false).
  { unfold latlonfix in El.
    destruct (strtofloat (getattr (lat r) (PyFloat 0))) as [a|e] eqn:Ea; [|discriminate].
    destruct (strtofloat (getattr (lon r) (PyFloat 0))) as [b|e] eqn:Eb; [|discriminate].
    cbn [bind] in El.
    destruct (strtofloat (getattr (mode r) (PyInt 0))) as [c|e]; [|discriminate].
    cbn [bind] in El. destruct (Py.int_of_float c); [|discriminate].
    cbn [bind] in El. injection El as <- <- _.
    destruct Hz as [Hz|Hz]; apply unusable_is_zero in Hz; destruct Hz as (z & Hz & Hf).
    - rewrite Ea in Hz. injection Hz as <-. rewrite Hf. apply andb_false_r.
    - rewrite Eb in Hz. injection Hz as <-. rewrite Hf. reflexivity. }
  rewrite Hrej in H.
  destruct (sf =? 0)%Z; unfold bindP, emit, ret in H; injection H as <- _; auto.
Qed.

Lemma unusable_coordinate_is_rejected_witness :
  noCoords {| a_lat := 0; a_lon := 1; a_satfix := 1; a_sats := 0; noSats := true;
              noCoords := true; saveReport := None |} = true /\
  saveReport {| a_lat := 0; a_lon := 1; a_satfix := 1; a_sats := 0; noSats := true;
                noCoords := true; saveReport := None |} = saveReport acq_init.
Proof.
  apply (unusable_coordinate_is_rejected (Demo.tpv (PyStr "nan") (PyFloat 1) 1)
           acq_init
           {| a_lat := 0; a_lon := 1; a_satfix := 1; a_sats := 0; noSats := true;
              noCoords := true; saveReport := None |} [] []).
  - vm_compute. reflexivity.
  - reflexivity.
  - left. right. exists (PyStr "nan"). split; vm_compute; reflexivity.
Defined.

(** ** What a call and a run do to the files and the photos *)

Lemma appends_app (a b : list event) : appends (a ++ b) = (appends a ++ appends b)%list.
Proof.
  induction a as [|ev a IH]; [reflexivity|].
  destruct ev; cbn [app appends]; rewrite ?IH; reflexivity.
Qed.

Lemma captures_app (a b : list event) : captures (a ++ b) = (captures a ++ captures b)%list.
Proof.
  induction a as [|ev a IH]; [reflexivity|].
  destruct ev; cbn [app captures]; rewrite ?IH; reflexivity.
Qed.

Lemma writes_app (a b : list event) : writes (a ++ b) = (writes a ++ writes b)%list.
Proof.
  induction a as [|ev a IH]; [reflexivity|].
  destruct ev; cbn [app writes]; rewrite ?IH; reflexivity.
Qed.

Lemma sleeps_are_quiet (x : float) (k : nat) :
  appends (repeat (Sleep x) k) = [] /\ captures (repeat (Sleep x) k) = [] /\
  writes (repeat (Sleep x) k) = [].
Proof. induction k; cbn; auto. Qed.

Lemma loop_body_trace (r : report) (st : acq) (t : list event) :
  exists out k, loop_body r st t = (out, t ++ repeat (Sleep 0.5) k)%list /\ (k <= 1)%nat.
Proof.
  unfold loop_body.
  destruct (String.eqb (class r) "SKY" && noSats st).
  { eexists. exists 0%nat. rewrite app_nil_r. split; [reflexivity | lia]. }
  destruct (String.eqb (class r) "TPV" && noCoords st).
  2:{ eexists. exists 0%nat. rewrite app_nil_r. split; [reflexivity | lia]. }
  unfold bindP, lift. destruct (latlonfix r) as [[[la lo] sf]|e].
  2:{ eexists. exists 0%nat. rewrite app_nil_r. split; [reflexivity | lia]. }
  destruct (Py.truthy lo && Py.truthy la).
  { eexists. exists 0%nat. rewrite app_nil_r. split; [reflexivity | lia]. }
  destruct (sf =? 0)%Z.
  - eexists. exists 1%nat. split; [reflexivity | lia].
  - eexists. exists 0%nat. rewrite app_nil_r. split; [reflexivity | lia].
Qed.

Lemma acquire_trace (reports : list report) :
  forall st t, exists out k,
    acquire reports st t = (out, t ++ repeat (Sleep 0.5) k)%list /\
    (k <= length reports)%nat.
Proof.
  induction reports as [|r rest IH]; intros st t; cbn [acquire].
  - destruct (noSats st || noCoords st); eexists; exists 0%nat;
      rewrite app_nil_r; (split; [reflexivity | cbn; lia]).
  - destruct (noSats st || noCoords st).
    2:{ eexists. exists 0%nat. rewrite app_nil_r. split; [reflexivity | cbn; lia]. }
    unfold bindP.
    destruct (loop_body_trace r st t) as (out1 & k1 & -> & Hk1).
    destruct out1 as [st1|e].
    + destruct (IH st1 (t ++ repeat (Sleep 0.5) k1)%list) as (out & k & -> & Hk).
      exists out, (k1 + k)%nat. rewrite repeat_app, app_assoc.
      split; [reflexivity | cbn; lia].
    + exists (Raise e), k1. split; [reflexivity | cbn; lia].
Qed.

Section EffectLemmas.

Context {L : Libraries}.

(** A call fails before the distance test, having done nothing but
    sleep, or gets as far as the test. *)
Lemma logGPSdata_cases fullpath subdir csvfilename n0 prev dtraveled debug c t :
  exists k,
    (exists e, logGPSdata fullpath subdir csvfilename n0 prev dtraveled debug c t =
               (Raise e, t ++ repeat (Sleep 0.5) k)%list) \/
    (exists st r utc v h temp,
       at_gate c t st (t ++ repeat (Sleep 0.5) k)%list r utc v h temp).
Proof.
  destruct (acquire_trace (gps_reports c) acq_init t) as (out & k & Ha & _).
  exists k. unfold logGPSdata.
  unfold bindP at 1. rewrite Ha.
  destruct out as [st|e]; [|left; eauto].
  unfold bindP at 1. unfold lift at 1.
  destruct (saveReport st) as [r|] eqn:Hr; [|left; eauto].
  unfold bindP at 1. unfold lift at 1.
  destruct (strptime_utc _) as [utc|e] eqn:Ht; [|left; eauto].
  unfold bindP at 1. unfold lift at 1.
  destruct (strtofloat (getattr (speed r) _)) as [v|e] eqn:Hs; [|left; eauto].
  unfold bindP at 1. unfold lift at 1.
  destruct (strtofloat (getattr (alt r) _)) as [h|e] eqn:Hal; [|left; eauto].
  unfold bindP at 1. unfold lift at 1.
  destruct (read_temp c) as [temp|e] eqn:Htemp; [|left; eauto].
  right. exists st, r, utc, v, h, temp. constructor; assumption.
Qed.

Lemma data_row_names_photo st utc v h temp subdir n :
  names_photo (data_row st utc v h temp subdir n) (photo_name subdir n).
Proof.
  unfold names_photo, data_row, csv_row.
  match goal with
  | |- exists _, join_commas [?a; ?b; ?c0; ?d; ?e0; ?f; ?g; ?h; ?p] = _ =>
      exists (join_commas [a; b; c0; d; e0; f; g; h]);
      exact (join_commas_snoc [a; b; c0; d; e0; f; g; h] p ltac:(discriminate))
  end.
Qed.

(** The three ways the camera step can end. *)
Lemma take_photo_shape (c : cycle) (path : string)
    (tags : result (list (string * string))) (t : list event) :
  exists out cam,
    take_photo c path tags t = (out, t ++ cam)%list /\
    ((exists e, out = Raise e /\ (cam = [] \/ cam = [Sleep 2])) \/
     (exists x, out = Ok tt /\ cam = [Sleep 2; Capture path x])).
Proof.
  unfold take_photo, bindP, lift, emit.
  destruct (camera_open c) as [[]|e].
  - destruct tags as [x|e].
    + destruct (camera_capture c) as [[]|e].
      * exists (Ok tt), [Sleep 2; Capture path x]. rewrite <- app_assoc.
        split; [reflexivity|]. right. eauto.
      * exists (Raise e), [Sleep 2]. split; [reflexivity|]. left. eauto.
    + exists (Raise e), [Sleep 2]. split; [reflexivity|]. left. eauto.
  - exists (Raise e), []. rewrite app_nil_r. split; [reflexivity|]. left. eauto.
Qed.

Lemma data_prints_quiet debug st utc v h temp subdir n :
  appends (data_prints debug st utc v h temp subdir n) = [] /\
  captures (data_prints debug st utc v h temp subdir n) = [] /\
  writes (data_prints debug st utc v h temp subdir n) = [].
Proof. unfold data_prints, debug_prints. destruct debug; cbn; auto. Qed.

(** One call of [logGPSdata], by the events it adds. *)
Lemma logGPSdata_summary fullpath subdir csvfilename n0 prev dtraveled debug c t :
  exists out added,
    logGPSdata fullpath subdir csvfilename n0 prev dtraveled debug c t =
    (out, t ++ added)%list /\
    writes added = [] /\
    ((appends added = [] /\ captures added = [] /\
      (forall l n, out = Ok (l, n) -> n = n0)) \/
     (exists row,
        appends added = [(fullpath ++ "/" ++ csvfilename, row)] /\
        names_photo row (photo_name subdir (n0 + 1)) /\
        ((captures added = [photo_path fullpath subdir (n0 + 1)] /\
          exists l, out = Ok (l, n0 + 1)) \/
         (captures added = [] /\ exists e, out = Raise e)))).
Proof.
  destruct (logGPSdata_cases fullpath subdir csvfilename n0 prev dtraveled debug c t)
    as (k & [(e & E)|(st & r & utc & v & h & temp & Hg)]);
    destruct (sleeps_are_quiet 0.5 k) as (Ha & Hc & Hw).
  - exists (Raise e), (repeat (Sleep 0.5) k). split; [exact E|].
    split; [exact Hw|]. left. repeat split; try assumption. discriminate.
  - rewrite (logGPSdata_at_gate _ _ _ _ _ _ _ _ _ _ _ _ _ _ _ _ Hg).
    destruct (gate prev st dtraveled).
    + set (path := fullpath ++ "/" ++ csvfilename).
      pose proof (data_row_names_photo st utc v h temp subdir (n0 + 1)) as Hrow.
      set (row := data_row st utc v h temp subdir (n0 + 1)) in *.
      set (prints := data_prints debug st utc v h temp subdir (n0 + 1)).
      destruct (data_prints_quiet debug st utc v h temp subdir (n0 + 1)) as (Pa & Pc & Pw).
      fold prints in Pa, Pc, Pw.
      destruct (take_photo_shape c (fullpath ++ "/" ++ photo_name subdir (n0 + 1))
                  (data_tags st utc v h)
                  ((t ++ repeat (Sleep 0.5) k) ++ prints ++ [FileAppend path row])%list)
        as (out & cam & -> & Hout).
      exists (match out with
              | Ok _ => Ok ((a_lat st, a_lon st), n0 + 1)
              | Raise e => Raise e
              end),
             (repeat (Sleep 0.5) k ++ prints ++ [FileAppend path row] ++ cam)%list.
      split; [destruct out; rewrite <- !app_assoc; reflexivity|].
      rewrite !writes_app, !appends_app, !captures_app, Ha, Hc, Hw, Pa, Pc, Pw.
      destruct Hout as [(e & -> & [->| ->])|(x & -> & ->)];
        cbn [writes appends captures app];
        (split; [reflexivity|]); right; exists row; (split; [reflexivity|]);
        (split; [exact Hrow|]).
      * right. eauto.
      * right. eauto.
      * left. eauto.
    + exists (Ok ((a_lat st, a_lon st), n0)), (repeat (Sleep 0.5) k).
      split; [reflexivity|]. split; [exact Hw|]. left.
      repeat split; try assumption. intros l n H. injection H as _ <-. reflexivity.
Qed.

(** One turn of the worker loop, by the events it adds. *)
Lemma main_turn_summary fullpath subdir csvfilename dtraveled debug s c t :
  exists s' added,
    main_turn fullpath subdir csvfilename dtraveled debug s c t = (Ok s', t ++ added)%list /\
    writes added = [] /\
    ((appends added = [] /\ captures added = [] /\ ndx s' = ndx s) \/
     (exists row,
        appends added = [(fullpath ++ "/" ++ csvfilename, row)] /\
        names_photo row (photo_name subdir (ndx s + 1)) /\
        ((captures added = [photo_path fullpath subdir (ndx s + 1)] /\
          ndx s' = ndx s + 1) \/
         (captures added = [] /\ s' = s)))).
Proof.
  unfold main_turn.
  destruct (logGPSdata_summary fullpath subdir csvfilename (ndx s) (prev_loc s)
              dtraveled debug c t) as (out & added & -> & Hw & H).
  destruct out as [[l n]|e].
  - exists {| prev_loc := l; ndx := n |}, added. split; [reflexivity|].
    split; [exact Hw|]. cbn [ndx].
    destruct H as [(Ha & Hc & Hn)|(row & Ha & Hrow & [(Hc & l' & Ho)|(Hc & e & Ho)])].
    + left. rewrite (Hn l n eq_refl). auto.
    + right. exists row. injection Ho as _ ->. auto.
    + discriminate.
  - eexists s, (added ++ _)%list. rewrite app_assoc. split; [reflexivity|].
    rewrite writes_app, appends_app, captures_app. cbn [writes appends captures].
    rewrite !app_nil_r. split; [exact Hw|].
    destruct H as [(Ha & Hc & Hn)|(row & Ha & Hrow & [(Hc & l' & Ho)|(Hc & e' & Ho)])].
    + left. auto.
    + discriminate.
    + right. exists row. auto.
Qed.

Lemma map_seq_from (m : nat) :
  forall (f : nat -> Z) (n : nat),
    map f (seq n m) = map (fun i => f (n + i)%nat) (seq 0 m).
Proof.
  induction m as [|m IH]; intros f n; [reflexivity|].
  cbn [seq map]. rewrite Nat.add_0_r. f_equal.
  rewrite (IH f (S n)), (IH (fun i => f (n + i)%nat) 1%nat). apply map_ext. intros i.
  f_equal. lia.
Qed.

Lemma next_indices_app (a : Z) (n m : nat) :
  next_indices a (n + m) = (next_indices a n ++ next_indices (a + Z.of_nat n) m)%list.
Proof.
  unfold next_indices. rewrite seq_app, map_app. f_equal.
  rewrite map_seq_from. apply map_ext. intros i. lia.
Qed.

Lemma next_indices_one (a : Z) : next_indices a 1 = [a + 1].
Proof. unfold next_indices. cbn. f_equal. lia. Qed.

(** The turns of the worker loop, by the events they add: the rows,
    all appended to the CSV file, each naming a photo of the run, and
    the photos, numbered without a gap. *)
Lemma main_loop_summary fullpath subdir csvfilename dtraveled debug cycles :
  forall s t, exists s' added n rows,
    main_loop fullpath subdir csvfilename dtraveled debug cycles s t =
    (Ok s', t ++ added)%list /\
    writes added = [] /\
    appends added = map (pair (fullpath ++ "/" ++ csvfilename)) rows /\
    Forall (fun row => exists k, ndx s < k <= ndx s' + 1 /\
                                 names_photo row (photo_name subdir k)) rows /\
    captures added = map (photo_path fullpath subdir) (next_indices (ndx s) n) /\
    ndx s' = ndx s + Z.of_nat n /\
    (n <= length rows <= length cycles)%nat.
Proof.
  induction cycles as [|c rest IH]; intros s t; cbn [main_loop].
  - exists s, [], 0%nat, []. rewrite app_nil_r. cbn. repeat split; auto; lia.
  - unfold bindP.
    destruct (main_turn_summary fullpath subdir csvfilename dtraveled debug s c t)
      as (s1 & added1 & -> & Hw1 & H1).
    destruct (IH s1 (t ++ added1)%list)
      as (s' & added2 & n2 & rows2 & -> & Hw2 & Ha2 & Hr2 & Hc2 & Hn2 & Hl2).
    assert (Hrows2 : ndx s <= ndx s1 ->
              Forall (fun row => exists k, ndx s < k <= ndx s' + 1 /\
                                           names_photo row (photo_name subdir k)) rows2).
    { intros Hle. eapply Forall_impl; [|exact Hr2].
      intros row (k & Hk & Hrow). exists k. split; [lia | exact Hrow]. }
    destruct H1 as [(Ha1 & Hc1 & Hs1)|(row & Ha1 & Hrow & [(Hc1 & Hs1)|(Hc1 & ->)])].
    + exists s', (added1 ++ added2)%list, n2, rows2.
      rewrite <- app_assoc, writes_app, appends_app, captures_app.
      rewrite Hw1, Hw2, Ha1, Hc1, Ha2, Hc2, <- Hs1. cbn [app length].
      split; [reflexivity|]. split; [reflexivity|]. split; [reflexivity|].
      split; [rewrite Hs1; apply Hrows2; lia|].
      split; [reflexivity|]. split; [exact Hn2 | lia].
    + exists s', (added1 ++ added2)%list, (1 + n2)%nat, (row :: rows2).
      rewrite <- app_assoc, writes_app, appends_app, captures_app.
      rewrite Hw1, Hw2, Ha1, Hc1, Ha2, Hc2, next_indices_app, map_app, Hs1.
      rewrite next_indices_one. change (Z.of_nat 1) with 1.
      cbn [app length map].
      split; [reflexivity|]. split; [reflexivity|]. split; [reflexivity|].
      split.
      { constructor; [|apply Hrows2; lia].
        exists (ndx s + 1). split; [lia | exact Hrow]. }
      split; [reflexivity|]. split; [|cbn [length]; lia].
      rewrite Hn2, Hs1. lia.
    + exists s', (added1 ++ added2)%list, n2, (row :: rows2).
      rewrite <- app_assoc, writes_app, appends_app, captures_app.
      rewrite Hw1, Hw2, Ha1, Hc1, Ha2, Hc2.
      cbn [app length map].
      split; [reflexivity|]. split; [reflexivity|]. split; [reflexivity|].
      split.
      { constructor; [|apply Hrows2; lia].
        exists (ndx s + 1). split; [lia | exact Hrow]. }
      split; [reflexivity|]. split; [exact Hn2 | lia].
Qed.

End EffectLemmas.

Lemma file_content_from_appends (path : string) (added : list event) :
  writes added = [] ->
  forall acc, file_content_from path added acc =
              (acc ++ texts_for path (appends added))%string.
Proof.
  induction added as [|ev added IH]; intros Hw acc.
  - cbn. induction acc as [|a acc IHa]; cbn; [reflexivity | f_equal; exact IHa].
  - destruct ev; cbn [writes] in Hw; try discriminate;
      cbn [file_content_from appends texts_for]; try (apply IH; exact Hw).
    rewrite (IH Hw). destruct (String.eqb path0 path).
    + apply string_app_assoc.
    + reflexivity.
Qed.

Lemma texts_for_other (path p : string) (rows : list string) :
  p <> path -> texts_for p (map (pair path) rows) = "".
Proof.
  intros Hp. induction rows as [|x rows IH]; [reflexivity|].
  cbn [map texts_for]. destruct (String.eqb_spec path p) as [E|_]; [congruence|].
  exact IH.
Qed.

Lemma texts_for_same (path : string) (rows : list string) :
  texts_for path (map (pair path) rows) = String.concat "" rows.
Proof.
  induction rows as [|x rows IH]; [reflexivity|].
  cbn [map texts_for]. rewrite String.eqb_refl, IH.
  destruct rows as [|y rows]; cbn [String.concat].
  - cbn. induction x as [|a x IHx]; cbn; [reflexivity | f_equal; exact IHx].
  - reflexivity.
Qed.

Lemma string_app_nil_r (a : string) : (a ++ "")%string = a.
Proof. induction a as [|x a IH]; cbn; [reflexivity | f_equal; exact IH]. Qed.

Lemma photo_path_injective (fullpath subdir : string) (n m : Z) :
  photo_path fullpath subdir n = photo_path fullpath subdir m -> n = m.
Proof.
  unfold photo_path. intros H.
  apply string_app_inv_head in H. apply string_app_inv_head in H.
  apply photo_name_injective in H. exact H.
Qed.

Lemma NoDup_map_injective {A B : Type} (f : A -> B) (l : list A) :
  (forall x y, f x = f y -> x = y) -> NoDup l -> NoDup (map f l).
Proof.
  intros Hf Hl. induction Hl as [|x l Hx Hl IH]; cbn [map]; constructor.
  - intros Hin. apply in_map_iff in Hin. destruct Hin as (y & Hy & Hin).
    apply Hf in Hy. subst y. contradiction.
  - exact IH.
Qed.

Lemma next_indices_NoDup (a : Z) (n : nat) : NoDup (next_indices a n).
Proof.
  unfold next_indices. apply NoDup_map_injective; [|apply seq_NoDup].
  intros i j H. lia.
Qed.

Section RunProperties.

Context {L : Libraries}.

(** X5.  What one call of [logGPSdata] does to the files and the
    photos, whatever its outcome.  It leaves every file but the CSV
    file of the run as it was.  Either it adds nothing to the CSV
    file and takes no photo, and then, if it returns, it returns the
    index it was given; or it adds one row to the end of the CSV file,
    whose last field names the photo of the next index, and then
    either it takes that photo and returns the next index, or it takes
    no photo and raises. *)
Theorem logGPSdata_effects fullpath subdir csvfilename n0 prev dtraveled debug c t :
  let csv := (fullpath ++ "/" ++ csvfilename)%string in
  exists out t',
    logGPSdata fullpath subdir csvfilename n0 prev dtraveled debug c t = (out, t') /\
    (forall p, p <> csv -> file_content p t' = file_content p t) /\
    ((file_content csv t' = file_content csv t /\ captures t' = captures t /\
      (forall l n, out = Ok (l, n) -> n = n0)) \/
     (exists row,
        names_photo row (photo_name subdir (n0 + 1)) /\
        file_content csv t' = (file_content csv t ++ row)%string /\
        ((captures t' = (captures t ++ [photo_path fullpath subdir (n0 + 1)])%list /\
          exists l, out = Ok (l, n0 + 1)) \/
         (captures t' = captures t /\ exists e, out = Raise e)))).
Proof.
  intros csv.
  destruct (logGPSdata_summary fullpath subdir csvfilename n0 prev dtraveled debug c t)
    as (out & added & E & Hw & H).
  exists out, (t ++ added)%list. split; [exact E|].
  assert (Hfile : forall p, file_content p (t ++ added) =
                            (file_content p t ++ texts_for p (appends added))%string).
  { intros p. rewrite file_content_app. apply file_content_from_appends. exact Hw. }
  fold csv in H.
  destruct H as [(Ha & Hc & Hn)|(row & Ha & Hrow & Hcam)].
  - split.
    + intros p _. rewrite Hfile, Ha. apply string_app_nil_r.
    + left. rewrite Hfile, Ha, captures_app, Hc, app_nil_r.
      split; [apply string_app_nil_r|]. split; [reflexivity | exact Hn].
  - split.
    + intros p Hp. rewrite Hfile, Ha. cbn [texts_for].
      destruct (String.eqb_spec csv p) as [Heq|_]; [congruence|].
      apply string_app_nil_r.
    + right. exists row. split; [exact Hrow|]. split.
      * rewrite Hfile, Ha. cbn [texts_for]. rewrite String.eqb_refl, string_app_nil_r.
        reflexivity.
      * rewrite captures_app.
        destruct Hcam as [(Hc & Ho)|(Hc & Ho)]; rewrite Hc; [left | right];
          rewrite ?app_nil_r; auto.
Qed.

(** X6.  The photos of a run.  The turns of the worker loop never
    raise; the photos they take are those of the indices that follow
    the starting index, one for each step of the index and in that
    order, so no index is skipped; and no two of them have the same
    path, so no photo of the run is overwritten. *)
Theorem photos_of_a_run fullpath subdir csvfilename dtraveled debug cycles s t :
  exists s' t' n,
    main_loop fullpath subdir csvfilename dtraveled debug cycles s t = (Ok s', t') /\
    captures t' =
    (captures t ++ map (photo_path fullpath subdir) (next_indices (ndx s) n))%list /\
    ndx s' = ndx s + Z.of_nat n /\
    (n <= length cycles)%nat /\
    NoDup (map (photo_path fullpath subdir) (next_indices (ndx s) n)).
Proof.
  destruct (main_loop_summary fullpath subdir csvfilename dtraveled debug cycles s t)
    as (s' & added & n & rows & E & _ & _ & _ & Hc & Hn & Hl).
  exists s', (t ++ added)%list, n. split; [exact E|].
  rewrite captures_app, Hc. split; [reflexivity|]. split; [exact Hn|].
  split; [lia|].
  apply NoDup_map_injective; [|apply next_indices_NoDup].
  intros i j. apply photo_path_injective.
Qed.

(** X7.  The CSV file of a run.  [main] writes the header once, and
    the turns of the worker loop only add to the file: at the end it
    holds the header followed by the rows, at most one for each turn
    and at least one for each photo, each row naming a photo with an
    index from 1 to one more than the last index reached.  No other
    file is written. *)
Theorem csv_file_of_a_run fullpath subdir csvfilename dtraveled debug cycles :
  let csv := (fullpath ++ "/" ++ csvfilename)%string in
  exists s' t' rows,
    (main_setup fullpath csvfilename debug ;;;
     main_loop fullpath subdir csvfilename dtraveled debug cycles session_init) [] =
    (Ok s', t') /\
    file_content csv t' = (csv_header ++ String.concat "" rows)%string /\
    (forall p, p <> csv -> file_content p t' = "") /\
    Forall (fun row => exists k, 1 <= k <= ndx s' + 1 /\
                                 names_photo row (photo_name subdir k)) rows /\
    ndx s' <= Z.of_nat (length rows) /\
    (length rows <= length cycles)%nat.
Proof.
  intros csv.
  assert (Hsetup : exists t0,
            main_setup fullpath csvfilename debug [] = (Ok tt, t0) /\
            file_content csv t0 = csv_header /\
            (forall p, p <> csv -> file_content p t0 = "")).
  { unfold main_setup, bindP, emit, ret. fold csv.
    destruct debug; eexists; (split; [reflexivity|]);
      unfold file_content; cbn [app file_content_from]; rewrite String.eqb_refl;
      (split; [reflexivity|]); intros p Hp;
      destruct (String.eqb_spec csv p) as [Heq|_]; congruence. }
  destruct Hsetup as (t0 & E0 & Hcsv0 & Hother0).
  destruct (main_loop_summary fullpath subdir csvfilename dtraveled debug cycles
              session_init t0)
    as (s' & added & n & rows & E & Hw & Ha & Hr & _ & Hn & Hl).
  fold csv in Ha.
  exists s', (t0 ++ added)%list, rows.
  split; [unfold bindP; rewrite E0; exact E|].
  assert (Hfile : forall p, file_content p (t0 ++ added) =
                            (file_content p t0 ++ texts_for p (appends added))%string).
  { intros p. rewrite file_content_app. apply file_content_from_appends. exact Hw. }
  split; [rewrite Hfile, Hcsv0, Ha, texts_for_same; reflexivity|].
  split; [intros p Hp; rewrite Hfile, (Hother0 p Hp), Ha, (texts_for_other csv p rows Hp);
          reflexivity|].
  cbn [ndx session_init] in Hr, Hn.
  split; [|lia].
  eapply Forall_impl; [|exact Hr].
  intros row (k & Hk & Hrow). exists k. split; [lia | exact Hrow].
Qed.

(** X8.  A turn that leaves a row without a photo (the call raised
    after the row was written) leaves position and index as they were,
    so the row of the next data point names the same photo: two rows
    of the CSV file then stand for one photo name. *)
Theorem failed_capture_reuses_index fullpath subdir csvfilename dtraveled debug
    s c1 c2 t s1 t1 s2 t2 row1 row2 :
  main_turn fullpath subdir csvfilename dtraveled debug s c1 t = (Ok s1, t1) ->
  appends t1 = (appends t ++ [((fullpath ++ "/" ++ csvfilename)%string, row1)])%list ->
  captures t1 = captures t ->
  main_turn fullpath subdir csvfilename dtraveled debug s1 c2 t1 = (Ok s2, t2) ->
  appends t2 = (appends t1 ++ [((fullpath ++ "/" ++ csvfilename)%string, row2)])%list ->
  s1 = s /\
  names_photo row1 (photo_name subdir (ndx s + 1)) /\
  names_photo row2 (photo_name subdir (ndx s + 1)).
Proof.
  intros E1 Ha1 Hc1 E2 Ha2.
  destruct (main_turn_summary fullpath subdir csvfilename dtraveled debug s c1 t)
    as (s1' & added1 & E1' & _ & H1).
  rewrite E1 in E1'. injection E1' as <- ->.
  rewrite appends_app in Ha1. apply app_inv_head in Ha1.
  rewrite captures_app in Hc1.
  rewrite <- (app_nil_r (captures t)) in Hc1 at 2. apply app_inv_head in Hc1.
  destruct H1 as [(Ha & _)|(row & Ha & Hrow & [(Hc & _)|(_ & ->)])];
    rewrite Ha in Ha1; try discriminate.
  { rewrite Hc in Hc1. discriminate. }
  injection Ha1 as ->.
  split; [reflexivity|]. split; [exact Hrow|].
  destruct (main_turn_summary fullpath subdir csvfilename dtraveled debug s c2
              (t ++ added1)%list) as (s2' & added2 & E2' & _ & H2).
  rewrite E2 in E2'. injection E2' as <- ->.
  rewrite appends_app in Ha2. apply app_inv_head in Ha2.
  destruct H2 as [(Hb & _)|(row' & Hb & Hrow' & _)];
    rewrite Hb in Ha2; try discriminate.
  injection Ha2 as ->. exact Hrow'.
Qed.

End RunProperties.

Lemma failed_capture_reuses_index_witness :
  session_init = session_init /\
  names_photo "Dec 31 2019,06:00:00PM CST,40.03125,-74.0,22.4,328.1,68.0,7,run-1.jpg"
    (photo_name "run" (ndx session_init + 1)) /\
  names_photo "Dec 31 2019,06:00:00PM CST,41.0,-74.0,22.4,328.1,68.0,7,run-1.jpg"
    (photo_name "run" (ndx session_init + 1)).
Proof.
  apply (failed_capture_reuses_index (L := Demo.libraries)
           "/data/run" "run" "gpsdata.run.csv" 100 false
           session_init (Demo.cycle_camera_fails Demo.point_d) (Demo.cycle_at Demo.point_e)
           [] session_init
           (snd (main_turn (L := Demo.libraries) "/data/run" "run" "gpsdata.run.csv" 100
                   false session_init (Demo.cycle_camera_fails Demo.point_d) []))
           {| prev_loc := Demo.point_e; ndx := 1 |}
           (snd (main_loop (L := Demo.libraries) "/data/run" "run" "gpsdata.run.csv" 100
                   false [Demo.cycle_camera_fails Demo.point_d; Demo.cycle_at Demo.point_e]
                   session_init []))).
  - vm_compute. reflexivity.
  - vm_compute. reflexivity.
  - vm_compute. reflexivity.
  - vm_compute. reflexivity.
  - vm_compute. reflexivity.
Defined.

(** ** The photo index *)

Section IndexProperties.

Context {L : Libraries}.

(** C9.  The photo index.  A logging event that passes the distance
    test and completes (the camera opens, the Exif tags are built,
    the capture succeeds) returns the index it was given plus one,
    having taken the photo of that index; a cycle that does not pass
    the test returns the index it was given, with nothing written.  A
    call that returns gives back the index plus one exactly when the
    test passed.  [main] starts at 0; over any run of its turns the
    index grows by exactly the number of photos taken, one for each
    logging event that completed, and so never decreases, whether the
    calls returned or raised. *)
Theorem photo_index_steps :
  (forall fullpath subdir csvfilename n0 prev dtraveled debug
          c t st t1 r utc speed_mps alt_meters temp tags,
     at_gate c t st t1 r utc speed_mps alt_meters temp ->
     gate prev st dtraveled = true ->
     camera_open c = Ok tt ->
     data_tags st utc speed_mps alt_meters = Ok tags ->
     camera_capture c = Ok tt ->
     exists t',
       logGPSdata fullpath subdir csvfilename n0 prev dtraveled debug c t =
       (Ok ((a_lat st, a_lon st), n0 + 1), t') /\
       captures t' = (captures t ++ [photo_path fullpath subdir (n0 + 1)])%list) /\
  (forall fullpath subdir csvfilename n0 prev dtraveled debug
          c t st t1 r utc speed_mps alt_meters temp,
     at_gate c t st t1 r utc speed_mps alt_meters temp ->
     gate prev st dtraveled = false ->
     logGPSdata fullpath subdir csvfilename n0 prev dtraveled debug c t =
     (Ok ((a_lat st, a_lon st), n0), t1)) /\
  (forall fullpath subdir csvfilename n0 prev dtraveled debug c t l n t',
     logGPSdata fullpath subdir csvfilename n0 prev dtraveled debug c t = (Ok (l, n), t') ->
     exists st t1,
       acquire (gps_reports c) acq_init t = (Ok st, t1) /\
       n = (if gate prev st dtraveled then n0 + 1 else n0) /\
       (gate prev st dtraveled = false -> t' = t1)) /\
  (forall fullpath subdir csvfilename dtraveled debug s c t,
     exists s' t',
       main_turn fullpath subdir csvfilename dtraveled debug s c t = (Ok s', t') /\
       (ndx s' = ndx s \/ ndx s' = ndx s + 1)) /\
  (forall fullpath subdir csvfilename dtraveled debug cycles s t,
     exists s' added,
       main_loop fullpath subdir csvfilename dtraveled debug cycles s t =
       (Ok s', (t ++ added)%list) /\
       ndx s' = ndx s + Z.of_nat (length (captures added)) /\
       ndx s <= ndx s' <= ndx s + Z.of_nat (length cycles)) /\
  ndx session_init = 0.
Proof.
  destruct photo_index_bounds as (Hcall & Hturn & _ & Hinit).
  split; [|split; [|split; [exact Hcall|split; [exact Hturn|split; [|exact Hinit]]]]].
  - intros fullpath subdir csvfilename n0 prev dtraveled debug
           c t st t1 r utc v h temp tags Hg Hgate Ho Hx Hc.
    rewrite (logGPSdata_at_gate _ _ _ _ _ _ _ _ _ _ _ _ _ _ _ _ Hg), Hgate.
    unfold take_photo, bindP, lift, emit. rewrite Ho, Hx, Hc.
    eexists. split; [reflexivity|].
    destruct (acquire_trace (gps_reports c) acq_init t) as (out & k & Ha & _).
    rewrite (gate_acquired _ _ _ _ _ _ _ _ _ Hg) in Ha. injection Ha as _ ->.
    destruct (sleeps_are_quiet 0.5 k) as (_ & Hk & _).
    destruct (data_prints_quiet debug st utc v h temp subdir (n0 + 1)) as (_ & Hp & _).
    rewrite !captures_app, Hk, Hp. cbn [captures app]. rewrite !app_nil_r.
    reflexivity.
  - intros fullpath subdir csvfilename n0 prev dtraveled debug
           c t st t1 r utc v h temp Hg Hgate.
    rewrite (logGPSdata_at_gate _ _ _ _ _ _ _ _ _ _ _ _ _ _ _ _ Hg), Hgate. reflexivity.
  - intros fullpath subdir csvfilename dtraveled debug cycles s t.
    destruct (main_loop_summary fullpath subdir csvfilename dtraveled debug cycles s t)
      as (s' & added & n & rows & E & _ & _ & _ & Hc & Hn & Hl).
    exists s', added. split; [exact E|].
    assert (Hlen : length (captures added) = n).
    { rewrite Hc. unfold next_indices. rewrite !length_map, length_seq. reflexivity. }
    rewrite Hlen. split; [exact Hn | lia].
Qed.

End IndexProperties.

Lemma photo_index_steps_witness :
  exists t',
    logGPSdata (L := Demo.libraries) "/data/run" "run" "gpsdata.run.csv" 0
      Demo.point_a 100 false (Demo.cycle_at Demo.point_d) [] =
    (Ok ((a_lat (Demo.fix_at Demo.point_d), a_lon (Demo.fix_at Demo.point_d)), 0 + 1), t') /\
    captures t' = (captures [] ++ [photo_path "/data/run" "run" (0 + 1)])%list.
Proof.
  apply (proj1 (photo_index_steps (L := Demo.libraries))
           "/data/run" "run" "gpsdata.run.csv" 0 Demo.point_a 100 false
           (Demo.cycle_at Demo.point_d) [] (Demo.fix_at Demo.point_d) []
           (Demo.tpv (PyFloat (fst Demo.point_d)) (PyFloat (snd Demo.point_d)) 3)
           (Demo.sample_time, false) 10%float 100%float (20, 68)%float Demo.tags_d
           sample_at_gate_d).
  - vm_compute. reflexivity.
  - reflexivity.
  - vm_compute. reflexivity.
  - reflexivity.
Defined.

(** ** Products with a constant are NaN only for NaN *)

Lemma rounded_nonneg (m n m1 : Z) : 0 <= m -> rounded m n m1 -> 0 <= m1.
Proof.
  intros Hm [[->|[-> _]] _];
    pose proof (Z.div_pos m (2 ^ n) Hm) as H;
    destruct (Z.le_gt_cases n (-1)) as [Hn|Hn].
  - rewrite Z.pow_neg_r by lia. rewrite Z.div_0_r. lia.
  - assert (0 < 2 ^ n) by (apply Z.pow_pos_nonneg; lia). lia.
  - rewrite Z.pow_neg_r by lia. rewrite Z.div_0_r. lia.
  - assert (0 < 2 ^ n) by (apply Z.pow_pos_nonneg; lia). lia.
Qed.





Section ExceptionLemmas.

Context {L : Libraries}.


End ExceptionLemmas.

(** ** What the acquisition loop raises *)



(** ** What the acquisition loop settles on *)





(** ** The worker loop, tick by tick *)

Lemma framed_ret {A : Type} (a : A) : framed (ret a).
Proof. exists (Ok a), []. intros t. rewrite app_nil_r. reflexivity. Qed.

Lemma framed_lift {A : Type} (r : result A) : framed (lift r).
Proof. exists r, []. intros t. rewrite app_nil_r. reflexivity. Qed.

Lemma framed_emit (ev : event) : framed (emit ev).
Proof. exists (Ok tt), [ev]. reflexivity. Qed.

Lemma framed_emit_all (evs : list event) : framed (emit_all evs).
Proof. exists (Ok tt), evs. reflexivity. Qed.

Lemma framed_bind {A B : Type} (m : prog A) (k : A -> prog B) :
  framed m -> (forall a, framed (k a)) -> framed (bindP m k).
Proof.
  intros (r & added & Hm) Hk. destruct r as [a|e].
  - destruct (Hk a) as (r2 & added2 & Hk2).
    exists r2, (added ++ added2)%list. intros t.
    unfold bindP. rewrite Hm, Hk2, app_assoc. reflexivity.
  - exists (Raise e), added. intros t. unfold bindP. rewrite Hm. reflexivity.
Qed.

Create HintDb framed.

#[local] Hint Resolve framed_ret framed_lift framed_emit framed_emit_all : framed.

Lemma framed_loop_body (r : report) (st : acq) : framed (loop_body r st).
Proof.
  unfold loop_body.
  destruct (String.eqb (class r) "SKY" && noSats st); [apply framed_ret|].
  destruct (String.eqb (class r) "TPV" && noCoords st); [|apply framed_ret].
  apply framed_bind; [apply framed_lift|]. intros [[la lo] sf].
  destruct (Py.truthy lo && Py.truthy la); [apply framed_ret|].
  destruct (sf =? 0)%Z; [|apply framed_ret].
  apply framed_bind; [apply framed_emit|]. intros _. apply framed_ret.
Qed.

Lemma framed_acquire (reports : list report) : forall st, framed (acquire reports st).
Proof.
  induction reports as [|r rest IH]; intros st; cbn [acquire];
    destruct (noSats st || noCoords st); auto with framed.
  apply framed_bind; [apply framed_loop_body | exact IH].
Qed.

Section Framing.

Context {L : Libraries}.

Lemma framed_logGPSdata fullpath subdir csvfilename n0 prev dtraveled debug c :
  framed (logGPSdata fullpath subdir csvfilename n0 prev dtraveled debug c).
Proof.
  unfold logGPSdata.
  apply framed_bind; [apply framed_acquire|]. intros st.
  apply framed_bind; [apply framed_lift|]. intros r.
  apply framed_bind; [apply framed_lift|]. intros utc.
  apply framed_bind; [apply framed_lift|]. intros v.
  apply framed_bind; [apply framed_lift|]. intros h.
  apply framed_bind; [apply framed_lift|]. intros temp.
  apply framed_bind; [|intros n; apply framed_ret].
  destruct (Py.float_gt_int _ _); [|apply framed_ret].
  apply framed_bind; [destruct debug; auto with framed|]. intros _.
  apply framed_bind; [apply framed_emit|]. intros _.
  apply framed_bind; [apply framed_lift|]. intros _.
  apply framed_bind; [apply framed_emit|]. intros _.
  apply framed_bind; [apply framed_lift|]. intros tags.
  apply framed_bind; [apply framed_lift|]. intros _.
  apply framed_bind; [apply framed_emit|]. intros _.
  apply framed_ret.
Qed.

End Framing.

Lemma active_app (a b : list event) : active (a ++ b) = (active a ++ active b)%list.
Proof. apply filter_app. Qed.

Lemma active_waits (k : nat) : active (repeat (Sleep 0.5) k) = repeat (Sleep 0.5) k.
Proof. induction k as [|k IH]; [reflexivity|]. cbn [repeat]. unfold active in *. cbn [filter].
  change (negb (idle (Sleep 0.5))) with true. cbv iota. rewrite IH. reflexivity.
Qed.

Lemma active_handler (e : exn) : active (handler e) = handler e.
Proof. reflexivity. Qed.

Section WorkerLemmas.

Context {L : Libraries}.

Lemma active_data_prints debug st utc v h temp subdir n :
  active (data_prints debug st utc v h temp subdir n) =
  data_prints debug st utc v h temp subdir n.
Proof. unfold data_prints, debug_prints. destruct debug; reflexivity. Qed.

(** A call adds no sleep of a tenth of a second. *)
Lemma logGPSdata_active fullpath subdir csvfilename n0 prev dtraveled debug c t out added :
  logGPSdata fullpath subdir csvfilename n0 prev dtraveled debug c t =
  (out, (t ++ added)%list) ->
  active added = added.
Proof.
  intros H.
  destruct (logGPSdata_cases fullpath subdir csvfilename n0 prev dtraveled debug c t)
    as (k & [(e & E)|(st & r & utc & v & h & temp & Hg)]).
  - rewrite E in H. injection H as _ H. apply app_inv_head in H. subst added.
    apply active_waits.
  - rewrite (logGPSdata_at_gate _ _ _ _ _ _ _ _ _ _ _ _ _ _ _ _ Hg) in H.
    destruct (gate prev st dtraveled).
    + match type of H with
      | context [take_photo ?c0 ?p ?tg ?tr] =>
          destruct (take_photo_shape c0 p tg tr) as (o & cam & E & Hcam); rewrite E in H
      end.
      assert (Hc : active cam = cam).
      { destruct Hcam as [(e & _ & [->| ->])|(x & _ & ->)]; reflexivity. }
      assert (Ha : added =
                   (repeat (Sleep 0.5) k
                    ++ data_prints debug st utc v h temp subdir (n0 + 1)
                    ++ [FileAppend (fullpath ++ "/" ++ csvfilename)
                          (data_row st utc v h temp subdir (n0 + 1))] ++ cam)%list).
      { apply (app_inv_head t). rewrite !app_assoc.
        destruct o; injection H as _ H; rewrite <- H, <- !app_assoc; reflexivity. }
      rewrite Ha, !active_app, active_waits, active_data_prints, Hc. reflexivity.
    + injection H as _ H. apply app_inv_head in H. subst added. apply active_waits.
Qed.

(** A tick that is due makes the turn that [main_turn] describes. *)
Lemma worker_tick_due fullpath subdir csvfilename polling_time dtraveled debug w i :
  due polling_time w i = true ->
  exists w' added,
    (forall t, worker_tick fullpath subdir csvfilename polling_time dtraveled debug w i t =
               (Ok w', (t ++ added)%list)) /\
    (forall t, main_turn fullpath subdir csvfilename dtraveled debug (sess w) (met i) t =
               (Ok (sess w'), (t ++ active added)%list)).
Proof.
  intros Hdue. unfold worker_tick, main_turn. rewrite Hdue.
  destruct (framed_logGPSdata fullpath subdir csvfilename (ndx (sess w))
              (prev_loc (sess w)) dtraveled debug (met i)) as (r & added & E).
  pose proof (logGPSdata_active _ _ _ _ _ _ _ _ _ _ _ (E [])) as Ha.
  destruct r as [[l n]|e].
  - eexists. exists (added ++ [Sleep tenth])%list. split; intros t; rewrite E.
    + rewrite app_assoc. reflexivity.
    + rewrite active_app, Ha. cbn. rewrite app_nil_r. reflexivity.
  - eexists. exists (added ++ handler e)%list. split; intros t; rewrite E.
    + rewrite app_assoc. reflexivity.
    + rewrite active_app, Ha, active_handler, app_assoc. reflexivity.
Qed.

(** X11.  The worker loop, tick by tick, against its turns.  A run
    of ticks never raises.  Position and index at the end, and
    everything done but the sleeps of a tenth of a second, are those
    of [main_loop] over the calls of the ticks that were due: the
    ticks at which more than the polling time had passed since the
    last call that returned, or the flag was set, by the button or by
    the handler after a call that raised. *)
Theorem worker_loop_refines fullpath subdir csvfilename polling_time dtraveled debug ticks :
  forall w, exists w' added,
    (forall t, worker_loop fullpath subdir csvfilename polling_time dtraveled debug
                 ticks w t = (Ok w', (t ++ added)%list)) /\
    (forall t, main_loop fullpath subdir csvfilename dtraveled debug
                 (worker_calls fullpath subdir csvfilename polling_time dtraveled debug
                    ticks w)
                 (sess w) t =
               (Ok (sess w'), (t ++ active added)%list)).
Proof.
  induction ticks as [|i rest IH]; intros w.
  - exists w, []. split; intros t; cbn; unfold ret; rewrite app_nil_r; reflexivity.
  - cbn [worker_loop worker_calls]. unfold bindP.
    destruct (due polling_time w i) eqn:Hdue.
    + destruct (worker_tick_due fullpath subdir csvfilename polling_time dtraveled debug
                  w i Hdue) as (w1 & added1 & Htick & Hturn).
      assert (Hafter : worker_after fullpath subdir csvfilename polling_time dtraveled
                         debug w i = w1).
      { unfold worker_after. rewrite Htick. reflexivity. }
      rewrite Hafter.
      destruct (IH w1) as (w' & added2 & Hloop & Hmain).
      exists w', (added1 ++ added2)%list. split; intros t.
      * rewrite Htick, Hloop, app_assoc. reflexivity.
      * cbn [app main_loop]. unfold bindP.
        rewrite Hturn, Hmain, active_app, app_assoc. reflexivity.
    + assert (Htick : forall t,
                worker_tick fullpath subdir csvfilename polling_time dtraveled debug w i t =
                (Ok (at_test w i), (t ++ [Sleep tenth])%list)).
      { intros t. unfold worker_tick. rewrite Hdue. reflexivity. }
      assert (Hafter : worker_after fullpath subdir csvfilename polling_time dtraveled
                         debug w i = at_test w i).
      { unfold worker_after. rewrite Htick. reflexivity. }
      rewrite Hafter.
      assert (Hsess : sess (at_test w i) = sess w).
      { unfold at_test. destruct (pressed i); reflexivity. }
      destruct (IH (at_test w i)) as (w' & added2 & Hloop & Hmain).
      exists w', ([Sleep tenth] ++ added2)%list. split; intros t.
      * rewrite Htick, Hloop, app_assoc. reflexivity.
      * cbn [app]. rewrite <- Hsess. apply Hmain.
Qed.

(** X12.  While gpsd delivers no report, the worker keeps trying.
    From a tick that is due on, every tick calls [logGPSdata], which
    raises [StopIteration]; each time the handler prints its two
    messages around a sleep of one second, and nothing else is done:
    no idle sleep, no file, no photo.  The flag stays set, and
    position, index and the time of the last call that returned stay
    as they were. *)
Theorem gps_down_is_retried fullpath subdir csvfilename polling_time dtraveled debug
    i rest w t :
  due polling_time w i = true ->
  Forall (fun j => gps_reports (met j) = []) (i :: rest) ->
  worker_loop fullpath subdir csvfilename polling_time dtraveled debug (i :: rest) w t =
  (Ok {| start := start w; trig_received := true; sess := sess w |},
   (t ++ flat_map (fun _ => handler StopIteration) (i :: rest))%list).
Proof.
  intros Hdue Hall.
  assert (Hcall : forall j n0 prev tr,
            gps_reports (met j) = [] ->
            logGPSdata fullpath subdir csvfilename n0 prev dtraveled debug (met j) tr =
            (Raise StopIteration, tr)).
  { intros j n0 prev tr Hj. unfold logGPSdata. unfold bindP at 1. rewrite Hj. reflexivity. }
  assert (Htick : forall j w0 tr,
            gps_reports (met j) = [] -> due polling_time w0 j = true ->
            worker_tick fullpath subdir csvfilename polling_time dtraveled debug w0 j tr =
            (Ok {| start := start w0; trig_received := true; sess := sess w0 |},
             (tr ++ handler StopIteration)%list)).
  { intros j w0 tr Hj Hd. unfold worker_tick. rewrite Hd, (Hcall j _ _ tr Hj). reflexivity. }
  revert i w t Hdue Hall. induction rest as [|j rest IH]; intros i w t Hdue Hall.
  - cbn [worker_loop flat_map]. unfold bindP.
    rewrite Htick; [|exact (Forall_inv Hall)|exact Hdue]. rewrite app_nil_r. reflexivity.
  - cbn [worker_loop]. unfold bindP.
    rewrite Htick; [|exact (Forall_inv Hall)|exact Hdue].
    change (worker_tick fullpath subdir csvfilename polling_time dtraveled debug
              {| start := start w; trig_received := true; sess := sess w |} j
              (t ++ handler StopIteration)%list)
      with ((fun m => m) (worker_tick fullpath subdir csvfilename polling_time dtraveled
              debug {| start := start w; trig_received := true; sess := sess w |} j
              (t ++ handler StopIteration)%list)).
    pose proof (IH j {| start := start w; trig_received := true; sess := sess w |}
                  (t ++ handler StopIteration)%list) as H.
    cbn [worker_loop] in H. unfold bindP in H. cbv beta.
    rewrite H.
    + cbn [start sess flat_map]. rewrite <- app_assoc. reflexivity.
    + unfold due, at_test. destruct (pressed j); cbn [trig_received button_pressed];
        apply orb_true_r.
    + exact (Forall_inv_tail Hall).
Qed.

End WorkerLemmas.

Lemma gps_down_is_retried_witness :
  worker_loop (L := Demo.libraries) "/data/run" "run" "gpsdata.run.csv" 10 100 false
    [{| now := 11; pressed := false;
        met := {| gps_reports := []; read_temp := Ok (20, 68)%float;
                  camera_open := Ok tt; camera_capture := Ok tt |};
        after := 11 |};
     {| now := 12; pressed := false;
        met := {| gps_reports := []; read_temp := Ok (20, 68)%float;
                  camera_open := Ok tt; camera_capture := Ok tt |};
        after := 12 |}]
    {| start := 0; trig_received := false; sess := session_init |} [] =
  (Ok {| start := 0; trig_received := true; sess := session_init |},
   (handler StopIteration ++ handler StopIteration)%list).
Proof.
  apply (gps_down_is_retried (L := Demo.libraries) "/data/run" "run" "gpsdata.run.csv"
           10 100 false
           {| now := 11; pressed := false;
              met := {| gps_reports := []; read_temp := Ok (20, 68)%float;
                        camera_open := Ok tt; camera_capture := Ok tt |};
              after := 11 |}
           [{| now := 12; pressed := false;
               met := {| gps_reports := []; read_temp := Ok (20, 68)%float;
                         camera_open := Ok tt; camera_capture := Ok tt |};
               after := 12 |}]
           {| start := 0; trig_received := false; sess := session_init |} []).
  - vm_compute. reflexivity.
  - repeat constructor.
Defined.

(** ** The temperature probe *)

Lemma wait_first_ready (raw : nat -> result (list string)) (n : nat) (lines : list string) :
  raw n = Ok lines -> Probe.ready lines = Ok true ->
  forall k fuel first t,
    (k + fuel >= n)%nat -> (k <= n)%nat ->
    raw k = Ok first ->
    (forall j, (k <= j < n)%nat -> exists l, raw j = Ok l /\ Probe.ready l = Ok false) ->
    Probe.wait fuel raw k first t =
    (Ok (Some lines), (t ++ repeat (Sleep Probe.fifth) (n - k))%list).
Proof.
  intros Hn Hready k fuel. revert k.
  induction fuel as [|fuel IH]; intros k first t Hfuel Hk Hfirst Hbusy.
  - assert (k = n) by lia. subst k. rewrite Hn in Hfirst. injection Hfirst as <-.
    cbn [Probe.wait]. unfold bindP, lift. rewrite Hready, Nat.sub_diag.
    unfold ret. cbn [repeat]. rewrite app_nil_r. reflexivity.
  - destruct (Nat.eq_dec k n) as [->|Hne].
    + rewrite Hn in Hfirst. injection Hfirst as <-.
      cbn [Probe.wait]. unfold bindP, lift. rewrite Hready, Nat.sub_diag.
      unfold ret. cbn [repeat]. rewrite app_nil_r. reflexivity.
    + destruct (Hbusy k ltac:(lia)) as (l & Hl & Hnot).
      rewrite Hfirst in Hl. injection Hl as <-.
      cbn [Probe.wait]. unfold bindP at 1. unfold lift at 1. rewrite Hnot.
      unfold bindP at 1. unfold emit at 1. unfold bindP at 1. unfold lift at 1.
      assert (Hnext : exists l', raw (S k) = Ok l').
      { destruct (Nat.eq_dec (S k) n) as [E|E]; [rewrite E; eauto|].
        destruct (Hbusy (S k) ltac:(lia)) as (l' & Hl' & _). eauto. }
      destruct Hnext as (l' & Hl'). rewrite Hl'.
      rewrite (IH (S k) l'); try lia; auto.
      * replace (n - k)%nat with (S (n - S k)) by lia.
        cbn [repeat]. rewrite <- app_assoc. reflexivity.
      * intros j Hj. apply Hbusy. lia.
Qed.

(** X13.  [read_temp] waits for the first reading whose first line
    ends in [YES]: it sleeps a fifth of a second after each reading
    before it, and what it returns or raises is decided by that
    reading alone. *)
Theorem read_temp_waits (raw : nat -> result (list string)) (n fuel : nat)
    (lines : list string) (t : list event) :
  (forall j, (j < n)%nat -> exists l, raw j = Ok l /\ Probe.ready l = Ok false) ->
  raw n = Ok lines -> Probe.ready lines = Ok true ->
  (n <= fuel)%nat ->
  Probe.read_temp fuel raw t =
  (match Probe.temperature lines with
   | Ok v => Ok (Some v)
   | Raise e => Raise e
   end,
   (t ++ repeat (Sleep Probe.fifth) n)%list).
Proof.
  intros Hbusy Hn Hready Hfuel. unfold Probe.read_temp.
  unfold bindP at 1. unfold lift at 1.
  assert (H0 : exists first, raw 0%nat = Ok first).
  { destruct n as [|n]; [eauto|]. destruct (Hbusy 0%nat ltac:(lia)) as (l & Hl & _). eauto. }
  destruct H0 as (first & H0). rewrite H0.
  unfold bindP at 1.
  rewrite (wait_first_ready raw n lines Hn Hready 0 fuel first t); try lia; auto.
  - rewrite Nat.sub_0_r. unfold bindP, lift, ret.
    destruct (Probe.temperature lines); reflexivity.
  - intros j Hj. apply Hbusy. lia.
Qed.

Lemma read_temp_waits_witness :
  Probe.read_temp 5 sample_probe [] =
  (Ok (Some (Some ((23125 / 1000)%float, (23125 / 1000 * 9 / 5 + 32)%float))),
   [Sleep Probe.fifth; Sleep Probe.fifth]).
Proof.
  apply (read_temp_waits sample_probe 2 5 probe_ready []).
  - intros j Hj. exists probe_busy.
    destruct j as [|[|j]]; [split; reflexivity | split; reflexivity | lia].
  - reflexivity.
  - reflexivity.
  - lia.
Defined.

(** ** Reading an integer back from its decimal text *)

Lemma uint_chars_digits (d : Decimal.uint) : Forall digit_char (uint_chars d).
Proof.
  unfold uint_chars, digit_char.
  induction d; cbn [NilEmpty.string_of_uint list_ascii_of_string]; constructor;
    try exact IHd; cbn; tauto.
Qed.

Lemma uint_chars_nonempty (d : Decimal.uint) : d <> Decimal.Nil -> uint_chars d <> [].
Proof. destruct d; [congruence|..]; intros _; discriminate. Qed.

Lemma take_digits_uint (d : Decimal.uint) :
  forall rest acc k,
    PyFloatParse.take_digits (uint_chars d ++ rest) acc k =
    PyFloatParse.take_digits rest (uint_value d acc)
      (k + Z.of_nat (Decimal.nb_digits d)).
Proof.
  unfold uint_chars.
  induction d; intros rest acc k;
    cbn [NilEmpty.string_of_uint list_ascii_of_string app Decimal.nb_digits uint_value];
    try (cbn [PyFloatParse.take_digits];
         match goal with
         | |- context [PyFloatParse.is_digit ?c] =>
             change (PyFloatParse.is_digit c) with true;
             let v := eval vm_compute in (PyFloatParse.digit_val c) in
             change (PyFloatParse.digit_val c) with v
         end;
         cbv iota; rewrite IHd; f_equal; lia).
  f_equal. cbn. lia.
Qed.

Lemma of_uint_acc_value (d : Decimal.uint) :
  forall acc, Zpos (Pos.of_uint_acc d acc) = uint_value d (Zpos acc).
Proof.
  induction d; intros acc; cbn [Pos.of_uint_acc uint_value];
    try reflexivity; rewrite IHd; f_equal; lia.
Qed.

Lemma of_uint_value (d : Decimal.uint) : Z.of_N (Pos.of_uint d) = uint_value d 0.
Proof.
  induction d; cbn [Pos.of_uint uint_value]; try reflexivity;
    try (rewrite IHd; reflexivity);
    cbn [Z.of_N]; rewrite of_uint_acc_value; reflexivity.
Qed.

Lemma to_uint_value (p : positive) : uint_value (Pos.to_uint p) 0 = Zpos p.
Proof.
  rewrite <- of_uint_value, DecimalPos.Unsigned.of_to. reflexivity.
Qed.

Lemma list_ascii_of_string_app (a b : string) :
  list_ascii_of_string (a ++ b) = (list_ascii_of_string a ++ list_ascii_of_string b)%list.
Proof. induction a as [|x a IH]; cbn; [reflexivity | rewrite IH; reflexivity]. Qed.

Lemma digit_char_facts (c : ascii) :
  digit_char c ->
  PyFloatParse.is_space c = false /\ c <> "-"%char /\ c <> "+"%char /\
  (forall r, (string_of_list_ascii (map PyFloatParse.lower (c :: r)) =? "inf")%string = false /\
             (string_of_list_ascii (map PyFloatParse.lower (c :: r)) =? "infinity")%string
             = false /\
             (string_of_list_ascii (map PyFloatParse.lower (c :: r)) =? "nan")%string = false).
Proof.
  unfold digit_char. cbn [In].
  intros [<-|[<-|[<-|[<-|[<-|[<-|[<-|[<-|[<-|[<-|[]]]]]]]]]]];
    (split; [reflexivity|]); (split; [discriminate|]); (split; [discriminate|]);
    intros r; repeat split; reflexivity.
Qed.

Lemma drop_spaces_spaces (sp l : list ascii) :
  Forall (fun c => PyFloatParse.is_space c = true) sp ->
  PyFloatParse.drop_spaces (sp ++ l) = PyFloatParse.drop_spaces l.
Proof.
  induction 1 as [|c sp Hc Hsp IH]; [reflexivity|].
  cbn [app PyFloatParse.drop_spaces]. rewrite Hc. exact IH.
Qed.

Lemma drop_spaces_keep (c : ascii) (l : list ascii) :
  PyFloatParse.is_space c = false ->
  PyFloatParse.drop_spaces (c :: l) = c :: l.
Proof. intros H. cbn [PyFloatParse.drop_spaces]. rewrite H. reflexivity. Qed.

(** Text that starts and ends with characters that are not spaces
    loses exactly the spaces that follow it. *)
Lemma strip_trailing (first last : ascii) (mid tail : list ascii) (body : list ascii) :
  body = first :: mid -> rev body = last :: rev (removelast body) ->
  PyFloatParse.is_space first = false -> PyFloatParse.is_space last = false ->
  Forall (fun c => PyFloatParse.is_space c = true) tail ->
  PyFloatParse.strip (body ++ tail) = body.
Proof.
  intros Hb Hr Hf Hl Ht. unfold PyFloatParse.strip.
  rewrite Hb at 1. cbn [app]. rewrite (drop_spaces_keep first _ Hf).
  change (first :: (mid ++ tail)%list) with ((first :: mid) ++ tail)%list.
  rewrite <- Hb, rev_app_distr, drop_spaces_spaces by (apply Forall_rev; exact Ht).
  rewrite Hr, (drop_spaces_keep last _ Hl), <- Hr. apply rev_involutive.
Qed.

Lemma rev_last_digit (pre digits : list ascii) :
  digits <> [] -> Forall digit_char digits ->
  exists last, digit_char last /\
               rev (pre ++ digits) = last :: rev (removelast (pre ++ digits)).
Proof.
  intros Hne Hall.
  destruct (exists_last Hne) as (front & last & ->).
  exists last. split.
  - rewrite Forall_app in Hall. destruct Hall as [_ Hl]. exact (Forall_inv Hl).
  - rewrite app_assoc, removelast_last, rev_app_distr. reflexivity.
Qed.

(** The text of an integer: a sign and digits that give its absolute
    value. *)
Lemma str_of_int_chars (n : Z) :
  exists d, d <> Decimal.Nil /\ uint_value d 0 = Z.abs n /\
            list_ascii_of_string (Py.str_of_int n) =
            ((if n <? 0 then ["-"%char] else []) ++ uint_chars d)%list.
Proof.
  unfold Py.str_of_int. destruct n as [|p|p]; cbn [Z.to_int NilZero.string_of_int Z.ltb Z.compare Z.abs].
  - exists (Decimal.D0 Decimal.Nil). repeat split; discriminate.
  - exists (Pos.to_uint p). pose proof (DecimalPos.Unsigned.to_uint_nonnil p) as Hn.
    split; [exact Hn|]. split; [apply to_uint_value|].
    unfold uint_chars. destruct (Pos.to_uint p); try reflexivity. congruence.
  - exists (Pos.to_uint p). pose proof (DecimalPos.Unsigned.to_uint_nonnil p) as Hn.
    split; [exact Hn|]. split; [apply to_uint_value|].
    unfold uint_chars. cbn [list_ascii_of_string app].
    destruct (Pos.to_uint p); try reflexivity. congruence.
Qed.

Lemma SF_of_decimal_int (n : Z) :
  PyFloatParse.SF_of_decimal (n <? 0) (Z.abs n) 0 = Py.SF_of_int n.
Proof.
  unfold PyFloatParse.SF_of_decimal, Py.SF_of_int.
  destruct n as [|p|p]; cbn [Z.abs Z.ltb Z.compare Z.eqb]; try reflexivity.
  - change (10 ^ 0) with 1. rewrite Z.mul_1_r. reflexivity.
  - change (10 ^ 0) with 1. rewrite Z.mul_1_r. reflexivity.
Qed.

(** [float] of the text of an integer, followed by white space: the
    float nearest to the integer. *)
Lemma float_of_string_of_int (n : Z) (tail : string) :
  Forall (fun c => PyFloatParse.is_space c = true) (list_ascii_of_string tail) ->
  PyFloatParse.float_of_string (Py.str_of_int n ++ tail) =
  Ok (SF2Prim (Py.SF_of_int n)).
Proof.
  intros Htail. unfold PyFloatParse.float_of_string, PyFloatParse.parse_float.
  rewrite list_ascii_of_string_app.
  destruct (str_of_int_chars n) as (d & Hd & Hv & ->).
  pose proof (uint_chars_digits d) as Hall.
  pose proof (uint_chars_nonempty d Hd) as Hne.
  destruct (uint_chars d) as [|c r] eqn:Ed; [congruence|].
  destruct (digit_char_facts c (Forall_inv Hall)) as (Hsp & Hminus & Hplus & Hword).
  destruct (rev_last_digit (if n <? 0 then ["-"%char] else []) (c :: r) Hne Hall)
    as (last & Hlast & Hrev).
  destruct (digit_char_facts last Hlast) as (Hsp' & _).
  assert (Hstrip : PyFloatParse.strip
                     (((if n <? 0 then ["-"%char] else []) ++ c :: r)
                      ++ list_ascii_of_string tail) =
                   ((if n <? 0 then ["-"%char] else []) ++ c :: r)%list).
  { destruct (n <? 0).
    - eapply strip_trailing; [reflexivity | exact Hrev | reflexivity | exact Hsp' | exact Htail].
    - eapply strip_trailing; [reflexivity | exact Hrev | exact Hsp | exact Hsp' | exact Htail]. }
  rewrite Hstrip.
  assert (Hsign : PyFloatParse.take_sign ((if n <? 0 then ["-"%char] else []) ++ c :: r) =
                  (n <? 0, c :: r)).
  { destruct (n <? 0); cbn [app PyFloatParse.take_sign]; [reflexivity|].
    destruct c as [[] [] [] [] [] [] [] []]; try reflexivity; congruence. }
  rewrite Hsign.
  destruct (Hword r) as (-> & -> & ->). cbn [orb].
  assert (Hparse : PyFloatParse.parse_decimal (c :: r) = Some (Z.abs n, 0)).
  { unfold PyFloatParse.parse_decimal.
    rewrite <- (app_nil_r (c :: r)), <- Ed, take_digits_uint, Hv.
    cbn [PyFloatParse.take_digits].
    assert (Hlen : 0 < Z.of_nat (Decimal.nb_digits d)).
    { destruct d; [congruence|..]; cbn [Decimal.nb_digits]; lia. }
    destruct (Z.eqb_spec (0 + Z.of_nat (Decimal.nb_digits d) + 0) 0) as [E|_]; [lia|].
    reflexivity. }
  rewrite Hparse, SF_of_decimal_int. reflexivity.
Qed.

(** ** The second line of the probe *)

Lemma index_first (pre rest : string) :
  String.index 0 "t=" pre = None ->
  String.index 0 "t=" (pre ++ "t=" ++ rest) = Some (String.length pre).
Proof.
  induction pre as [|b pre IH]; intros H.
  - destruct rest; reflexivity.
  - cbn [String.append String.length]. cbn [String.index] in H |- *.
    destruct (String.prefix "t=" (String b pre)) eqn:Hp; [discriminate|].
    destruct (String.index 0 "t=" pre) eqn:Hi; [discriminate|].
    cbn [String.append] in IH. rewrite (IH eq_refl).
    assert (Hp' : String.prefix "t=" (String b (pre ++ String "t" (String "=" rest)))
                  = false).
    { cbn [String.prefix] in Hp |- *.
      destruct (Ascii.ascii_dec "t" b) as [_|_]; [|reflexivity].
      destruct pre as [|c pre]; [reflexivity|].
      cbn [String.append]. cbn [String.prefix] in Hp |- *.
      destruct (Ascii.ascii_dec "=" c) as [_|_]; [|reflexivity].
      destruct pre; discriminate Hp. }
    rewrite Hp'. reflexivity.
Qed.

Lemma substring_all (s : string) : String.substring 0 (String.length s) s = s.
Proof. induction s as [|c s IH]; cbn; [reflexivity | rewrite IH; reflexivity]. Qed.

Lemma from_skip (a b : string) : Probe.from (String.length a) (a ++ b) = b.
Proof.
  unfold Probe.from. rewrite string_length_app.
  replace (String.length a + String.length b - String.length a)%nat
    with (String.length b) by lia.
  induction a as [|c a IH]; cbn [String.append String.length String.substring].
  - apply substring_all.
  - exact IH.
Qed.

Lemma float_of_int_value (n : Z) (x : float) :
  Py.float_of_int n = Ok x -> x = SF2Prim (Py.SF_of_int n).
Proof.
  unfold Py.float_of_int. destruct (Py.SF_of_int n); intros H; try discriminate;
    injection H as <-; reflexivity.
Qed.

(** X14.  The temperature is read from the text of the probe.  When
    the second line of a reading holds, after its first [t=], the
    decimal text of an integer [n] of thousandths of a degree and then
    the end of the line, [read_temp] gives [float(n) / 1000.0] as the
    Celsius value, and that value times 9.0, divided by 5.0, plus
    32.0, as the Fahrenheit value. *)
Theorem temperature_of_millidegrees (l0 pre : string) (more : list string) (n : Z)
    (x : float) :
  String.index 0 "t=" pre = None ->
  Py.float_of_int n = Ok x ->
  Probe.temperature
    (l0 :: (pre ++ "t=" ++ Py.str_of_int n ++ String newline "")%string :: more) =
  Ok (Some ((x / 1000)%float, (x / 1000 * 9 / 5 + 32)%float)).
Proof.
  intros Hpre Hx. unfold Probe.temperature, Probe.item. cbn [nth_error bind].
  rewrite (index_first pre _ Hpre).
  replace (String.length pre + 2)%nat with (String.length (pre ++ "t=")%string)
    by (rewrite string_length_app; reflexivity).
  rewrite <- (string_app_assoc pre "t=").
  rewrite from_skip, float_of_string_of_int by (repeat constructor).
  cbn [bind]. rewrite (float_of_int_value n x Hx). reflexivity.
Qed.

Lemma temperature_of_millidegrees_witness :
  Probe.temperature
    ["72 01 4b 46 7f ff 0e 10 57 : crc=57 YES";
     ("72 01 4b 46 7f ff 0e 10 57 " ++ "t=" ++ Py.str_of_int 23125
      ++ String newline "")%string] =
  Ok (Some ((23125 / 1000)%float, (23125 / 1000 * 9 / 5 + 32)%float)).
Proof.
  apply (temperature_of_millidegrees "72 01 4b 46 7f ff 0e 10 57 : crc=57 YES"
           "72 01 4b 46 7f ff 0e 10 57 " [] 23125 23125%float).
  - vm_compute. reflexivity.
  - vm_compute. reflexivity.
Defined.

From Stdlib Require Import Lqa.

(** ** How far a rounded product is from the exact one *)

Lemma rounded_error (m n m1 : Z) :
  0 <= m -> 0 < n -> rounded m n m1 -> Z.abs (m1 * 2 ^ n - m) < 2 ^ n.
Proof.
  intros Hm Hn [Hr Hex].
  assert (H2n : 0 < 2 ^ n) by (apply Z.pow_pos_nonneg; lia).
  assert (Hhalf : 0 < 2 ^ (n - 1)) by (apply Z.pow_pos_nonneg; lia).
  pose proof (Z.div_mod m (2 ^ n) ltac:(lia)) as Hdm.
  pose proof (Z.mod_pos_bound m (2 ^ n) H2n) as Hmod.
  destruct Hr as [->|[-> Hge]]; nia.
Qed.

Lemma mul_error (c : Z) (mc : positive) (p B : Z) (f : spec_float) :
  0 <= p <= 53 -> Zpos mc = c * 2 ^ p -> 2 ^ 52 < Zpos mc < 2 ^ 53 ->
  0 <= B <= 53 -> c <= 2 ^ B ->
  valid_binary f = true -> below_one f ->
  let r := SFmul prec emax (S754_finite false mc (- p)) f in
  exists K vr vx,
    0 <= K /\
    (Py.SF2Q r * inject_Z (2 ^ K) == inject_Z vr)%Q /\
    (inject_Z c * Py.SF2Q f * inject_Z (2 ^ K) == inject_Z vx)%Q /\
    Z.abs (vr - vx) * 2 ^ (53 - B) < 2 ^ K.
Proof.
  intros Hp Hmc Hrange HB HcB Hv Hf r.
  assert (H2p : 0 < 2 ^ p) by (apply Z.pow_pos_nonneg; lia).
  assert (Hc : 0 < c) by nia.
  destruct Hf as [->|(mf & ef & -> & Hef & Hlt)].
  { exists 0, 0, 0. subst r. cbn [SFmul xorb Py.SF2Q].
    split; [lia|]. split; [reflexivity|]. split; [ring|].
    cbn [Z.abs Z.sub Z.mul Z.opp Z.add]. apply Z.pow_pos_nonneg; lia. }
  cbn [valid_binary] in Hv.
  pose proof (bounded_digits mf ef Hv) as (Hdf & Hrf & _).
  subst r. cbn [SFmul xorb].
  set (M := (mc * mf)%positive). set (E := - p + ef).
  set (K := p + - ef).
  assert (HK : 0 <= K) by (unfold K; lia).
  assert (H2K : 0 < 2 ^ K) by (apply Z.pow_pos_nonneg; lia).
  assert (H2n : 0 < 2 ^ (- ef)) by (apply Z.pow_pos_nonneg; lia).
  assert (H2B : 0 < 2 ^ (53 - B)) by (apply Z.pow_pos_nonneg; lia).
  assert (HT : c * 2 ^ K = Zpos mc * 2 ^ (- ef)).
  { unfold K. rewrite Z.pow_add_r by lia. lia. }
  assert (HMlt : Zpos M < 2 ^ (B + K)).
  { unfold M. rewrite Pos2Z.inj_mul, Z.pow_add_r by lia. nia. }
  assert (HDl : 53 <= Zpos (digits2_pos M)).
  { apply digits_ge. unfold M. rewrite Pos2Z.inj_mul. simpl (53 - 1). nia. }
  assert (HDu : Zpos (digits2_pos M) <= B + K) by (apply digits_lt; lia).
  set (n := fexp prec emax (Zpos (digits2_pos M) + E) - E).
  assert (Hn : n + 53 - B <= K) by (unfold n, E, K in *; rewrite fexp_eq; lia).
  assert (HE1 : -1074 <= E + n) by (unfold n, E; rewrite fexp_eq; lia).
  assert (Hx : (inject_Z c * Py.SF2Q (S754_finite false mf ef) * inject_Z (2 ^ K) ==
                inject_Z (Zpos M))%Q).
  { rewrite <- Qmult_assoc, (SF2Q_scale mf ef K HK ltac:(unfold K; lia)).
    rewrite <- inject_Z_mult. apply inject_Z_injective.
    replace (K + ef) with p by (unfold K; lia). unfold M. rewrite Pos2Z.inj_mul. lia. }
  exists K.
  destruct (Z.le_gt_cases n 0) as [Hn0|Hn0].
  - (* the product fits: no rounding *)
    rewrite binary_round_aux_noshift, renorm_small by (fold n in Hn0 |- *; unfold n in Hn0; lia).
    exists (Zpos M), (Zpos M). split; [exact HK|]. split; [|split; [exact Hx|]].
    + destruct (Z.leb_spec E (emax - prec)) as [_|Hgt];
        [|change (emax - prec) with 971 in Hgt; unfold E in Hgt; lia].
      rewrite (SF2Q_scale M E K HK ltac:(unfold K, E; lia)).
      replace (K + E) with 0 by (unfold K, E; lia). apply inject_Z_injective. lia.
    + rewrite Z.sub_diag. cbn [Z.abs Z.mul]. exact H2K.
  - (* the product is rounded to 53 digits *)
    destruct (binary_round_aux_shift false M E Hn0) as (m1 & Hm1 & ->).
    fold n in Hm1 |- *.
    pose proof (rounded_error (Zpos M) n m1 ltac:(lia) Hn0 Hm1) as Herr.
    pose proof (rounded_nonneg (Zpos M) n m1 ltac:(lia) Hm1) as Hm1pos.
    assert (H2n' : 0 < 2 ^ n) by (apply Z.pow_pos_nonneg; lia).
    assert (Hpow : 2 ^ n * 2 ^ (53 - B) <= 2 ^ K).
    { rewrite <- Z.pow_add_r by lia. apply Z.pow_le_mono_r; lia. }
    assert (Hq53 : Zpos M / 2 ^ n < 2 ^ 53).
    { apply Z.div_lt_upper_bound; [lia|].
      destruct (digits_bounds M) as [_ Hu].
      assert (2 ^ Zpos (digits2_pos M) <= 2 ^ (n + 53)).
      { apply Z.pow_le_mono_r; [lia|]. unfold n. rewrite fexp_eq. lia. }
      rewrite Z.pow_add_r in * by lia. lia. }
    assert (Hm1r : m1 <= 2 ^ 53) by (destruct Hm1 as [[->|[-> Hr]] _]; lia).
    exists (m1 * 2 ^ n), (Zpos M). split; [exact HK|]. split; [|split; [exact Hx|nia]].
    assert (HEn : E + n <= 52) by (unfold n, E, K in *; rewrite fexp_eq; lia).
    destruct (Z.eq_dec m1 (2 ^ 53)) as [Hcarry|Hnc].
    + subst m1. rewrite renorm_carry by lia.
      destruct (Z.leb_spec (E + n + 1) (emax - prec)) as [_|Hgt];
        [|change (emax - prec) with 971 in Hgt; lia].
      change (2 ^ 52) with (Zpos (2 ^ 52)).
      rewrite (SF2Q_scale (2 ^ 52) (E + n + 1) K HK ltac:(unfold K, E; lia)).
      apply inject_Z_injective.
      replace (K + (E + n + 1)) with (Z.succ n) by (unfold K, E; lia).
      rewrite Z.pow_succ_r by lia. change (2 ^ 53) with (2 * 2 ^ 52).
      change (Zpos (2 ^ 52)) with (2 ^ 52). lia.
    + destruct m1 as [|p1|p1]; try lia.
      * rewrite renorm_zero by lia. cbn [Py.SF2Q Z.mul]. ring.
      * assert (Hd1 : Zpos (digits2_pos p1) <= 53) by (apply digits_lt; lia).
        rewrite renorm_small by (rewrite fexp_eq; lia).
        destruct (Z.leb_spec (E + n) (emax - prec)) as [_|Hgt];
          [|change (emax - prec) with 971 in Hgt; lia].
        rewrite (SF2Q_scale p1 (E + n) K HK ltac:(unfold K, E; lia)).
        apply inject_Z_injective.
        replace (K + (E + n)) with n by (unfold K, E; lia). reflexivity.
Qed.

Lemma scaled_bound (R X : Q) (K vr vx T : Z) :
  0 <= K -> 0 < T ->
  (R * inject_Z (2 ^ K) == inject_Z vr)%Q ->
  (X * inject_Z (2 ^ K) == inject_Z vx)%Q ->
  Z.abs (vr - vx) * T < 2 ^ K ->
  (X - (1 # Z.to_pos T) < R)%Q /\ (R < X + (1 # Z.to_pos T))%Q.
Proof.
  intros HK HT HR HX Hb.
  assert (HP : (0 < inject_Z (2 ^ K))%Q).
  { change 0%Q with (inject_Z 0). rewrite <- Zlt_Qlt. apply Z.pow_pos_nonneg; lia. }
  assert (Ht : (0 < inject_Z T)%Q).
  { change 0%Q with (inject_Z 0). rewrite <- Zlt_Qlt. exact HT. }
  assert (Hd : ((R - X) * inject_Z (2 ^ K) == inject_Z (vr - vx))%Q).
  { unfold Z.sub. rewrite inject_Z_plus, inject_Z_opp, <- HR, <- HX. ring. }
  assert (Hu : (inject_Z (vr - vx) * inject_Z T < inject_Z (2 ^ K))%Q).
  { rewrite <- inject_Z_mult, <- Zlt_Qlt. lia. }
  assert (Hl : (- inject_Z (2 ^ K) < inject_Z (vr - vx) * inject_Z T)%Q).
  { rewrite <- inject_Z_mult, <- inject_Z_opp, <- Zlt_Qlt. lia. }
  rewrite <- Hd in Hu, Hl.
  assert (Einv : ((1 # Z.to_pos T) * inject_Z T == 1)%Q).
  { unfold Qeq, Qmult, inject_Z. cbn [Qnum Qden].
    rewrite Pos.mul_1_r, Z2Pos.id by lia. lia. }
  set (D := (R - X)%Q) in *. set (P := inject_Z (2 ^ K)) in *.
  set (t := inject_Z T) in *. set (i := (1 # Z.to_pos T)%Q) in *.
  assert (Hi : (0 < i)%Q) by reflexivity.
  assert (H1 : (D * t < 1)%Q).
  { apply (Qmult_lt_r _ _ P HP). lra. }
  assert (H2 : (- (1) < D * t)%Q).
  { apply (Qmult_lt_r _ _ P HP). lra. }
  assert (H3 : (D < i)%Q).
  { apply (Qmult_lt_r _ _ t Ht). rewrite Einv. exact H1. }
  assert (H4 : (- i < D)%Q).
  { apply (Qmult_lt_r _ _ t Ht).
    setoid_replace (- i * t)%Q with (- (1))%Q by (rewrite <- Einv; ring). exact H2. }
  unfold D in H3, H4. split; lra.
Qed.

(** The run of [dec2dms], with how far each of its two products is
    from the exact one. *)
Lemma dec2dms_products (x : float) :
  is_finite x = true ->
  exists degrees minutes seconds f m g s,
    dms_run x degrees minutes seconds f m g s /\
    (60 * Py.float2Q f - (1 # 140737488355328) < Py.float2Q m)%Q /\
    (Py.float2Q m < 60 * Py.float2Q f + (1 # 140737488355328))%Q /\
    (6000 * Py.float2Q g - (1 # 1099511627776) < Py.float2Q s)%Q /\
    (Py.float2Q s < 6000 * Py.float2Q g + (1 # 1099511627776))%Q.
Proof.
  intros Hfin.
  pose proof (abs_nonneg_finite x (is_finite_spec x Hfin)) as Ha.
  destruct (frac_spec (Prim2SF (abs x)) (Prim2SF_valid _) Ha)
    as (d & Hd & Hd0 & Hvd & Hfd & Hbf & Hqf).
  destruct (float_sub_int_ok (abs x) d Hvd Hfd) as (f & Hf & Ef).
  rewrite <- Ef in Hbf, Hqf.
  (* 60 * f *)
  destruct (int_mul_float_ok 60 f) as (m & Hm & Em);
    [rewrite SF_of_int_60; reflexivity | rewrite SF_of_int_60; reflexivity |].
  rewrite SF_of_int_60 in Em.
  pose proof (mul_below 60 8444249301319680 47 (Prim2SF f)) as Hmul.
  cbv zeta in Hmul. cbn [Z.opp] in Hmul. rewrite <- Em in Hmul.
  destruct Hmul as (Hnm & mi & Hmi & Hmir);
    [lia | reflexivity | split; reflexivity | apply Prim2SF_valid | assumption |].
  pose proof (mul_error 60 8444249301319680 47 6 (Prim2SF f)) as Herr1.
  cbv zeta in Herr1. cbn [Z.opp] in Herr1. rewrite <- Em in Herr1.
  destruct Herr1 as (K1 & vr1 & vx1 & HK1 & Hr1 & Hx1 & Hb1);
    [lia | reflexivity | split; reflexivity | lia | cbn; lia | apply Prim2SF_valid
     | assumption |].
  destruct (scaled_bound _ _ K1 vr1 vx1 (2 ^ (53 - 6)) HK1 ltac:(reflexivity) Hr1 Hx1 Hb1)
    as (Hlo1 & Hhi1).
  (* m - minutes *)
  destruct (frac_spec (Prim2SF m) (Prim2SF_valid _) Hnm)
    as (mi' & Hmi' & _ & Hvm & Hfm & Hbg & Hqg).
  assert (mi' = mi) by congruence. subst mi'.
  destruct (float_sub_int_ok m mi Hvm Hfm) as (g & Hg & Eg).
  rewrite <- Eg in Hbg, Hqg.
  (* 6000 * g *)
  destruct (int_mul_float_ok 6000 g) as (s & Hs & Es);
    [rewrite SF_of_int_6000; reflexivity | rewrite SF_of_int_6000; reflexivity |].
  rewrite SF_of_int_6000 in Es.
  pose proof (mul_below 6000 6597069766656000 40 (Prim2SF g)) as Hmul.
  cbv zeta in Hmul. cbn [Z.opp] in Hmul. rewrite <- Es in Hmul.
  destruct Hmul as (Hns & se & Hse & Hser);
    [lia | reflexivity | split; reflexivity | apply Prim2SF_valid | assumption |].
  pose proof (mul_error 6000 6597069766656000 40 13 (Prim2SF g)) as Herr2.
  cbv zeta in Herr2. cbn [Z.opp] in Herr2. rewrite <- Es in Herr2.
  destruct Herr2 as (K2 & vr2 & vx2 & HK2 & Hr2 & Hx2 & Hb2);
    [lia | reflexivity | split; reflexivity | lia | cbn; lia | apply Prim2SF_valid
     | assumption |].
  destruct (scaled_bound _ _ K2 vr2 vx2 (2 ^ (53 - 13)) HK2 ltac:(reflexivity) Hr2 Hx2 Hb2)
    as (Hlo2 & Hhi2).
  exists d, mi, se, f, m, g, s.
  split; [|split; [exact Hlo1|split; [exact Hhi1|split; [exact Hlo2|exact Hhi2]]]].
  constructor; try assumption.
  - apply int_of_float_floor; assumption.
  - apply int_of_float_floor; assumption.
  - apply int_of_float_floor; assumption.
Qed.

(** X15.  How close the triple of [dec2dms] is.  For a finite [x]
    the degrees, minutes and hundredths of seconds that it returns,
    put together again, fall short of the absolute value of [x] by
    less than one hundredth of a second of arc (1/360000 of a degree)
    and a rounding error below [2 ^ -52] degrees, and exceed it by
    less than that rounding error. *)
Theorem dec2dms_accuracy (x : float) :
  is_finite x = true ->
  exists degrees minutes seconds,
    dec2dms x = Ok (degrees, minutes, seconds) /\
    (inject_Z degrees + inject_Z minutes * (1 # 60) + inject_Z seconds * (1 # 360000)
     - (1 # 4503599627370496) < Py.float2Q (abs x))%Q /\
    (Py.float2Q (abs x) <
     inject_Z degrees + inject_Z minutes * (1 # 60) + inject_Z seconds * (1 # 360000)
     + (1 # 360000) + (1 # 4503599627370496))%Q.
Proof.
  intros Hfin.
  destruct (dec2dms_products x Hfin)
    as (d & mi & se & f & m & g & s & R & Hlo1 & Hhi1 & Hlo2 & Hhi2).
  exists d, mi, se. split; [exact (dms_run_result _ _ _ _ _ _ _ _ R)|].
  pose proof (run_f_exact _ _ _ _ _ _ _ _ R) as Hf.
  pose proof (run_g_exact _ _ _ _ _ _ _ _ R) as Hg.
  pose proof (run_seconds_floor _ _ _ _ _ _ _ _ R) as Hse.
  pose proof (Qfloor_le (Py.float2Q s)) as Hfl.
  pose proof (Qlt_floor (Py.float2Q s)) as Hfu.
  rewrite <- Hse in Hfl, Hfu. rewrite inject_Z_plus in Hfu.
  change (inject_Z 1) with 1%Q in Hfu.
  split; lra.
Qed.

Lemma dec2dms_accuracy_witness :
  exists degrees minutes seconds,
    dec2dms (float_literal "40.7128") = Ok (degrees, minutes, seconds) /\
    (inject_Z degrees + inject_Z minutes * (1 # 60) + inject_Z seconds * (1 # 360000)
     - (1 # 4503599627370496) < Py.float2Q (abs (float_literal "40.7128")))%Q /\
    (Py.float2Q (abs (float_literal "40.7128")) <
     inject_Z degrees + inject_Z minutes * (1 # 60) + inject_Z seconds * (1 # 360000)
     + (1 # 360000) + (1 # 4503599627370496))%Q.
Proof.
  apply (dec2dms_accuracy (float_literal "40.7128")). reflexivity.
Defined.

(** ** What a call raises *)

Section Exceptions.

Context {L : Libraries}.




End Exceptions.

